(** * The decision pipeline of [EnhancedTrexAI]

    A shallow embedding of [lib/services/enhanced_trex_ai_integration.py]:
    request validation, strategic-context analysis, the learned-policy
    attempt, the rule-based fallback and the assembling entry point
    [get_ai_move], followed by the properties the specification states
    about them.

    Modelling conventions.
    - Python integers are [Z]; [%] and [//] are [Z.modulo] and [Z.div]
      (both round towards minus infinity for a positive divisor, as in
      Python).
    - Python floats are exact rationals kept in lowest terms ([Qred]).  The
      float comparisons of the rule-based path are [count >= size * 0.7] and
      [count >= size * 0.5] on list lengths, where for lengths below 2^50
      the rounded product never crosses an integer, so the exact comparison
      decides the same way, and [min(0.85, 0.65 + b * 0.2)], which is 0.85
      or 0.65 in both arithmetics.  The rounding to float32 of the feature
      vector is not modelled.  The running sum [confidence_total] is exact
      here, while the binary64 sum of the code is rounded at every [+=]
      (24 additions of 0.85 give 20.400000000000002); what is stated about
      the accumulated sum is therefore limited to properties that no
      rounding can break: its sign, and bounds by whole numbers.
    - A request is the JSON-decoded dictionary the host sends: a key may be
      absent, and a present key holds either [null] (Python [None]) or a
      value of the type the interface declares.  The keys [hearts_broken],
      [round_number], [lead_suit], [scores], [trump_suit] and
      [penalty_cards_taken] are copied into the processed state and never
      read again; they are left out.
    - Strings are ASCII; [str.lower] acts on the letters A-Z.
    - Exceptions are values of an error monad; [print] appends a line to the
      [stdout] of the engine and cannot fail.
    - The numpy random generator behind the simulated inference is a
      parameter: any function from the legal cards to a probability vector
      or an exception. *)

From Stdlib Require Import ZArith QArith List String Ascii Bool Lia Permutation Sorted.
From Stdlib Require Import DecimalString Lqa.
Import ListNotations.
Local Open Scope string_scope.
Local Open Scope Z_scope.

(** ** Exceptions and the error monad *)

Inductive exn_kind : Type :=
  KeyError | TypeError | AttributeError | IndexError | ValueError | OtherError.

Record exn : Type := Exn { exn_kind_of : exn_kind; exn_message : string }.

(** [str(e)] *)
Definition str (e : exn) : string := exn_message e.

Inductive result (A : Type) : Type :=
| Ok (a : A)
| Raise (e : exn).
Arguments Ok {A} a.
Arguments Raise {A} e.

Definition bind {A B : Type} (m : result A) (k : A -> result B) : result B :=
  match m with
  | Ok a => k a
  | Raise e => Raise e
  end.

Notation "x <- m ;; k" := (bind m (fun x => k))
  (at level 61, m at next level, right associativity).

(** ** JSON values and the Python operations applied to them *)

Inductive jval (A : Type) : Type :=
| Null
| Val (a : A).
Arguments Null {A}.
Arguments Val {A} a.

(** [d.get(key, default)] and [d[key]] on an optional entry of a dict. *)
Definition dict_get {A : Type} (entry : option A) (default : A) : A :=
  match entry with
  | Some v => v
  | None => default
  end.

Definition getitem {A : Type} (key : string) (entry : option A) : result A :=
  match entry with
  | Some v => Ok v
  | None => Raise (Exn KeyError ("'" ++ key ++ "'"))
  end.

(** [len(x)] *)
Definition len {A : Type} (x : jval (list A)) : result Z :=
  match x with
  | Val l => Ok (Z.of_nat (List.length l))
  | Null => Raise (Exn TypeError "object of type 'NoneType' has no len()")
  end.

(** Iteration ([for c in x], [set(x)], [sorted(x)], [min(x)]). *)
Definition iter {A : Type} (x : jval (list A)) : result (list A) :=
  match x with
  | Val l => Ok l
  | Null => Raise (Exn TypeError "'NoneType' object is not iterable")
  end.

(** Truth value of a list or [None] ([not x], [if x:]). *)
Definition truthy {A : Type} (x : jval (list A)) : bool :=
  match x with
  | Val (_ :: _) => true
  | _ => false
  end.

(** [x <= k] for an integer constant [k]. *)
Definition le_int (x : jval Z) (k : Z) : result bool :=
  match x with
  | Val n => Ok (n <=? k)
  | Null =>
      Raise (Exn TypeError
               "'<=' not supported between instances of 'NoneType' and 'int'")
  end.

(** Float arithmetic, exact and in lowest terms. *)
Definition fadd (a b : Q) : Q := Qred (a + b).
Definition fmul (a b : Q) : Q := Qred (a * b).
Definition fdiv (a b : Q) : Q := Qred (a / b).
Definition of_int (n : Z) : Q := inject_Z n.
Definition of_bool (b : bool) : Q := if b then 1%Q else 0%Q.

(** [x / d] for a float constant [d]. *)
Definition truediv (x : jval Z) (d : Q) : result Q :=
  match x with
  | Val n => Ok (fdiv (of_int n) d)
  | Null =>
      Raise (Exn TypeError
               "unsupported operand type(s) for /: 'NoneType' and 'float'")
  end.

(** [min(a, b)] on floats: the first argument unless the second is smaller. *)
Definition fmin (a b : Q) : Q := if Qle_bool a b then a else b.

Definition lower_ascii (c : ascii) : ascii :=
  let n := nat_of_ascii c in
  if (Nat.leb 65 n && Nat.leb n 90)%bool then ascii_of_nat (n + 32) else c.

Fixpoint lower_string (s : string) : string :=
  match s with
  | EmptyString => EmptyString
  | String c s' => String (lower_ascii c) (lower_string s')
  end.

(** [x.lower()] *)
Definition lower (x : jval string) : result string :=
  match x with
  | Val s => Ok (lower_string s)
  | Null => Raise (Exn AttributeError "'NoneType' object has no attribute 'lower'")
  end.

(** [needle in hay] on strings. *)
Fixpoint contains (needle hay : string) : bool :=
  match hay with
  | EmptyString => String.prefix needle EmptyString
  | String _ hay' => (String.prefix needle hay || contains needle hay')%bool
  end.

(** [l[i]] on a list, with Python's negative indices. *)
Definition list_index {A : Type} (l : list A) (i : Z) : result A :=
  let n := Z.of_nat (List.length l) in
  let j := if i <? 0 then i + n else i in
  match (if (0 <=? j) && (j <? n) then nth_error l (Z.to_nat j) else None)%bool with
  | Some a => Ok a
  | None => Raise (Exn IndexError "list index out of range")
  end.

(** [min(l, key=key)] and [max(l, key=key)]: the first extremal element. *)
Fixpoint min_from (key : Z -> Z) (best : Z) (l : list Z) : Z :=
  match l with
  | [] => best
  | c :: l' => if key c <? key best then min_from key c l' else min_from key best l'
  end.

Definition py_min (l : list Z) (key : Z -> Z) : result Z :=
  match l with
  | [] => Raise (Exn ValueError "min() arg is an empty sequence")
  | c :: l' => Ok (min_from key c l')
  end.

Fixpoint max_from (key : Z -> Z) (best : Z) (l : list Z) : Z :=
  match l with
  | [] => best
  | c :: l' => if key best <? key c then max_from key c l' else max_from key best l'
  end.

Definition py_max (l : list Z) (key : Z -> Z) : result Z :=
  match l with
  | [] => Raise (Exn ValueError "max() arg is an empty sequence")
  | c :: l' => Ok (max_from key c l')
  end.

(** [sorted(l, key=key)]: the stable ascending sort. *)
Fixpoint insert_by (key : Z -> Z) (c : Z) (l : list Z) : list Z :=
  match l with
  | [] => [c]
  | d :: l' => if key c <=? key d then c :: d :: l' else d :: insert_by key c l'
  end.

Fixpoint sorted (l : list Z) (key : Z -> Z) : list Z :=
  match l with
  | [] => []
  | c :: l' => insert_by key c (sorted l' key)
  end.

(** [np.argmax]: the first index of the maximum. *)
Fixpoint argmax_from (best_i : nat) (best : Q) (i : nat) (l : list Q) : nat :=
  match l with
  | [] => best_i
  | p :: l' =>
      if Qle_bool p best then argmax_from best_i best (S i) l'
      else argmax_from i p (S i) l'
  end.

Definition np_argmax (l : list Q) : result nat :=
  match l with
  | [] => Raise (Exn ValueError "attempt to get an argmax of an empty sequence")
  | p :: l' => Ok (argmax_from 0 p 1 l')
  end.

(** A list comprehension whose condition may raise. *)
Fixpoint filterM {A : Type} (p : A -> result bool) (l : list A) : result (list A) :=
  match l with
  | [] => Ok []
  | a :: l' =>
      b <- p a ;;
      rest <- filterM p l' ;;
      Ok (if b then a :: rest else rest)
  end.

(** ** Cards *)

Definition rank (c : Z) : Z := c mod 13.

Definition _is_heart_card (card : Z) : bool := (26 <=? card) && (card <=? 38).
Definition _is_queen_card (card : Z) : bool := card mod 13 =? 10.
Definition _is_king_of_hearts (card : Z) : bool := card =? 37.
Definition _is_diamond_card (card : Z) : bool := (13 <=? card) && (card <=? 25).

Definition _is_penalty_card (card : Z) (game_mode : jval string) : result bool :=
  game_mode <- lower game_mode ;;
  if String.eqb game_mode "hearts" then Ok (_is_heart_card card)
  else if String.eqb game_mode "queens" then Ok (_is_queen_card card)
  else if String.eqb game_mode "king_of_hearts" then Ok (_is_king_of_hearts card)
  else if String.eqb game_mode "diamonds" then Ok (_is_diamond_card card)
  else Ok false.

Definition suits : list string := ["♣"; "♦"; "♥"; "♠"].
Definition ranks : list string :=
  ["2"; "3"; "4"; "5"; "6"; "7"; "8"; "9"; "10"; "J"; "Q"; "K"; "A"].

Definition _card_index_to_name (card_index : Z) : result string :=
  let suit_idx := card_index / 13 in
  let rank_idx := card_index mod 13 in
  r <- list_index ranks rank_idx ;;
  s <- list_index suits suit_idx ;;
  Ok (r ++ s).

(** ** Requests, processed game states, strategic contexts, responses *)

(** The raw request dictionary: [None] is an absent key, [Some Null] a key
    holding [None]. *)
Record request : Type := {
  rq_player_cards : option (jval (list Z));
  rq_valid_cards : option (jval (list Z));
  rq_game_mode : option (jval string);
  rq_played_cards : option (jval (list Z));
  rq_current_player : option (jval Z);
  rq_tricks_won : option (jval Z);
  rq_player_position : option (jval Z);
  rq_trick_number : option (jval Z);
  rq_cards_played_history : option (jval (list Z))
}.

Definition is_some {A : Type} (o : option A) : bool :=
  match o with Some _ => true | None => false end.

(** [field in game_state] *)
Definition has_key (game_state : request) (field : string) : bool :=
  if String.eqb field "player_cards" then is_some (rq_player_cards game_state)
  else if String.eqb field "valid_cards" then is_some (rq_valid_cards game_state)
  else if String.eqb field "game_mode" then is_some (rq_game_mode game_state)
  else if String.eqb field "played_cards" then is_some (rq_played_cards game_state)
  else if String.eqb field "current_player" then is_some (rq_current_player game_state)
  else if String.eqb field "tricks_won" then is_some (rq_tricks_won game_state)
  else if String.eqb field "player_position" then is_some (rq_player_position game_state)
  else if String.eqb field "trick_number" then is_some (rq_trick_number game_state)
  else if String.eqb field "cards_played_history"
       then is_some (rq_cards_played_history game_state)
  else false.

Inductive position : Type := early_position | late_position | middle_position.
Inductive phase : Type := early_game | mid_game | end_game.

(** The processed dictionary built by validation (its [valid] entry is
    [True]). *)
Record processed : Type := {
  gs_player_cards : jval (list Z);
  gs_valid_cards : jval (list Z);
  gs_game_mode : jval string;
  gs_played_cards : jval (list Z);
  gs_current_player : jval Z;
  gs_tricks_won : jval Z;
  gs_player_position : jval Z;
  gs_trick_number : jval Z;
  gs_cards_played_history : jval (list Z);
  gs_hand_size : Z;
  gs_cards_remaining : Z;
  gs_position_type : position;
  gs_game_phase : phase
}.

(** What [_process_enhanced_game_state] returns: [{'valid': False, 'error':
    ...}] or a processed dictionary. *)
Inductive validation : Type :=
| Invalid (error : string)
| Processed (game_state : processed).

Inductive risk : Type := low | medium | high.
Inductive strategy_kind : Type := conservative | informed | balanced.
Inductive advantage : Type := neutral | advantage_high.

Record counting : Type := {
  total_remaining : Z;
  hearts_remaining : Z;
  queens_remaining : Z;
  high_cards_remaining : Z
}.

(** The context dictionary of [_analyze_strategic_context]; the empty
    [opponent_analysis] entry is never filled. *)
Record context : Type := {
  risk_level : risk;
  strategy : strategy_kind;
  position_advantage : advantage;
  penalty_risk : risk;
  card_counting : counting;
  opponent_analysis : unit;
  multi_trick_planning : list string
}.

(** The context seen as the dictionary it is: the value stored under a key. *)
Inductive context_entry : Type :=
| EntryRisk (r : risk)
| EntryStrategy (s : strategy_kind)
| EntryAdvantage (a : advantage)
| EntryCounting (c : counting)
| EntryEmptyDict
| EntryPlans (l : list string).

Definition context_get (c : context) (key : string) : option context_entry :=
  if String.eqb key "risk_level" then Some (EntryRisk (risk_level c))
  else if String.eqb key "strategy" then Some (EntryStrategy (strategy c))
  else if String.eqb key "position_advantage"
       then Some (EntryAdvantage (position_advantage c))
  else if String.eqb key "penalty_risk" then Some (EntryRisk (penalty_risk c))
  else if String.eqb key "card_counting" then Some (EntryCounting (card_counting c))
  else if String.eqb key "opponent_analysis" then Some EntryEmptyDict
  else if String.eqb key "multi_trick_planning"
       then Some (EntryPlans (multi_trick_planning c))
  else None.

Definition strategy_name (s : strategy_kind) : string :=
  match s with
  | conservative => "conservative"
  | informed => "informed"
  | balanced => "balanced"
  end.

Definition position_name (p : position) : string :=
  match p with
  | early_position => "early_position"
  | late_position => "late_position"
  | middle_position => "middle_position"
  end.

(** A response dictionary; [None] is a key the dictionary does not have. *)
Record response : Type := {
  success : bool;
  error : option string;
  best_card : option Z;
  confidence : option Q;
  reasoning : option string;
  model_used : option string;
  strategic_context : option context;
  performance_level : option string;
  decision_type : option string
}.

Record model_entry : Type := {
  model_path : string;
  model_generation : Z;
  model_is_loaded : bool;
  model_primary : bool
}.

(** The engine object ([self]) with the attributes the pipeline touches, and
    the standard output it prints to. *)
Record engine : Type := {
  models : list (string * model_entry);
  model_loaded : bool;
  decisions_made : Z;
  confidence_total : Q;
  stdout : list string
}.

Definition count_decision (self : engine) : engine :=
  {| models := models self; model_loaded := model_loaded self;
     decisions_made := decisions_made self + 1;
     confidence_total := confidence_total self; stdout := stdout self |}.

Definition add_confidence (self : engine) (c : Q) : engine :=
  {| models := models self; model_loaded := model_loaded self;
     decisions_made := decisions_made self;
     confidence_total := fadd (confidence_total self) c; stdout := stdout self |}.

Definition print (self : engine) (line : string) : engine :=
  {| models := models self; model_loaded := model_loaded self;
     decisions_made := decisions_made self;
     confidence_total := confidence_total self;
     stdout := (stdout self ++ [line])%list |}.

(** ** Validation *)

Definition required_fields : list string :=
  ["player_cards"; "valid_cards"; "game_mode"; "current_player"].

Definition _classify_position (player_position : jval Z) (cards_played : Z) : position :=
  if cards_played <=? 1 then early_position
  else if 3 <=? cards_played then late_position
  else middle_position.

Definition _classify_game_phase (trick_number : jval Z) : result phase :=
  b <- le_int trick_number 4 ;;
  if b then Ok early_game
  else
    b' <- le_int trick_number 9 ;;
    if b' then Ok mid_game else Ok end_game.

Definition _process_enhanced_game_state (game_state : request) : result validation :=
  match find (fun field => negb (has_key game_state field)) required_fields with
  | Some field => Ok (Invalid ("Missing required field: " ++ field))
  | None =>
      player_cards <- getitem "player_cards" (rq_player_cards game_state) ;;
      valid_cards <- getitem "valid_cards" (rq_valid_cards game_state) ;;
      let game_mode := dict_get (rq_game_mode game_state) (Val "kingdom") in
      let played_cards := dict_get (rq_played_cards game_state) (Val []) in
      let current_player := dict_get (rq_current_player game_state) (Val 0) in
      let tricks_won := dict_get (rq_tricks_won game_state) (Val 0) in
      let player_position := dict_get (rq_player_position game_state) (Val 1) in
      let trick_number := dict_get (rq_trick_number game_state) (Val 1) in
      let cards_played_history :=
        dict_get (rq_cards_played_history game_state) (Val []) in
      hand_size <- len player_cards ;;
      history_size <- len cards_played_history ;;
      cards_played <- len played_cards ;;
      let position_type := _classify_position player_position cards_played in
      game_phase <- _classify_game_phase trick_number ;;
      Ok (Processed
            {| gs_player_cards := player_cards;
               gs_valid_cards := valid_cards;
               gs_game_mode := game_mode;
               gs_played_cards := played_cards;
               gs_current_player := current_player;
               gs_tricks_won := tricks_won;
               gs_player_position := player_position;
               gs_trick_number := trick_number;
               gs_cards_played_history := cards_played_history;
               gs_hand_size := hand_size;
               gs_cards_remaining := 52 - history_size;
               gs_position_type := position_type;
               gs_game_phase := game_phase |})
  end.

(** ** Strategic-context analysis *)

Definition size (l : list Z) : Z := Z.of_nat (List.length l).

Definition _assess_hearts_risk (game_state : processed) : result risk :=
  valid_cards <- iter (gs_valid_cards game_state) ;;
  let heart_cards := filter _is_heart_card valid_cards in
  if Qle_bool (fmul (of_int (size valid_cards)) (7 # 10)) (of_int (size heart_cards))
  then Ok high
  else if 0 <? size heart_cards then Ok medium
  else Ok low.

Definition _assess_queens_risk (game_state : processed) : result risk :=
  valid_cards <- iter (gs_valid_cards game_state) ;;
  let queen_cards := filter _is_queen_card valid_cards in
  match queen_cards with
  | _ :: _ => Ok high
  | [] => Ok low
  end.

Definition _assess_king_hearts_risk (game_state : processed) : result risk :=
  valid_cards <- iter (gs_valid_cards game_state) ;;
  let king_hearts := filter _is_king_of_hearts valid_cards in
  match king_hearts with
  | _ :: _ => Ok high
  | [] => Ok low
  end.

Definition _assess_diamonds_risk (game_state : processed) : result risk :=
  valid_cards <- iter (gs_valid_cards game_state) ;;
  let diamond_cards := filter _is_diamond_card valid_cards in
  if Qle_bool (fmul (of_int (size valid_cards)) (1 # 2)) (of_int (size diamond_cards))
  then Ok high
  else match diamond_cards with
       | _ :: _ => Ok medium
       | [] => Ok low
       end.

Definition range (n : nat) : list Z := map Z.of_nat (seq 0 n).

Definition _analyze_remaining_cards (game_state : processed) : result counting :=
  played_cards <- iter (gs_cards_played_history game_state) ;;
  let all_cards := range 52 in
  let remaining_cards :=
    filter (fun c => negb (existsb (Z.eqb c) played_cards)) all_cards in
  Ok {| total_remaining := size remaining_cards;
        hearts_remaining := size (filter _is_heart_card remaining_cards);
        queens_remaining := size (filter _is_queen_card remaining_cards);
        high_cards_remaining := size (filter (fun c => 9 <=? c mod 13) remaining_cards) |}.

Definition _plan_future_tricks (game_state : processed) : result (list string) :=
  hand_size <- len (gs_player_cards game_state) ;;
  if 8 <? hand_size then Ok ["Early game: Establish card knowledge"]
  else if 4 <? hand_size then Ok ["Mid game: Position for endgame"]
  else Ok ["End game: Execute optimal sequence"].

Definition _analyze_strategic_context (game_state : processed) : result context :=
  cards_played <- len (gs_played_cards game_state) ;;
  let position_type :=
    _classify_position (gs_player_position game_state) cards_played in
  let strategy0 :=
    match position_type with
    | early_position => conservative
    | late_position => informed
    | middle_position => balanced
    end in
  let risk_level0 :=
    match position_type with
    | early_position => low
    | _ => medium
    end in
  let position_advantage0 :=
    match position_type with
    | late_position => advantage_high
    | _ => neutral
    end in
  game_mode <- lower (gs_game_mode game_state) ;;
  penalty_risk0 <-
    (if String.eqb game_mode "hearts" then _assess_hearts_risk game_state
     else if String.eqb game_mode "queens" then _assess_queens_risk game_state
     else if String.eqb game_mode "king_of_hearts"
          then _assess_king_hearts_risk game_state
     else if String.eqb game_mode "diamonds" then _assess_diamonds_risk game_state
     else Ok low) ;;
  card_counting0 <- _analyze_remaining_cards game_state ;;
  plans <- _plan_future_tricks game_state ;;
  Ok {| risk_level := risk_level0;
        strategy := strategy0;
        position_advantage := position_advantage0;
        penalty_risk := penalty_risk0;
        card_counting := card_counting0;
        opponent_analysis := tt;
        multi_trick_planning := plans |}.

(** ** The learned-policy attempt *)

Definition game_modes : list string :=
  ["kingdom"; "hearts"; "queens"; "diamonds"; "king_of_hearts"].

(** The dictionary [risk_levels]; every tier is a key, so the default of
    [risk_levels.get(..., 0.5)] is never taken. *)
Definition risk_levels (r : risk) : Q :=
  match r with
  | low => 0
  | medium => 1 # 2
  | high => 1
  end.

Fixpoint mapM {A B : Type} (f : A -> result B) (l : list A) : result (list B) :=
  match l with
  | [] => Ok []
  | a :: l' =>
      b <- f a ;;
      rest <- mapM f l' ;;
      Ok (b :: rest)
  end.

Definition _prepare_neural_network_input
    (game_state : processed) (strategic_context : context) : result (list Q) :=
  hand <- len (gs_player_cards game_state) ;;
  won <- truediv (gs_tricks_won game_state) 13 ;;
  trick <- truediv (gs_trick_number game_state) 13 ;;
  in_trick <- len (gs_played_cards game_state) ;;
  let features := [fdiv (of_int hand) 13; won; trick; fdiv (of_int in_trick) 4] in
  mode_encoding <-
    mapM (fun mode =>
            game_mode <- lower (gs_game_mode game_state) ;;
            Ok (if String.eqb game_mode mode then 1%Q else 0%Q))
         game_modes ;;
  let features := (features ++ mode_encoding)%list in
  let features := (features ++ [risk_levels (risk_level strategic_context)])%list in
  cards_played <- len (gs_played_cards game_state) ;;
  let position_type :=
    _classify_position (gs_player_position game_state) cards_played in
  let position_encoding :=
    [ match position_type with early_position => 1%Q | _ => 0%Q end;
      match position_type with late_position => 1%Q | _ => 0%Q end ] in
  let features := (features ++ position_encoding)%list in
  let target_size := 128%nat in
  if Nat.ltb (List.length features) target_size
  then Ok (features ++ repeat 0%Q (target_size - List.length features))%list
  else Ok (firstn target_size features).

(** [x[i]] where [x] may be [None]. *)
Definition subscript {A : Type} (x : jval (list A)) (i : Z) : result A :=
  match x with
  | Val l => list_index l i
  | Null => Raise (Exn TypeError "'NoneType' object is not subscriptable")
  end.

Definition _generate_strategic_reasoning
    (card : Z) (game_state : processed) (strategic_context : context)
  : result string :=
  card_name <- _card_index_to_name card ;;
  game_mode <- lower (gs_game_mode game_state) ;;
  match context_get strategic_context "position_type" with
  | None => Raise (Exn KeyError "'position_type'")
  | Some _ =>
      cards_played <- len (gs_played_cards game_state) ;;
      let position_type :=
        _classify_position (gs_player_position game_state) cards_played in
      let part_position :=
        match position_type with
        | early_position => ["Early position allows conservative play"]
        | late_position => ["Late position provides information advantage"]
        | middle_position => []
        end in
      let part_mode :=
        if String.eqb game_mode "hearts" then
          if contains "Hearts" card_name then ["Playing heart to void suit"]
          else ["Avoiding hearts penalty"]
        else if String.eqb game_mode "queens" then
          if contains "Queen" card_name then ["Forced to play Queen"]
          else ["Safe play avoiding Queens"]
        else [] in
      let part_risk :=
        match risk_level strategic_context with
        | low => ["Low-risk conservative choice"]
        | high => ["Aggressive play despite risks"]
        | medium => []
        end in
      let reasoning_parts := (part_position ++ part_mode ++ part_risk)%list in
      Ok ("Elite AI: " ++ String.concat " | " reasoning_parts
            ++ " | Card: " ++ card_name)
  end.

Definition elite_failure (message : string) : response :=
  {| success := false; error := Some message; best_card := None;
     confidence := None; reasoning := None; model_used := None;
     strategic_context := None; performance_level := None;
     decision_type := None |}.

Definition _create_error_response (error_message : string) : response :=
  {| success := false;
     error := Some error_message;
     best_card := Some 0;
     confidence := Some 0%Q;
     reasoning := Some ("Error: " ++ error_message);
     model_used := Some "Error Handler";
     strategic_context := None;
     performance_level := None;
     decision_type := None |}.

(** ** The rule-based fallback *)

Definition safe_in (game_mode : jval string) (c : Z) : result bool :=
  b <- _is_penalty_card c game_mode ;;
  Ok (negb b).

Definition _select_conservative_card
    (valid_cards : jval (list Z)) (game_state : processed) : result Z :=
  cards <- iter valid_cards ;;
  safe_cards <- filterM (safe_in (gs_game_mode game_state)) cards ;;
  match safe_cards with
  | _ :: _ => py_min safe_cards rank
  | [] => py_min cards rank
  end.

Definition penalty_modes : list string :=
  ["hearts"; "queens"; "king_of_hearts"; "diamonds"].

Definition middle (l : list Z) : result Z :=
  list_index l (size l / 2).

Definition _select_balanced_card
    (valid_cards : jval (list Z)) (game_state : processed) : result Z :=
  game_mode <- lower (gs_game_mode game_state) ;;
  safe_cards <-
    (if existsb (String.eqb game_mode) penalty_modes
     then cards <- iter valid_cards ;; filterM (safe_in (Val game_mode)) cards
     else Ok []) ;;
  match safe_cards with
  | _ :: _ => middle safe_cards
  | [] =>
      cards <- iter valid_cards ;;
      let sorted_cards := sorted cards rank in
      middle sorted_cards
  end.

Definition _select_informed_card
    (valid_cards : jval (list Z)) (game_state : processed)
    (strategic_context : context) : result Z :=
  cards_played <- len (gs_played_cards game_state) ;;
  if 2 <=? cards_played then
    cards <- iter valid_cards ;;
    safe_cards <- filterM (safe_in (gs_game_mode game_state)) cards ;;
    match safe_cards with
    | _ :: _ => py_max safe_cards rank
    | [] => py_min cards rank
    end
  else _select_balanced_card valid_cards game_state.

(** [min(0.85, 0.65 + (position_advantage == 'high') * 0.2)], with 0.85 =
    17/20, 0.65 = 13/20 and 0.2 = 1/5. *)
Definition fallback_confidence (strategic_context : context) : Q :=
  fmin (17 # 20)
       (fadd (13 # 20)
             (fmul (of_bool match position_advantage strategic_context with
                            | advantage_high => true
                            | neutral => false
                            end)
                   (1 # 5))).

Definition _get_enhanced_fallback_decision
    (self : engine) (game_state : processed) (strategic_context : context)
  : engine * result response :=
  let valid_cards := gs_valid_cards game_state in
  if negb (truthy valid_cards)
  then (self, Ok (_create_error_response "No valid cards"))
  else
    match (cards_played <- len (gs_played_cards game_state) ;;
           let position_type :=
             _classify_position (gs_player_position game_state) cards_played in
           best <-
             match strategy strategic_context with
             | conservative => _select_conservative_card valid_cards game_state
             | informed =>
                 _select_informed_card valid_cards game_state strategic_context
             | balanced => _select_balanced_card valid_cards game_state
             end ;;
           Ok (position_type, best)) with
    | Raise e => (self, Raise e)
    | Ok (position_type, best) =>
        let confidence0 := fallback_confidence strategic_context in
        let reasoning0 :=
          "Strategic " ++ strategy_name (strategy strategic_context)
            ++ " play based on " ++ position_name position_type ++ " position" in
        (add_confidence self confidence0,
         Ok {| success := true;
               error := None;
               best_card := Some best;
               confidence := Some confidence0;
               reasoning := Some reasoning0;
               model_used := Some "Enhanced Strategic Rules";
               strategic_context := Some strategic_context;
               performance_level := Some "70% human";
               decision_type := Some "strategic_fallback" |})
    end.

(** ** Example inputs *)

Definition fresh_engine : engine :=
  {| models := []; model_loaded := false; decisions_made := 0;
     confidence_total := 0; stdout := [] |}.

(** The engine after [_load_elite_models] found the primary model. *)
Definition loaded_engine : engine :=
  {| models :=
       [("Claude Sonnet (Gen 100)",
         {| model_path := "assets/ai_models/claude_sonnet_ai/policy.pth";
            model_generation := 100; model_is_loaded := true;
            model_primary := true |})];
     model_loaded := true; decisions_made := 0;
     confidence_total := 0; stdout := [] |}.

(** A deterministic stand-in for the random inference: equal probabilities. *)
Definition uniform_inference (valid_cards : list Z) : result (list Q) :=
  Ok (map (fun _ => 1 # Pos.of_nat (List.length valid_cards)) valid_cards).

Definition make_request
    (player_cards valid_cards : list Z) (game_mode : string)
    (played_cards : list Z) : request :=
  {| rq_player_cards := Some (Val player_cards);
     rq_valid_cards := Some (Val valid_cards);
     rq_game_mode := Some (Val game_mode);
     rq_played_cards := Some (Val played_cards);
     rq_current_player := Some (Val 1);
     rq_tricks_won := Some (Val 4);
     rq_player_position := Some (Val 1);
     rq_trick_number := Some (Val 7);
     rq_cards_played_history := Some (Val [1; 14; 27; 40; 37]) |}.

(** The state of [test_enhanced_ai]. *)
Definition test_state : request :=
  make_request [0; 13; 26; 39; 51] [0; 13; 26] "kingdom" [37].

Definition empty_request : request :=
  {| rq_player_cards := None; rq_valid_cards := None; rq_game_mode := None;
     rq_played_cards := None; rq_current_player := None; rq_tricks_won := None;
     rq_player_position := None; rq_trick_number := None;
     rq_cards_played_history := None |}.

(** A request processed with a given mode, legal cards and cards in the trick. *)
Definition state_of (game_mode : string) (valid_cards played_cards : list Z) : processed :=
  {| gs_player_cards := Val valid_cards;
     gs_valid_cards := Val valid_cards;
     gs_game_mode := Val game_mode;
     gs_played_cards := Val played_cards;
     gs_current_player := Val 0;
     gs_tricks_won := Val 0;
     gs_player_position := Val 1;
     gs_trick_number := Val 1;
     gs_cards_played_history := Val [];
     gs_hand_size := size valid_cards;
     gs_cards_remaining := 52;
     gs_position_type := _classify_position (Val 1) (size played_cards);
     gs_game_phase := early_game |}.

(** The context the analysis derives in late position, Hearts mode, with the
    legal cards [26; 27; 1]. *)
Definition late_context : context :=
  {| risk_level := medium; strategy := informed;
     position_advantage := advantage_high; penalty_risk := medium;
     card_counting :=
       {| total_remaining := 52; hearts_remaining := 13;
          queens_remaining := 4; high_cards_remaining := 16 |};
     opponent_analysis := tt;
     multi_trick_planning := ["End game: Execute optimal sequence"] |}.

Section Pipeline.

(** The outcome of the numpy sampling in [_simulate_neural_network_inference]
    for the given legal cards. *)
Variable np_random : list Z -> result (list Q).

Definition _simulate_neural_network_inference
    (nn_input : list Q) (valid_cards : jval (list Z)) : result (list Q) :=
  num_cards <- len valid_cards ;;
  cards <- iter valid_cards ;;
  np_random cards.

(** The body of the [try] block of [_get_elite_ai_decision]; [Ok None] is the
    case without a primary model, where control falls out of the block. *)
Definition elite_attempt
    (self : engine) (game_state : processed) (strategic_context : context)
  : result (option (Z * Q * string)) :=
  nn_input <- _prepare_neural_network_input game_state strategic_context ;;
  match find (fun m => model_primary (snd m)) (models self) with
  | None => Ok None
  | Some primary_model =>
      card_probabilities <-
        _simulate_neural_network_inference nn_input (gs_valid_cards game_state) ;;
      best_card_idx <- np_argmax card_probabilities ;;
      best <- subscript (gs_valid_cards game_state) (Z.of_nat best_card_idx) ;;
      conf <- list_index card_probabilities (Z.of_nat best_card_idx) ;;
      text <- _generate_strategic_reasoning best game_state strategic_context ;;
      Ok (Some (best, conf, text))
  end.

Definition _get_elite_ai_decision
    (self : engine) (game_state : processed) (strategic_context : context)
  : engine * response :=
  if negb (model_loaded self) then (self, elite_failure "No elite models loaded")
  else
    match elite_attempt self game_state strategic_context with
    | Ok (Some (best, conf, text)) =>
        (add_confidence self conf,
         {| success := true;
            error := None;
            best_card := Some best;
            confidence := Some conf;
            reasoning := Some text;
            model_used := Some "Enhanced Neural Network (Generation 100)";
            strategic_context := Some strategic_context;
            performance_level := Some "90% human";
            decision_type := Some "neural_network" |})
    | Ok None => (self, elite_failure "Elite AI decision failed")
    | Raise e =>
        (print self ("❌ Elite AI decision failed: " ++ str e),
         elite_failure "Elite AI decision failed")
    end.

(** The body of the [try] block of [get_ai_move]. *)
Definition decide (self : engine) (game_state : request) : engine * result response :=
  match _process_enhanced_game_state game_state with
  | Raise e => (self, Raise e)
  | Ok (Invalid _) => (self, Ok (_create_error_response "Invalid game state"))
  | Ok (Processed processed_state) =>
      match _analyze_strategic_context processed_state with
      | Raise e => (self, Raise e)
      | Ok strategic_context =>
          if model_loaded self then
            let (self', elite) :=
              _get_elite_ai_decision self processed_state strategic_context in
            if success elite then (self', Ok elite)
            else _get_enhanced_fallback_decision self' processed_state strategic_context
          else _get_enhanced_fallback_decision self processed_state strategic_context
      end
  end.

Definition get_ai_move (self : engine) (game_state : request) : engine * response :=
  let self := count_decision self in
  match decide self game_state with
  | (self', Ok resp) => (self', resp)
  | (self', Raise e) =>
      (print self' ("❌ Enhanced AI error: " ++ str e),
       _create_error_response (str e))
  end.

End Pipeline.

(** ** Vocabulary of the statements *)

(** [_is_penalty_card] on a mode that is a string, already in lower case. *)
Definition penalty_in (mode : string) (c : Z) : bool :=
  if String.eqb mode "hearts" then _is_heart_card c
  else if String.eqb mode "queens" then _is_queen_card c
  else if String.eqb mode "king_of_hearts" then _is_king_of_hearts c
  else if String.eqb mode "diamonds" then _is_diamond_card c
  else false.

Definition safe_cards_of (mode : string) (cards : list Z) : list Z :=
  filter (fun c => negb (penalty_in mode c)) cards.

(** The cards the conservative and informed policies choose from: the safe
    ones, or all legal cards when none is safe. *)
Definition candidates (mode : string) (cards : list Z) : list Z :=
  match safe_cards_of mode cards with
  | [] => cards
  | safe => safe
  end.

(** [models] holds a primary model, as it does once [_load_elite_models] has
    set [model_loaded]. *)
Definition has_primary (self : engine) : bool :=
  existsb (fun m => model_primary (snd m)) (models self).

(** The strategy the analysis attaches to a position. *)
Definition strategy_at (p : position) : strategy_kind :=
  match p with
  | early_position => conservative
  | late_position => informed
  | middle_position => balanced
  end.

(** A required key holds a value; an optional key is absent or holds one. *)
Definition given {A : Type} (entry : option (jval A)) : bool :=
  match entry with Some (Val _) => true | _ => false end.

Definition not_null {A : Type} (entry : option (jval A)) : bool :=
  match entry with Some Null => false | _ => true end.

Definition well_formed (rq : request) : bool :=
  given (rq_player_cards rq) && given (rq_valid_cards rq)
  && given (rq_game_mode rq) && given (rq_current_player rq)
  && not_null (rq_played_cards rq) && not_null (rq_tricks_won rq)
  && not_null (rq_player_position rq) && not_null (rq_trick_number rq)
  && not_null (rq_cards_played_history rq).

Definition legal_cards (rq : request) : list Z :=
  match rq_valid_cards rq with
  | Some (Val l) => l
  | _ => []
  end.

Definition hand_cards (rq : request) : list Z :=
  match rq_player_cards rq with
  | Some (Val l) => l
  | _ => []
  end.

(** Every field the pipeline reads holds a value. *)
Definition typed (gs : processed) : bool :=
  match gs_player_cards gs, gs_valid_cards gs, gs_game_mode gs,
        gs_played_cards gs, gs_tricks_won gs, gs_trick_number gs,
        gs_cards_played_history gs with
  | Val _, Val _, Val _, Val _, Val _, Val _, Val _ => true
  | _, _, _, _, _, _, _ => false
  end.

(** A success response: every key of a decision is there. *)
Definition is_decision (r : response) : Prop :=
  success r = true /\
  (exists c, best_card r = Some c) /\
  (exists q, confidence r = Some q) /\
  (exists t, reasoning r = Some t) /\
  (exists ctx, strategic_context r = Some ctx) /\
  (decision_type r = Some "strategic_fallback"
   \/ decision_type r = Some "neural_network").

(** The risk tier as the specification words it: from the fraction of the
    legal cards that fall in the penalty suit. *)
Definition tier_of_fraction (threshold : Q) (count total : Z) : risk :=
  if Qle_bool threshold (of_int count / of_int total) then high
  else if 0 <? count then medium
  else low.

(** The balanced choice as the specification words it: the middle element,
    by ascending rank, of the safe cards of a penalty mode, else of all legal
    cards. *)
Definition balanced_by_rank (mode : string) (cards : list Z) : result Z :=
  match (if existsb (String.eqb mode) penalty_modes
         then safe_cards_of mode cards else []) with
  | [] => middle (sorted cards rank)
  | safe => middle (sorted safe rank)
  end.

(** ** Construction of the engine, its statistics, and what a run can reach *)

(** What the module meets when it is imported and when it looks for the
    model files: whether [import torch] and [from stable_baselines3 import
    PPO] succeed, and the answers of [os.path.exists]. *)
Record environment : Type := {
  torch_imported : bool;
  sb3_imported : bool;
  path_exists : string -> bool
}.

(** The module-level flag: [True] when both imports of the [try] block
    succeeded. *)
Definition PYTORCH_AVAILABLE (env : environment) : bool :=
  torch_imported env && sb3_imported env.

Record model_info : Type := {
  info_name : string;
  info_path : string;
  info_generation : Z;
  info_primary : bool
}.

Definition elite_models : list model_info :=
  [ {| info_name := "Claude Sonnet (Gen 100)";
       info_path := "assets/ai_models/claude_sonnet_ai";
       info_generation := 100;
       info_primary := true |};
    {| info_name := "ChatGPT (Gen 99)";
       info_path := "assets/ai_models/chatgpt_ai";
       info_generation := 99;
       info_primary := false |} ].

(** [os.path.join(a, b)] for a relative [b], with the POSIX separator. *)
Definition path_join (a b : string) : string := a ++ "/" ++ b.

(** [str(n)] of an integer, as an f-string prints it. *)
Definition str_int (n : Z) : string := NilZero.string_of_int (Z.to_int n).

(** [d[key] = v] on a dictionary kept in insertion order. *)
Fixpoint dict_set {A : Type} (d : list (string * A)) (key : string) (v : A)
  : list (string * A) :=
  match d with
  | [] => [(key, v)]
  | (k, x) :: d' =>
      if String.eqb k key then (k, v) :: d' else (k, x) :: dict_set d' key v
  end.

Definition set_models (self : engine) (m : list (string * model_entry)) : engine :=
  {| models := m; model_loaded := model_loaded self;
     decisions_made := decisions_made self;
     confidence_total := confidence_total self; stdout := stdout self |}.

Definition set_model_loaded (self : engine) (b : bool) : engine :=
  {| models := models self; model_loaded := b;
     decisions_made := decisions_made self;
     confidence_total := confidence_total self; stdout := stdout self |}.

(** One turn of the loop of [_load_elite_models].  Nothing in the body can
    raise on these inputs, so its [except] clause is never entered. *)
Definition load_model (env : environment) (self : engine) (info : model_info) : engine :=
  let policy_path := path_join (info_path info) "policy.pth" in
  if negb (path_exists env policy_path)
  then print self ("⚠️ Model not found: " ++ policy_path)
  else
    let self := print self ("🧠 Loading " ++ info_name info ++ "...") in
    let self := print self ("📈 Generation: " ++ str_int (info_generation info)) in
    let self := print self "🏆 Performance: Elite (90%+ human level)" in
    let self :=
      set_models self
        (dict_set (models self) (info_name info)
           {| model_path := policy_path;
              model_generation := info_generation info;
              model_is_loaded := true;
              model_primary := info_primary info |}) in
    if info_primary info
    then print (set_model_loaded self true)
               ("✅ PRIMARY: " ++ info_name info ++ " loaded successfully")
    else print self ("✅ BACKUP: " ++ info_name info ++ " loaded successfully").

Definition _load_elite_models (env : environment) (self : engine) : engine * bool :=
  if negb (PYTORCH_AVAILABLE env)
  then (print self "❌ PyTorch not available - enhanced AI requires PyTorch", false)
  else
    let self := fold_left (load_model env) elite_models self in
    if model_loaded self
    then (print self "🚀 Enhanced Trex AI initialized - 90% human performance ready!",
          true)
    else (print self "⚠️ No elite models loaded - falling back to strategic rules",
          false).

(** The constructor.  [torch.device('cpu')] is evaluated before the models
    are loaded; the name [torch] is unbound when its import failed. *)
Definition __init__ (env : environment) : result engine :=
  if negb (torch_imported env)
  then Raise (Exn OtherError "name 'torch' is not defined")
  else
    Ok (fst (_load_elite_models env
               {| models := []; model_loaded := false; decisions_made := 0;
                  confidence_total := 0; stdout := [] |})).

(** The dictionary of [get_performance_stats]. *)
Record performance_stats : Type := {
  stats_decisions_made : Z;
  stats_average_confidence : Q;
  stats_model_loaded : bool;
  stats_models_available : list string;
  stats_performance_level : string;
  stats_version : string
}.

Definition get_performance_stats (self : engine) : performance_stats :=
  let avg_confidence :=
    fdiv (confidence_total self) (of_int (Z.max 1 (decisions_made self))) in
  {| stats_decisions_made := decisions_made self;
     stats_average_confidence := avg_confidence;
     stats_model_loaded := model_loaded self;
     stats_models_available := map fst (models self);
     stats_performance_level :=
       if model_loaded self then "90% human" else "70% human";
     stats_version := "Enhanced Trex AI v2.0" |}.

(** The engines a program can hold: built by the constructor, then used for
    any number of calls of [get_ai_move], each with its own outcome of the
    random inference. *)
Inductive reachable (env : environment) : engine -> Prop :=
| reachable_init (self : engine) :
    __init__ env = Ok self -> reachable env self
| reachable_move (self : engine) (np_random : list Z -> result (list Q))
                 (rq : request) :
    reachable env self -> reachable env (fst (get_ai_move np_random self rq)).

(** An environment with both imports and the given model files. *)
Definition env_with (files : list string) : environment :=
  {| torch_imported := true; sb3_imported := true;
     path_exists := fun p => existsb (String.eqb p) files |}.

(** ** More vocabulary: the entries of a request, and the rule-based choice *)

Definition mode_of (rq : request) : string :=
  match rq_game_mode rq with
  | Some (Val m) => m
  | _ => "kingdom"
  end.

Definition played_of (rq : request) : list Z :=
  match rq_played_cards rq with
  | Some (Val l) => l
  | _ => []
  end.

Definition history_of (rq : request) : list Z :=
  match rq_cards_played_history rq with
  | Some (Val l) => l
  | _ => []
  end.

(** The card the rule-based fallback settles on, read off the three
    selection policies: by the mode in lower case, the legal cards and the
    number of cards already in the trick. *)
Definition rule_choice (mode : string) (vc : list Z) (n : Z) : result Z :=
  match _classify_position Null n with
  | early_position => py_min (candidates mode vc) rank
  | late_position =>
      match safe_cards_of mode vc with
      | [] => py_min vc rank
      | safe => py_max safe rank
      end
  | middle_position =>
      match (if existsb (String.eqb mode) penalty_modes
             then safe_cards_of mode vc else []) with
      | [] => middle (sorted vc rank)
      | safe => middle safe
      end
  end.

(** The text and the confidence of a fallback decision at a position. *)
Definition reasoning_at (p : position) : string :=
  "Strategic " ++ strategy_name (strategy_at p) ++ " play based on "
    ++ position_name p ++ " position".

Definition confidence_at (p : position) : Q :=
  match p with
  | late_position => 17 # 20
  | _ => 13 # 20
  end.

(** A request with another entry under [valid_cards], or under
    [player_cards]. *)
Definition with_valid_cards (rq : request) (entry : option (jval (list Z))) : request :=
  {| rq_player_cards := rq_player_cards rq;
     rq_valid_cards := entry;
     rq_game_mode := rq_game_mode rq;
     rq_played_cards := rq_played_cards rq;
     rq_current_player := rq_current_player rq;
     rq_tricks_won := rq_tricks_won rq;
     rq_player_position := rq_player_position rq;
     rq_trick_number := rq_trick_number rq;
     rq_cards_played_history := rq_cards_played_history rq |}.

Definition with_player_cards (rq : request) (entry : option (jval (list Z))) : request :=
  {| rq_player_cards := entry;
     rq_valid_cards := rq_valid_cards rq;
     rq_game_mode := rq_game_mode rq;
     rq_played_cards := rq_played_cards rq;
     rq_current_player := rq_current_player rq;
     rq_tricks_won := rq_tricks_won rq;
     rq_player_position := rq_player_position rq;
     rq_trick_number := rq_trick_number rq;
     rq_cards_played_history := rq_cards_played_history rq |}.

(** ** Lists, [min], [max] and [sorted] *)

Lemma bind_Ok {A B : Type} (m : result A) (k : A -> result B) (b : B) :
  bind m k = Ok b -> exists a, m = Ok a /\ k a = Ok b.
Proof.
  destruct m as [a | e]; simpl; intro H; [ exists a; auto | discriminate ].
Qed.

Lemma min_from_first (key : Z -> Z) (l : list Z) :
  forall x, exists before after,
    x :: l = (before ++ min_from key x l :: after)%list /\
    (forall d, In d before -> key (min_from key x l) < key d) /\
    (forall d, In d after -> key (min_from key x l) <= key d).
Proof.
  induction l as [| c l IH]; intro x; simpl.
  - exists [], []. repeat split; simpl; intros; contradiction.
  - destruct (key c <? key x) eqn:E.
    + apply Z.ltb_lt in E.
      destruct (IH c) as (b & a & Heq & Hb & Ha).
      exists (x :: b), a. split; [ simpl; now rewrite Heq |].
      assert (Hc : key (min_from key c l) <= key c).
      { destruct b as [| b0 b'].
        - simpl in Heq. injection Heq as H0 _. rewrite <- H0. lia.
        - simpl in Heq. injection Heq as H0 _. subst b0.
          specialize (Hb c (or_introl eq_refl)). lia. }
      split; [| exact Ha].
      intros d [<- | Hd]; [ lia | now apply Hb ].
    + apply Z.ltb_ge in E.
      destruct (IH x) as (b & a & Heq & Hb & Ha).
      destruct b as [| b0 b'].
      * simpl in Heq. injection Heq as H0 H1.
        rewrite <- H0 in Ha |- *. subst a.
        exists [], (c :: l). simpl.
        split; [ reflexivity |].
        split; [ intros; contradiction |].
        intros d [<- | Hd]; [ lia | now apply Ha ].
      * simpl in Heq. injection Heq as H0 H1. subst b0.
        exists (x :: c :: b'), a. simpl. rewrite <- H1.
        split; [ reflexivity |].
        pose proof (Hb x (or_introl eq_refl)) as Hx.
        split; [| exact Ha].
        intros d [<- | [<- | Hd]]; [ lia | lia | apply Hb; now right ].
Qed.

Lemma min_from_In (key : Z -> Z) (l : list Z) (x : Z) :
  In (min_from key x l) (x :: l).
Proof.
  destruct (min_from_first key l x) as (b & a & Heq & _).
  rewrite Heq. apply in_or_app. right. now left.
Qed.

Lemma max_from_In (key : Z -> Z) (l : list Z) :
  forall x, In (max_from key x l) (x :: l).
Proof.
  induction l as [| c l IH]; intro x; simpl.
  - now left.
  - destruct (key x <? key c).
    + right. apply IH.
    + destruct (IH x) as [H | H]; [ now left | right; now right ].
Qed.

Lemma insert_by_perm (key : Z -> Z) (c : Z) (l : list Z) :
  Permutation (insert_by key c l) (c :: l).
Proof.
  induction l as [| d l IH]; simpl.
  - apply Permutation_refl.
  - destruct (key c <=? key d).
    + apply Permutation_refl.
    + eapply perm_trans; [ apply perm_skip, IH | apply perm_swap ].
Qed.

Lemma sorted_perm (key : Z -> Z) (l : list Z) : Permutation (sorted l key) l.
Proof.
  induction l as [| c l IH]; simpl.
  - apply perm_nil.
  - eapply perm_trans; [ apply insert_by_perm | now apply perm_skip ].
Qed.

Lemma middle_In (l : list Z) :
  l <> [] ->
  exists c, middle l = Ok c /\ nth_error l (List.length l / 2)%nat = Some c /\ In c l.
Proof.
  intro Hne. unfold middle, list_index, size.
  assert (Hlen : (0 < List.length l)%nat).
  { destruct l; [ congruence | simpl; lia ]. }
  assert (Hhalf : Z.of_nat (List.length l) / 2 = Z.of_nat (List.length l / 2)).
  { now rewrite Nat2Z.inj_div. }
  assert (Hlt : (List.length l / 2 < List.length l)%nat).
  { apply Nat.div_lt; lia. }
  rewrite Hhalf.
  replace (Z.of_nat (List.length l / 2) <? 0) with false
    by (symmetry; apply Z.ltb_ge; lia).
  replace (0 <=? Z.of_nat (List.length l / 2)) with true
    by (symmetry; apply Z.leb_le; lia).
  replace (Z.of_nat (List.length l / 2) <? Z.of_nat (List.length l)) with true
    by (symmetry; apply Z.ltb_lt; lia).
  cbn [andb]. rewrite Nat2Z.id.
  destruct (nth_error l (List.length l / 2)) as [c |] eqn:E.
  - exists c. split; [ reflexivity | split; [ reflexivity |] ].
    eapply nth_error_In; eauto.
  - apply nth_error_None in E. lia.
Qed.

(** ** The Python operations on values of the declared type *)

Lemma lower_ascii_idempotent (c : ascii) : lower_ascii (lower_ascii c) = lower_ascii c.
Proof.
  destruct c as [[] [] [] [] [] [] [] []]; reflexivity.
Qed.

Lemma lower_string_idempotent (s : string) :
  lower_string (lower_string s) = lower_string s.
Proof.
  induction s as [| c s IH]; simpl.
  - reflexivity.
  - now rewrite lower_ascii_idempotent, IH.
Qed.

Lemma _is_penalty_card_Val (c : Z) (m : string) :
  _is_penalty_card c (Val m) = Ok (penalty_in (lower_string m) c).
Proof.
  unfold _is_penalty_card, penalty_in. simpl.
  repeat match goal with
         | |- context [String.eqb ?a ?b] => destruct (String.eqb a b)
         end; reflexivity.
Qed.

Lemma filterM_safe (m : string) (cards : list Z) :
  filterM (safe_in (Val m)) cards = Ok (safe_cards_of (lower_string m) cards).
Proof.
  induction cards as [| c cards IH]; simpl.
  - reflexivity.
  - unfold safe_in at 1. rewrite _is_penalty_card_Val. simpl.
    rewrite IH. simpl. reflexivity.
Qed.

Lemma safe_cards_incl (mode : string) (cards : list Z) (c : Z) :
  In c (safe_cards_of mode cards) -> In c cards.
Proof.
  unfold safe_cards_of. intro H. apply filter_In in H. tauto.
Qed.

Lemma candidates_incl (mode : string) (cards : list Z) (c : Z) :
  In c (candidates mode cards) -> In c cards.
Proof.
  unfold candidates.
  destruct (safe_cards_of mode cards) as [| s l] eqn:E; [ auto |].
  rewrite <- E. apply safe_cards_incl.
Qed.

(** ** Validation and analysis of well-formed requests *)

Lemma typed_fields (gs : processed) :
  typed gs = true ->
  exists pc vc m pl tw tn h,
    gs_player_cards gs = Val pc /\ gs_valid_cards gs = Val vc /\
    gs_game_mode gs = Val m /\ gs_played_cards gs = Val pl /\
    gs_tricks_won gs = Val tw /\ gs_trick_number gs = Val tn /\
    gs_cards_played_history gs = Val h.
Proof.
  unfold typed.
  destruct (gs_player_cards gs) as [| pc]; [ discriminate |].
  destruct (gs_valid_cards gs) as [| vc]; [ discriminate |].
  destruct (gs_game_mode gs) as [| m]; [ discriminate |].
  destruct (gs_played_cards gs) as [| pl]; [ discriminate |].
  destruct (gs_tricks_won gs) as [| tw]; [ discriminate |].
  destruct (gs_trick_number gs) as [| tn]; [ discriminate |].
  destruct (gs_cards_played_history gs) as [| h]; [ discriminate |].
  intros _. exists pc, vc, m, pl, tw, tn, h. repeat split.
Qed.

Lemma _classify_game_phase_Val (n : Z) : exists ph, _classify_game_phase (Val n) = Ok ph.
Proof.
  unfold _classify_game_phase. simpl.
  destruct (n <=? 4); simpl; [ eauto |].
  destruct (n <=? 9); eauto.
Qed.

(** A well-formed request passes validation, and the processed state holds
    its hand and its legal cards. *)
Lemma _process_well_formed (rq : request) :
  well_formed rq = true ->
  exists gs,
    _process_enhanced_game_state rq = Ok (Processed gs) /\
    typed gs = true /\
    gs_valid_cards gs = Val (legal_cards rq) /\
    gs_player_cards gs = Val (hand_cards rq).
Proof.
  destruct rq as [pc vc gm pl cp tw pp tn h].
  unfold well_formed, legal_cards, hand_cards. simpl. intro H.
  repeat (apply andb_prop in H; destruct H as [H ?]).
  destruct pc as [[| pc] |]; try discriminate.
  destruct vc as [[| vc] |]; try discriminate.
  destruct gm as [[| gm] |]; try discriminate.
  destruct cp as [[| cp] |]; try discriminate.
  assert (Hph : exists ph, _classify_game_phase (dict_get tn (Val 1)) = Ok ph).
  { destruct tn as [[| tn] |]; try discriminate; apply _classify_game_phase_Val. }
  destruct Hph as (ph & Hph).
  unfold _process_enhanced_game_state. simpl. rewrite Hph.
  destruct pl as [[| pl] |]; try discriminate;
    destruct h as [[| h] |]; try discriminate;
    destruct tw as [[| tw] |]; try discriminate;
    destruct tn as [[| tn] |]; try discriminate;
    simpl; eexists; repeat split.
Qed.

Lemma _assess_hearts_risk_Val (gs : processed) (vc : list Z) :
  gs_valid_cards gs = Val vc ->
  _assess_hearts_risk gs =
  Ok (if Qle_bool (fmul (of_int (size vc)) (7 # 10))
                  (of_int (size (filter _is_heart_card vc)))
      then high
      else if 0 <? size (filter _is_heart_card vc) then medium else low).
Proof.
  intro H. unfold _assess_hearts_risk. rewrite H. simpl.
  destruct (Qle_bool _ _); [ reflexivity |].
  destruct (0 <? _); reflexivity.
Qed.

Lemma _assess_diamonds_risk_Val (gs : processed) (vc : list Z) :
  gs_valid_cards gs = Val vc ->
  _assess_diamonds_risk gs =
  Ok (if Qle_bool (fmul (of_int (size vc)) (1 # 2))
                  (of_int (size (filter _is_diamond_card vc)))
      then high
      else match filter _is_diamond_card vc with
           | _ :: _ => medium
           | [] => low
           end).
Proof.
  intro H. unfold _assess_diamonds_risk. rewrite H. simpl.
  destruct (Qle_bool _ _); [ reflexivity |].
  destruct (filter _ vc); reflexivity.
Qed.

Lemma _assess_queens_risk_Val (gs : processed) (vc : list Z) :
  gs_valid_cards gs = Val vc ->
  _assess_queens_risk gs = Ok (if existsb _is_queen_card vc then high else low).
Proof.
  intro H. unfold _assess_queens_risk. rewrite H. simpl.
  destruct (filter _is_queen_card vc) as [| q l] eqn:E.
  - destruct (existsb _is_queen_card vc) eqn:X; [| reflexivity ].
    apply existsb_exists in X. destruct X as (x & Hin & Hq).
    assert (Hf : In x (filter _is_queen_card vc)) by (apply filter_In; auto).
    rewrite E in Hf. contradiction.
  - assert (Hf : In q (filter _is_queen_card vc)) by (rewrite E; now left).
    apply filter_In in Hf.
    assert (X : existsb _is_queen_card vc = true)
      by (apply existsb_exists; exists q; tauto).
    now rewrite X.
Qed.

Lemma _assess_king_hearts_risk_Val (gs : processed) (vc : list Z) :
  gs_valid_cards gs = Val vc ->
  _assess_king_hearts_risk gs = Ok (if existsb (Z.eqb 37) vc then high else low).
Proof.
  intro H. unfold _assess_king_hearts_risk. rewrite H. simpl.
  destruct (filter _is_king_of_hearts vc) as [| q l] eqn:E.
  - destruct (existsb (Z.eqb 37) vc) eqn:X; [| reflexivity ].
    apply existsb_exists in X. destruct X as (x & Hin & Hq).
    apply Z.eqb_eq in Hq. subst x.
    assert (Hf : In 37 (filter _is_king_of_hearts vc))
      by (apply filter_In; split; [ assumption | reflexivity ]).
    rewrite E in Hf. contradiction.
  - assert (Hf : In q (filter _is_king_of_hearts vc)) by (rewrite E; now left).
    apply filter_In in Hf. destruct Hf as [Hin Hq].
    unfold _is_king_of_hearts in Hq. apply Z.eqb_eq in Hq. subst q.
    assert (X : existsb (Z.eqb 37) vc = true)
      by (apply existsb_exists; exists 37; split; [ assumption | reflexivity ]).
    now rewrite X.
Qed.

(** On a typed state the analysis returns a context; its position-derived
    entries and its per-mode tier are the ones below. *)
Lemma _analyze_typed (gs : processed) (pc vc : list Z) (m : string) (pl h : list Z) :
  gs_player_cards gs = Val pc -> gs_valid_cards gs = Val vc ->
  gs_game_mode gs = Val m -> gs_played_cards gs = Val pl ->
  gs_cards_played_history gs = Val h ->
  exists ctx,
    _analyze_strategic_context gs = Ok ctx /\
    strategy ctx = strategy_at (_classify_position (gs_player_position gs) (size pl)) /\
    risk_level ctx =
      match _classify_position (gs_player_position gs) (size pl) with
      | early_position => low
      | _ => medium
      end /\
    position_advantage ctx =
      match _classify_position (gs_player_position gs) (size pl) with
      | late_position => advantage_high
      | _ => neutral
      end /\
    (if String.eqb (lower_string m) "hearts" then _assess_hearts_risk gs
     else if String.eqb (lower_string m) "queens" then _assess_queens_risk gs
     else if String.eqb (lower_string m) "king_of_hearts"
          then _assess_king_hearts_risk gs
     else if String.eqb (lower_string m) "diamonds" then _assess_diamonds_risk gs
     else Ok low) = Ok (penalty_risk ctx).
Proof.
  intros Hpc Hvc Hm Hpl Hh.
  unfold _analyze_strategic_context, _analyze_remaining_cards, _plan_future_tricks.
  rewrite Hpc, Hm, Hpl, Hh. cbn [len lower iter bind]. fold (size pl).
  set (tier := if String.eqb (lower_string m) "hearts" then _ else _).
  assert (Ht : exists r, tier = Ok r).
  { subst tier.
    rewrite (_assess_hearts_risk_Val gs vc Hvc), (_assess_queens_risk_Val gs vc Hvc),
      (_assess_king_hearts_risk_Val gs vc Hvc), (_assess_diamonds_risk_Val gs vc Hvc).
    repeat match goal with
           | |- context [String.eqb ?a ?b] => destruct (String.eqb a b)
           end; eauto. }
  destruct Ht as (r & Ht). rewrite Ht. cbn [bind].
  destruct (8 <? Z.of_nat (List.length pc)); [| destruct (4 <? Z.of_nat (List.length pc)) ];
    eexists; (split; [ reflexivity |]); cbn; repeat split; reflexivity.
Qed.

(** ** The selection policies *)

Lemma py_min_first (l : list Z) :
  l <> [] ->
  exists c before after,
    py_min l rank = Ok c /\
    l = (before ++ c :: after)%list /\
    (forall d, In d before -> rank c < rank d) /\
    (forall d, In d after -> rank c <= rank d).
Proof.
  destruct l as [| x l]; [ congruence | intros _ ].
  destruct (min_from_first rank l x) as (b & a & Heq & Hb & Ha).
  exists (min_from rank x l), b, a. simpl. auto.
Qed.

Lemma candidates_nonempty (mode : string) (cards : list Z) :
  cards <> [] -> candidates mode cards <> [].
Proof.
  unfold candidates. destruct (safe_cards_of mode cards); [ auto | discriminate ].
Qed.

Lemma _select_conservative_card_Val (gs : processed) (m : string) (vc : list Z) :
  gs_game_mode gs = Val m ->
  _select_conservative_card (Val vc) gs = py_min (candidates (lower_string m) vc) rank.
Proof.
  intro Hm. unfold _select_conservative_card, candidates. simpl.
  rewrite Hm, filterM_safe. simpl.
  destruct (safe_cards_of (lower_string m) vc); reflexivity.
Qed.

Lemma _select_balanced_card_Val (gs : processed) (m : string) (vc : list Z) :
  gs_game_mode gs = Val m ->
  _select_balanced_card (Val vc) gs =
  match (if existsb (String.eqb (lower_string m)) penalty_modes
         then safe_cards_of (lower_string m) vc else []) with
  | [] => middle (sorted vc rank)
  | safe => middle safe
  end.
Proof.
  intro Hm. unfold _select_balanced_card. rewrite Hm. cbn [lower bind iter].
  destruct (existsb (String.eqb (lower_string m)) penalty_modes).
  - rewrite filterM_safe, lower_string_idempotent. cbn [bind].
    destruct (safe_cards_of (lower_string m) vc); reflexivity.
  - reflexivity.
Qed.

Lemma _select_informed_card_Val
    (gs : processed) (ctx : context) (m : string) (vc pl : list Z) :
  gs_game_mode gs = Val m -> gs_played_cards gs = Val pl ->
  _select_informed_card (Val vc) gs ctx =
  if 2 <=? size pl then
    match safe_cards_of (lower_string m) vc with
    | [] => py_min vc rank
    | safe => py_max safe rank
    end
  else _select_balanced_card (Val vc) gs.
Proof.
  intros Hm Hpl. unfold _select_informed_card. rewrite Hm, Hpl. cbn [len bind iter].
  fold (size pl). destruct (2 <=? size pl); [| reflexivity ].
  rewrite filterM_safe. cbn [bind].
  destruct (safe_cards_of (lower_string m) vc); reflexivity.
Qed.

Lemma _select_conservative_card_In (gs : processed) (m : string) (vc : list Z) :
  gs_game_mode gs = Val m -> vc <> [] ->
  exists c, _select_conservative_card (Val vc) gs = Ok c /\ In c vc.
Proof.
  intros Hm Hne. rewrite (_select_conservative_card_Val gs m vc Hm).
  destruct (py_min_first _ (candidates_nonempty (lower_string m) vc Hne))
    as (c & b & a & Hc & Heq & _).
  exists c. split; [ assumption |].
  apply (candidates_incl (lower_string m)). rewrite Heq.
  apply in_or_app. right. now left.
Qed.

Lemma _select_balanced_card_In (gs : processed) (m : string) (vc : list Z) :
  gs_game_mode gs = Val m -> vc <> [] ->
  exists c, _select_balanced_card (Val vc) gs = Ok c /\ In c vc.
Proof.
  intros Hm Hne. rewrite (_select_balanced_card_Val gs m vc Hm).
  set (safe := if existsb _ _ then _ else _).
  assert (Hsafe : forall c, In c safe -> In c vc).
  { subst safe. destruct (existsb _ _); [ apply safe_cards_incl | contradiction ]. }
  destruct safe as [| s l].
  - assert (Hs : sorted vc rank <> []).
    { intro E. apply Hne. apply Permutation_nil. rewrite <- E.
      apply sorted_perm. }
    destruct (middle_In _ Hs) as (c & Hc & _ & Hin).
    exists c. split; [ assumption |].
    eapply Permutation_in; [ apply sorted_perm | exact Hin ].
  - destruct (middle_In (s :: l)) as (c & Hc & _ & Hin); [ discriminate |].
    exists c. split; [ assumption | now apply Hsafe ].
Qed.

Lemma _select_informed_card_In
    (gs : processed) (ctx : context) (m : string) (vc pl : list Z) :
  gs_game_mode gs = Val m -> gs_played_cards gs = Val pl -> vc <> [] ->
  exists c, _select_informed_card (Val vc) gs ctx = Ok c /\ In c vc.
Proof.
  intros Hm Hpl Hne. rewrite (_select_informed_card_Val gs ctx m vc pl Hm Hpl).
  destruct (2 <=? size pl); [| now apply (_select_balanced_card_In gs m) ].
  destruct (safe_cards_of (lower_string m) vc) as [| s l] eqn:E.
  - destruct vc as [| x vc]; [ congruence |].
    exists (min_from rank x vc). split; [ reflexivity | apply min_from_In ].
  - exists (max_from rank s l). split; [ reflexivity |].
    apply (safe_cards_incl (lower_string m)). rewrite E. apply max_from_In.
Qed.

(** ** The fallback *)

(** The three ways the fallback can end. *)
Lemma fallback_cases (self : engine) (gs : processed) (ctx : context) :
  _get_enhanced_fallback_decision self gs ctx
    = (self, Ok (_create_error_response "No valid cards"))
  \/ (exists e, _get_enhanced_fallback_decision self gs ctx = (self, Raise e))
  \/ (exists r c,
        _get_enhanced_fallback_decision self gs ctx
          = (add_confidence self (fallback_confidence ctx), Ok r) /\
        is_decision r /\ best_card r = Some c /\
        confidence r = Some (fallback_confidence ctx) /\
        strategic_context r = Some ctx /\
        decision_type r = Some "strategic_fallback").
Proof.
  unfold _get_enhanced_fallback_decision.
  destruct (truthy (gs_valid_cards gs)); cbn [negb]; [| now left ].
  right.
  match goal with
  | |- context [match ?body with Ok _ => _ | Raise _ => _ end] =>
      destruct body as [[pt c] | e]
  end; [ right | left; eauto ].
  eexists. exists c. split; [ reflexivity |].
  unfold is_decision. cbn. repeat split; eauto.
Qed.

(** On a typed state with a non-empty legal list the fallback decides, and
    decides for a legal card. *)
Lemma fallback_typed
    (self : engine) (gs : processed) (ctx : context) (m : string) (vc pl : list Z) :
  gs_valid_cards gs = Val vc -> gs_game_mode gs = Val m ->
  gs_played_cards gs = Val pl -> vc <> [] ->
  exists r c,
    _get_enhanced_fallback_decision self gs ctx
      = (add_confidence self (fallback_confidence ctx), Ok r) /\
    success r = true /\ best_card r = Some c /\ In c vc /\
    decision_type r = Some "strategic_fallback".
Proof.
  intros Hvc Hm Hpl Hne.
  assert (Hsel : exists c,
             match strategy ctx with
             | conservative => _select_conservative_card (Val vc) gs
             | informed => _select_informed_card (Val vc) gs ctx
             | balanced => _select_balanced_card (Val vc) gs
             end = Ok c /\ In c vc).
  { destruct (strategy ctx).
    - now apply (_select_conservative_card_In gs m).
    - now apply (_select_informed_card_In gs ctx m vc pl).
    - now apply (_select_balanced_card_In gs m). }
  destruct Hsel as (c & Hsel & Hin).
  unfold _get_enhanced_fallback_decision. rewrite Hvc, Hpl.
  destruct vc as [| x vc]; [ congruence |].
  cbn [truthy negb len bind]. rewrite Hsel. cbn [bind].
  eexists. exists c. split; [ reflexivity |]. cbn. auto.
Qed.

Lemma count_decision_counters (self : engine) :
  decisions_made (count_decision self) = decisions_made self + 1 /\
  confidence_total (count_decision self) = confidence_total self /\
  model_loaded (count_decision self) = model_loaded self /\
  stdout (count_decision self) = stdout self.
Proof. repeat split. Qed.

(** A request that passes validation has lists under [player_cards],
    [played_cards] and [cards_played_history]: their lengths were taken. *)
Lemma _process_Processed_fields (rq : request) (gs : processed) :
  _process_enhanced_game_state rq = Ok (Processed gs) ->
  exists pc pl h,
    gs_player_cards gs = Val pc /\ gs_played_cards gs = Val pl /\
    gs_cards_played_history gs = Val h.
Proof.
  unfold _process_enhanced_game_state.
  destruct (find _ required_fields); [ discriminate |].
  intro H.
  apply bind_Ok in H. destruct H as (pc & _ & H).
  apply bind_Ok in H. destruct H as (vc & _ & H).
  apply bind_Ok in H. destruct H as (n1 & H1 & H).
  apply bind_Ok in H. destruct H as (n2 & H2 & H).
  apply bind_Ok in H. destruct H as (n3 & H3 & H).
  apply bind_Ok in H. destruct H as (ph & _ & H).
  injection H as <-. cbn.
  destruct pc as [| pc]; [ discriminate |].
  destruct (dict_get (rq_cards_played_history rq) (Val [])) as [| h]; [ discriminate |].
  destruct (dict_get (rq_played_cards rq) (Val [])) as [| pl]; [ discriminate |].
  do 3 eexists. repeat split.
Qed.

Lemma find_first {A : Type} (p : A -> bool) (l : list A) :
  (exists x, In x l /\ p x = true) ->
  exists x before after,
    find p l = Some x /\ l = (before ++ x :: after)%list /\
    p x = true /\ (forall y, In y before -> p y = false).
Proof.
  induction l as [| a l IH]; intros (x & Hin & Hx); [ contradiction |].
  simpl. destruct (p a) eqn:E.
  - exists a, [], l.
    split; [ reflexivity |]. split; [ reflexivity |]. split; [ assumption |].
    intros y Hy. contradiction.
  - destruct Hin as [-> | Hin]; [ congruence |].
    destruct IH as (y & b & c & Hf & Hl & Hy & Hb); [ eauto |].
    exists y, (a :: b), c.
    split; [ assumption |]. split; [ now rewrite Hl |]. split; [ assumption |].
    intros z [<- | Hz]; [ assumption | now apply Hb ].
Qed.

(** The confidence of a fallback decision: 0.65, or 0.85 with the position
    advantage. *)
Lemma fallback_confidence_values (ctx : context) :
  fallback_confidence ctx
  = match position_advantage ctx with
    | advantage_high => 17 # 20
    | neutral => 13 # 20
    end.
Proof. unfold fallback_confidence. destruct (position_advantage ctx); reflexivity. Qed.

(** The card the learned-policy attempt picks, [valid_cards[argmax]], is a
    legal card whenever the subscript succeeds. *)
Lemma subscript_In (vc : list Z) (i : nat) (c : Z) :
  subscript (Val vc) (Z.of_nat i) = Ok c -> In c vc.
Proof.
  unfold subscript, list_index.
  replace (Z.of_nat i <? 0) with false by (symmetry; apply Z.ltb_ge; lia).
  destruct ((0 <=? Z.of_nat i) && (Z.of_nat i <? Z.of_nat (List.length vc)))%bool;
    [| discriminate ].
  rewrite Nat2Z.id.
  destruct (nth_error vc i) as [a |] eqn:E; [| discriminate ].
  intro H. injection H as <-. eapply nth_error_In; eauto.
Qed.

(** ** Claims about the analysis, the feature vector and the selection policies *)

(** C4, as amended.  Under the conservative policy, for every non-empty
    legal list and every game mode, the chosen card has the minimum rank
    among the candidates (the legal cards that are no penalty cards, or all
    legal cards when every one is a penalty card); among candidates of that
    rank it is the one that comes first in the legal list: every candidate
    before it has a strictly higher rank. *)
Theorem C4_conservative_first_minimum (gs : processed) (m : string) (vc : list Z) :
  gs_game_mode gs = Val m ->
  vc <> [] ->
  exists c before after,
    _select_conservative_card (Val vc) gs = Ok c /\
    candidates (lower_string m) vc = (before ++ c :: after)%list /\
    (forall d, In d before -> rank c < rank d) /\
    (forall d, In d after -> rank c <= rank d).
Proof.
  intros Hm Hne. rewrite (_select_conservative_card_Val gs m vc Hm).
  destruct (py_min_first _ (candidates_nonempty (lower_string m) vc Hne))
    as (c & b & a & Hc & Heq & Hb & Ha).
  exists c, b, a. auto.
Qed.

Lemma StronglySorted_filter (p : Z -> bool) (l : list Z) :
  StronglySorted Z.lt l -> StronglySorted Z.lt (filter p l).
Proof.
  induction 1 as [| a l Hs IH Hall]; simpl.
  - constructor.
  - destruct (p a); [| assumption ].
    constructor; [ assumption |].
    rewrite Forall_forall in *. intros x Hx.
    apply filter_In in Hx. now apply Hall.
Qed.

Lemma StronglySorted_after (before after : list Z) (c : Z) :
  StronglySorted Z.lt (before ++ c :: after) -> forall d, In d after -> c < d.
Proof.
  induction before as [| b before IH]; simpl; intro Hs.
  - apply StronglySorted_inv in Hs. destruct Hs as [_ Hall].
    now rewrite Forall_forall in Hall.
  - apply StronglySorted_inv in Hs. now apply IH.
Qed.

(** When the legal list is in ascending card order, the first candidate of
    minimum rank is also the one with the lowest card index. *)
Lemma conservative_lowest_index_when_ascending
    (gs : processed) (m : string) (vc : list Z) :
  gs_game_mode gs = Val m -> vc <> [] -> StronglySorted Z.lt vc ->
  exists c,
    _select_conservative_card (Val vc) gs = Ok c /\
    forall d, In d (candidates (lower_string m) vc) -> rank d = rank c -> c <= d.
Proof.
  intros Hm Hne Hs. rewrite (_select_conservative_card_Val gs m vc Hm).
  destruct (py_min_first _ (candidates_nonempty (lower_string m) vc Hne))
    as (c & b & a & Hc & Heq & Hb & Ha).
  exists c. split; [ assumption |]. intros d Hd Hr.
  assert (Hcs : StronglySorted Z.lt (candidates (lower_string m) vc)).
  { unfold candidates.
    destruct (safe_cards_of (lower_string m) vc) eqn:E; [ assumption |].
    rewrite <- E. now apply StronglySorted_filter. }
  rewrite Heq in Hd, Hcs. apply in_app_or in Hd.
  destruct Hd as [Hd | [<- | Hd]].
  - apply Hb in Hd. lia.
  - lia.
  - apply (StronglySorted_after b a c Hcs) in Hd. lia.
Qed.

(** Where the balanced policy has no safe card to pick from (a mode without
    penalty cards, or every legal card a penalty card) it returns the middle
    element by ascending rank, as specified. *)
Lemma _select_balanced_card_by_rank (gs : processed) (m : string) (vc : list Z) :
  gs_game_mode gs = Val m ->
  (if existsb (String.eqb (lower_string m)) penalty_modes
   then safe_cards_of (lower_string m) vc else []) = [] ->
  _select_balanced_card (Val vc) gs = balanced_by_rank (lower_string m) vc.
Proof.
  intros Hm Hsafe. rewrite (_select_balanced_card_Val gs m vc Hm).
  unfold balanced_by_rank. now rewrite Hsafe.
Qed.

Lemma fraction_test (t : Q) (h n : Z) :
  0 < n ->
  Qle_bool (fmul (of_int n) t) (of_int h) = Qle_bool t (of_int h / of_int n).
Proof.
  intro Hn. unfold fmul, of_int.
  assert (Hpos : (0 < inject_Z n)%Q) by (unfold Qlt; simpl; lia).
  assert (Hnz : ~ inject_Z n == 0) by (intro E; rewrite E in Hpos; discriminate).
  apply eq_iff_eq_true. rewrite !Qle_bool_iff, Qred_correct.
  rewrite <- (Qmult_le_r t (inject_Z h / inject_Z n) (inject_Z n) Hpos).
  rewrite (Qmult_comm (inject_Z h / inject_Z n)), Qmult_div_r by assumption.
  now rewrite (Qmult_comm t).
Qed.

Lemma size_pos (l : list Z) : l <> [] -> 0 < size l.
Proof. destruct l; [ congruence | unfold size; simpl; lia ]. Qed.

(** C6, as amended.  On a validated, typed state the analysis returns a
    context whose per-mode tier ([penalty_risk]) depends on the legal cards
    alone.  Hearts, non-empty legal list: High when the fraction of hearts is
    at least 0.70, else Medium when some legal card is a heart, else Low.
    Queens: High exactly when a legal card is a queen, else Low.
    KingOfHearts: High exactly when card 37 is legal, else Low.  Diamonds,
    non-empty legal list: High when the fraction of diamonds is at least
    0.50, else Medium when positive, else Low.  With an empty legal list the
    tier is High in Hearts and in Diamonds. *)
Theorem C6_penalty_risk_tiers
    (gs : processed) (pc vc : list Z) (m : string) (pl h : list Z) :
  gs_player_cards gs = Val pc -> gs_valid_cards gs = Val vc ->
  gs_game_mode gs = Val m -> gs_played_cards gs = Val pl ->
  gs_cards_played_history gs = Val h ->
  exists ctx,
    _analyze_strategic_context gs = Ok ctx /\
    (lower_string m = "hearts" ->
     penalty_risk ctx =
       match vc with
       | [] => high
       | _ => tier_of_fraction (7 # 10) (size (filter _is_heart_card vc)) (size vc)
       end) /\
    (lower_string m = "queens" ->
     penalty_risk ctx = if existsb _is_queen_card vc then high else low) /\
    (lower_string m = "king_of_hearts" ->
     penalty_risk ctx = if existsb (Z.eqb 37) vc then high else low) /\
    (lower_string m = "diamonds" ->
     penalty_risk ctx =
       match vc with
       | [] => high
       | _ => tier_of_fraction (1 # 2) (size (filter _is_diamond_card vc)) (size vc)
       end).
Proof.
  intros Hpc Hvc Hm Hpl Hh.
  destruct (_analyze_typed gs pc vc m pl h Hpc Hvc Hm Hpl Hh)
    as (ctx & Hctx & _ & _ & _ & Htier).
  exists ctx. split; [ assumption |].
  rewrite (_assess_hearts_risk_Val gs vc Hvc), (_assess_queens_risk_Val gs vc Hvc),
    (_assess_king_hearts_risk_Val gs vc Hvc), (_assess_diamonds_risk_Val gs vc Hvc)
    in Htier.
  repeat split; intro E; rewrite E in Htier; cbn [String.eqb Ascii.eqb Bool.eqb] in Htier;
    injection Htier as <-.
  - destruct vc as [| x vc']; [ reflexivity |].
    unfold tier_of_fraction. rewrite fraction_test by (apply size_pos; discriminate).
    reflexivity.
  - reflexivity.
  - reflexivity.
  - destruct vc as [| x vc']; [ reflexivity |].
    unfold tier_of_fraction. rewrite fraction_test by (apply size_pos; discriminate).
    destruct (Qle_bool _ _); [ reflexivity |].
    destruct (filter _is_diamond_card (x :: vc')) as [| d l]; reflexivity.
Qed.

(** The scalar at index 9 of the feature vector is read from the entry
    [risk_level] of the context, which the analysis derives from the
    position: low in early position, medium otherwise. *)
Lemma derived_risk_level
    (gs : processed) (pc vc : list Z) (m : string) (pl h : list Z) (ctx : context) :
  gs_player_cards gs = Val pc -> gs_valid_cards gs = Val vc ->
  gs_game_mode gs = Val m -> gs_played_cards gs = Val pl ->
  gs_cards_played_history gs = Val h ->
  _analyze_strategic_context gs = Ok ctx ->
  risk_levels (risk_level ctx) = if size pl <=? 1 then 0%Q else (1 # 2)%Q.
Proof.
  intros Hpc Hvc Hm Hpl Hh Hctx.
  destruct (_analyze_typed gs pc vc m pl h Hpc Hvc Hm Hpl Hh)
    as (ctx' & Hctx' & _ & Hr & _).
  rewrite Hctx in Hctx'. injection Hctx' as <-. rewrite Hr.
  unfold _classify_position.
  destruct (size pl <=? 1); [ reflexivity |].
  destruct (3 <=? size pl); reflexivity.
Qed.

(** C7, as amended.  For every validated, typed state the feature vector
    has exactly 128 elements, in this order: hand size / 13, tricks won /
    13, trick number / 13, cards already played in the trick / 4, the
    one-hot over the modes kingdom, hearts, queens, diamonds,
    king_of_hearts, one scalar read from the context, one slot for early
    and one for late position (both zero in middle position), and 116
    zeros.  The scalar is the entry [risk_level] of the context mapped
    low = 0, medium = 1/2, high = 1, not the per-mode tier [penalty_risk]:
    on the context that the analysis derives it is 0 with at most one card
    in the trick and 1/2 otherwise, never 1, whatever the per-mode tier. *)
Theorem C7_feature_vector
    (gs : processed) (pc vc pl h : list Z) (tw tn : Z) (m : string) :
  gs_player_cards gs = Val pc -> gs_valid_cards gs = Val vc ->
  gs_tricks_won gs = Val tw -> gs_trick_number gs = Val tn ->
  gs_played_cards gs = Val pl -> gs_game_mode gs = Val m ->
  gs_cards_played_history gs = Val h ->
  let mode_is := fun mode => if String.eqb (lower_string m) mode then 1%Q else 0%Q in
  let position_type := _classify_position (gs_player_position gs) (size pl) in
  let features := fun scalar : Q =>
    ([ fdiv (of_int (size pc)) 13; fdiv (of_int tw) 13; fdiv (of_int tn) 13;
       fdiv (of_int (size pl)) 4;
       mode_is "kingdom"; mode_is "hearts"; mode_is "queens";
       mode_is "diamonds"; mode_is "king_of_hearts";
       scalar;
       match position_type with early_position => 1 | _ => 0 end;
       match position_type with late_position => 1 | _ => 0 end ]%Q
     ++ repeat 0%Q 116)%list in
  (forall ctx,
     _prepare_neural_network_input gs ctx
     = Ok (features (match risk_level ctx with
                     | low => 0 | medium => 1 # 2 | high => 1
                     end)%Q)) /\
  (forall scalar, List.length (features scalar) = 128%nat) /\
  exists ctx,
    _analyze_strategic_context gs = Ok ctx /\
    risk_level ctx = (if size pl <=? 1 then low else medium) /\
    _prepare_neural_network_input gs ctx
    = Ok (features (if size pl <=? 1 then 0 else 1 # 2)%Q).
Proof.
  intros Hpc Hvc Htw Htn Hpl Hm Hh mode_is position_type features.
  assert (Hall : forall ctx,
             _prepare_neural_network_input gs ctx
             = Ok (features (match risk_level ctx with
                             | low => 0 | medium => 1 # 2 | high => 1
                             end)%Q)).
  { intro ctx. unfold _prepare_neural_network_input.
    rewrite Hpc, Htw, Htn, Hpl, Hm. reflexivity. }
  split; [ exact Hall |]. split; [ reflexivity |].
  destruct (_analyze_typed gs pc vc m pl h Hpc Hvc Hm Hpl Hh)
    as (ctx & Hctx & _ & Hr & _).
  assert (Hlevel : risk_level ctx = if size pl <=? 1 then low else medium).
  { rewrite Hr. unfold _classify_position.
    destruct (size pl <=? 1); [ reflexivity |].
    destruct (3 <=? size pl); reflexivity. }
  exists ctx. split; [ exact Hctx |]. split; [ exact Hlevel |].
  rewrite (Hall ctx), Hlevel.
  destruct (size pl <=? 1); reflexivity.
Qed.

(** ** Claims about the entry point *)

Section Decisions.

(** Any outcome of the numpy sampling. *)
Variable np_random : list Z -> result (list Q).

(** ** The learned-policy attempt never yields a decision *)

(** The context dictionary has no [position_type] entry. *)
Lemma context_has_no_position_type (ctx : context) :
  context_get ctx "position_type" = None.
Proof. reflexivity. Qed.

Lemma _generate_strategic_reasoning_raises
    (card : Z) (gs : processed) (ctx : context) :
  exists e, _generate_strategic_reasoning card gs ctx = Raise e.
Proof.
  unfold _generate_strategic_reasoning.
  destruct (_card_index_to_name card) as [name | e]; simpl; [| eauto ].
  destruct (lower (gs_game_mode gs)) as [m | e]; simpl; eauto.
Qed.

Lemma elite_attempt_no_decision (self : engine) (gs : processed) (ctx : context) :
  elite_attempt np_random self gs ctx = Ok None \/ exists e, elite_attempt np_random self gs ctx = Raise e.
Proof.
  unfold elite_attempt.
  destruct (_prepare_neural_network_input gs ctx) as [v | e]; simpl; [| eauto ].
  destruct (find _ (models self)); [| now left ]. right.
  destruct (_simulate_neural_network_inference np_random v (gs_valid_cards gs)) as [ps | e];
    simpl; [| eauto ].
  destruct (np_argmax ps) as [i | e]; simpl; [| eauto ].
  destruct (subscript (gs_valid_cards gs) (Z.of_nat i)) as [c | e]; simpl; [| eauto ].
  destruct (list_index ps (Z.of_nat i)) as [q | e]; simpl; [| eauto ].
  destruct (_generate_strategic_reasoning_raises c gs ctx) as (e & ->). simpl. eauto.
Qed.

(** What an attempt leaves behind: a failure dictionary, the counters as they
    were, and at most one printed line. *)
Lemma _get_elite_ai_decision_fails (self : engine) (gs : processed) (ctx : context) :
  let (self', r) := _get_elite_ai_decision np_random self gs ctx in
  success r = false /\
  (self' = self \/ exists e, self' = print self ("❌ Elite AI decision failed: " ++ str e)).
Proof.
  unfold _get_elite_ai_decision.
  destruct (model_loaded self); simpl; [| auto ].
  destruct (elite_attempt_no_decision self gs ctx) as [-> | (e & ->)]; eauto.
Qed.

(** Every call counts one decision and ends in the error dictionary, with
    the cumulative confidence untouched, or in a decision of the rule-based
    fallback, whose confidence is added once. *)
Lemma get_ai_move_cases (self : engine) (rq : request) :
  decisions_made (fst (get_ai_move np_random self rq)) = decisions_made self + 1 /\
  ((exists msg, snd (get_ai_move np_random self rq) = _create_error_response msg) /\
   confidence_total (fst (get_ai_move np_random self rq)) = confidence_total self
   \/
   (exists c ctx,
      is_decision (snd (get_ai_move np_random self rq)) /\
      best_card (snd (get_ai_move np_random self rq)) = Some c /\
      confidence (snd (get_ai_move np_random self rq)) = Some (fallback_confidence ctx) /\
      decision_type (snd (get_ai_move np_random self rq)) = Some "strategic_fallback" /\
      confidence_total (fst (get_ai_move np_random self rq))
        = fadd (confidence_total self) (fallback_confidence ctx))).
Proof.
  unfold get_ai_move, decide.
  destruct (_process_enhanced_game_state rq) as [[err | gs] | e];
    [ cbn; split; [ reflexivity | left; eauto ] | | cbn; split; [ reflexivity | left; eauto ] ].
  destruct (_analyze_strategic_context gs) as [ctx | e];
    [| cbn; split; [ reflexivity | left; eauto ] ].
  assert (Hfb : forall self1,
             decisions_made self1 = decisions_made self + 1 ->
             confidence_total self1 = confidence_total self ->
             let out :=
               match _get_enhanced_fallback_decision self1 gs ctx with
               | (self', Ok resp) => (self', resp)
               | (self', Raise e) =>
                   (print self' ("❌ Enhanced AI error: " ++ str e),
                    _create_error_response (str e))
               end in
             decisions_made (fst out) = decisions_made self + 1 /\
             ((exists msg, snd out = _create_error_response msg) /\
              confidence_total (fst out) = confidence_total self
              \/
              (exists c ctx0,
                 is_decision (snd out) /\ best_card (snd out) = Some c /\
                 confidence (snd out) = Some (fallback_confidence ctx0) /\
                 decision_type (snd out) = Some "strategic_fallback" /\
                 confidence_total (fst out)
                   = fadd (confidence_total self) (fallback_confidence ctx0)))).
  { intros self1 Hd Hc.
    destruct (fallback_cases self1 gs ctx)
      as [-> | [(e & ->) | (r & c & -> & Hdec & Hb & Hq & _ & Ht)]]; cbn.
    - split; [ assumption | left; split; [ eauto | assumption ] ].
    - split; [ assumption | left; split; [ eauto | assumption ] ].
    - split; [ assumption |]. right. exists c, ctx.
      repeat split; try assumption; try apply Hdec. now rewrite Hc. }
  destruct (count_decision_counters self) as (Hd & Hc & Hl & _).
  rewrite Hl. destruct (model_loaded self).
  - pose proof (_get_elite_ai_decision_fails (count_decision self) gs ctx) as He.
    destruct (_get_elite_ai_decision np_random (count_decision self) gs ctx) as [self1 r1].
    destruct He as [Hs Hself]. rewrite Hs.
    apply Hfb; destruct Hself as [-> | (e & ->)]; assumption.
  - now apply Hfb.
Qed.

(** C1.  For every well-formed request (the required fields present, every
    present field holding a value) whose [valid_cards] is not empty,
    [get_ai_move] answers with [success = True] and a [best_card] that is an
    element of [valid_cards], whether or not a model is loaded.  With a
    loaded model the learned-policy attempt runs first: the card it picks is
    a legal one ([subscript_In]), but the attempt always ends in its failure
    dictionary ([_get_elite_ai_decision_fails]), and the rule-based fallback
    decides. *)
Theorem C1_best_card_is_legal (self : engine) (rq : request) :
  well_formed rq = true ->
  legal_cards rq <> [] ->
  exists c,
    success (snd (get_ai_move np_random self rq)) = true /\
    best_card (snd (get_ai_move np_random self rq)) = Some c /\
    In c (legal_cards rq).
Proof.
  intros Hwf Hne.
  destruct (_process_well_formed rq Hwf) as (gs & Hp & Ht & Hvc & _).
  destruct (typed_fields gs Ht)
    as (pc & vc & m & pl & tw & tn & h & Hpc & Hvc' & Hm & Hpl & _ & _ & Hh).
  destruct (_analyze_typed gs pc vc m pl h Hpc Hvc' Hm Hpl Hh) as (ctx & Hctx & _).
  unfold get_ai_move, decide. rewrite Hp, Hctx.
  assert (Hfb : forall self1,
             exists c r,
               _get_enhanced_fallback_decision self1 gs ctx
                 = (add_confidence self1 (fallback_confidence ctx), Ok r) /\
               success r = true /\ best_card r = Some c /\ In c (legal_cards rq)).
  { intro self1.
    destruct (fallback_typed self1 gs ctx m (legal_cards rq) pl Hvc Hm Hpl Hne)
      as (r & c & Hr & Hs & Hb & Hin & _).
    exists c, r. auto. }
  destruct (model_loaded (count_decision self)).
  - pose proof (_get_elite_ai_decision_fails (count_decision self) gs ctx) as He.
    destruct (_get_elite_ai_decision np_random (count_decision self) gs ctx) as [self1 r1].
    destruct He as [Hs _]. rewrite Hs.
    destruct (Hfb self1) as (c & r & -> & Hok & Hb & Hin). exists c. cbn. auto.
  - destruct (Hfb (count_decision self)) as (c & r & -> & Hok & Hb & Hin).
    exists c. cbn. auto.
Qed.

(** C2.  For every input dictionary [get_ai_move] returns a structured
    response: a decision carrying every key of a decision, or the error
    dictionary with [success = False].  Every exception raised by validation,
    analysis, the learned-policy attempt or the fallback is caught on the
    way. *)
Theorem C2_always_a_structured_response (self : engine) (rq : request) :
  is_decision (snd (get_ai_move np_random self rq))
  \/ (success (snd (get_ai_move np_random self rq)) = false /\
      exists msg, snd (get_ai_move np_random self rq) = _create_error_response msg).
Proof.
  destruct (get_ai_move_cases self rq) as [_ [[(msg & Hr) _] | (c & ctx & Hd & _)]].
  - right. rewrite Hr. split; [ reflexivity | eauto ].
  - now left.
Qed.

(** With a primary model among [models], the attempt ends in an exception. *)
Lemma elite_attempt_raises (self : engine) (gs : processed) (ctx : context) :
  has_primary self = true -> exists e, elite_attempt np_random self gs ctx = Raise e.
Proof.
  intro Hprim.
  destruct (elite_attempt_no_decision self gs ctx) as [H | H]; [| assumption ].
  exfalso. unfold elite_attempt in H.
  destruct (_prepare_neural_network_input gs ctx) as [v | e]; [| discriminate ].
  cbn [bind] in H. unfold has_primary in Hprim.
  destruct (find (fun m => model_primary (snd m)) (models self)) as [pm |] eqn:E.
  - destruct (_simulate_neural_network_inference np_random v (gs_valid_cards gs)) as [ps | e];
      [| discriminate ]. cbn [bind] in H.
    destruct (np_argmax ps) as [i | e]; [| discriminate ]. cbn [bind] in H.
    destruct (subscript (gs_valid_cards gs) (Z.of_nat i)) as [c | e];
      [| discriminate ]. cbn [bind] in H.
    destruct (list_index ps (Z.of_nat i)) as [q | e]; [| discriminate ].
    cbn [bind] in H.
    destruct (_generate_strategic_reasoning_raises c gs ctx) as (e & He).
    rewrite He in H. discriminate.
  - apply existsb_exists in Hprim. destruct Hprim as (x & Hin & Hx).
    apply (find_none _ _ E) in Hin. congruence.
Qed.

(** C3, as amended.  For every request that passes validation with an empty
    [valid_cards], the response is the error dictionary: [success = False],
    no [decision_type] key, and the cumulative confidence is not touched.
    When the game mode is a string the message is "No valid cards": it comes
    from the first test of the rule-based fallback, which runs after the
    context analysis and, when a model is loaded, after the learned-policy
    attempt, whose failure has been printed by then. *)
Theorem C3_empty_legal_set_error_response
    (self : engine) (rq : request) (gs : processed) :
  _process_enhanced_game_state rq = Ok (Processed gs) ->
  gs_valid_cards gs = Val [] ->
  (exists msg, snd (get_ai_move np_random self rq) = _create_error_response msg) /\
  success (snd (get_ai_move np_random self rq)) = false /\
  decision_type (snd (get_ai_move np_random self rq)) = None /\
  confidence_total (fst (get_ai_move np_random self rq)) = confidence_total self /\
  (forall m,
      gs_game_mode gs = Val m ->
      snd (get_ai_move np_random self rq) = _create_error_response "No valid cards" /\
      (model_loaded self = false -> stdout (fst (get_ai_move np_random self rq)) = stdout self) /\
      (model_loaded self = true -> has_primary self = true ->
       exists e,
         stdout (fst (get_ai_move np_random self rq))
         = (stdout self ++ [("❌ Elite AI decision failed: " ++ str e)%string])%list)).
Proof.
  intros Hp Hvc.
  assert (Hfb : forall self1 ctx,
             _get_enhanced_fallback_decision self1 gs ctx
             = (self1, Ok (_create_error_response "No valid cards"))).
  { intros. unfold _get_enhanced_fallback_decision. now rewrite Hvc. }
  assert (Hgen : exists msg,
             snd (get_ai_move np_random self rq) = _create_error_response msg /\
             confidence_total (fst (get_ai_move np_random self rq)) = confidence_total self).
  { unfold get_ai_move, decide. rewrite Hp.
    destruct (_analyze_strategic_context gs) as [ctx | e]; [| cbn; eauto ].
    destruct (model_loaded (count_decision self)).
    - pose proof (_get_elite_ai_decision_fails (count_decision self) gs ctx) as He.
      destruct (_get_elite_ai_decision np_random (count_decision self) gs ctx) as [self1 r1].
      destruct He as [Hs Hself]. rewrite Hs, Hfb. cbn.
      eexists. split; [ reflexivity |].
      destruct Hself as [-> | (e & ->)]; reflexivity.
    - rewrite Hfb. cbn. eauto. }
  destruct Hgen as (msg & Hr & Hc).
  split; [ eauto |]. rewrite Hr.
  split; [ reflexivity |]. split; [ reflexivity |]. split; [ assumption |].
  intros m Hm. rewrite <- Hr.
  destruct (_process_Processed_fields rq gs Hp) as (pc & pl & h & Hpc & Hpl & Hh).
  destruct (_analyze_typed gs pc [] m pl h Hpc Hvc Hm Hpl Hh) as (ctx & Hctx & _).
  unfold get_ai_move, decide. rewrite Hp, Hctx.
  destruct (count_decision_counters self) as (_ & _ & Hl & Hout). rewrite Hl.
  destruct (model_loaded self) eqn:Hloaded.
  - pose proof (_get_elite_ai_decision_fails (count_decision self) gs ctx) as He.
    assert (Hraise : has_primary self = true ->
              exists e,
                _get_elite_ai_decision np_random (count_decision self) gs ctx
                = (print (count_decision self) ("❌ Elite AI decision failed: " ++ str e),
                   elite_failure "Elite AI decision failed")).
    { intro Hprim. unfold _get_elite_ai_decision. rewrite Hl. cbn [negb].
      destruct (elite_attempt_raises (count_decision self) gs ctx Hprim) as (e & ->).
      eauto. }
    destruct (_get_elite_ai_decision np_random (count_decision self) gs ctx) as [self1 r1].
    destruct He as [Hs _]. rewrite Hs, Hfb. cbn.
    split; [ reflexivity |]. split; [ discriminate |]. intros _ Hprim.
    destruct (Hraise Hprim) as (e & He). injection He as -> _.
    exists e. reflexivity.
  - rewrite Hfb. cbn. split; [ reflexivity |]. split; [ reflexivity | discriminate ].
Qed.

(** C8, as amended.  For a request missing at least one required field,
    the validator's record names the first missing field in the order
    player_cards, valid_cards, game_mode, current_player, but [get_ai_move]
    discards that record: it answers with the error dictionary of the fixed
    message "Invalid game state" ([success = False], the placeholder
    [best_card] 0), which names no field and is the same whichever field is
    missing.  The call does nothing else but count itself: no analysis, no
    learned-policy attempt and no card selection take place. *)
Theorem C8_first_missing_field (self : engine) (rq : request) :
  (exists f, In f required_fields /\ has_key rq f = false) ->
  exists field before after,
    required_fields = (before ++ field :: after)%list /\
    (forall f, In f before -> has_key rq f = true) /\
    has_key rq field = false /\
    _process_enhanced_game_state rq
      = Ok (Invalid ("Missing required field: " ++ field)) /\
    get_ai_move np_random self rq
      = (count_decision self, _create_error_response "Invalid game state") /\
    success (snd (get_ai_move np_random self rq)) = false /\
    error (snd (get_ai_move np_random self rq)) = Some "Invalid game state" /\
    reasoning (snd (get_ai_move np_random self rq))
      = Some "Error: Invalid game state" /\
    contains field "Error: Invalid game state" = false /\
    best_card (snd (get_ai_move np_random self rq)) = Some 0.
Proof.
  intros (f & Hin & Hf).
  destruct (find_first (fun field => negb (has_key rq field)) required_fields)
    as (x & b & a & Hfind & Hl & Hx & Hb).
  { exists f. split; [ assumption | now rewrite Hf ]. }
  assert (Hp : _process_enhanced_game_state rq
               = Ok (Invalid ("Missing required field: " ++ x))).
  { unfold _process_enhanced_game_state. now rewrite Hfind. }
  assert (Hg : get_ai_move np_random self rq
               = (count_decision self, _create_error_response "Invalid game state")).
  { unfold get_ai_move, decide. now rewrite Hp. }
  assert (Hreq : In x required_fields).
  { rewrite Hl. apply in_or_app. right. now left. }
  exists x, b, a. split; [ assumption |].
  split; [ intros y Hy; apply Hb in Hy; now apply negb_false_iff in Hy |].
  split; [ now apply negb_true_iff in Hx |].
  split; [ assumption |]. split; [ assumption |]. rewrite Hg.
  split; [ reflexivity |]. split; [ reflexivity |]. split; [ reflexivity |].
  split; [| reflexivity ].
  destruct Hreq as [<- | [<- | [<- | [<- | []]]]]; reflexivity.
Qed.

(** C9, as amended.  [decisions_made] is incremented exactly once by every
    call, at entry, whatever the outcome.  [confidence_total] is increased
    exactly once, by the confidence of the decision, when the call ends in a
    decision, and is left unchanged when it ends in an error response. *)
Theorem C9_counters (self : engine) (rq : request) :
  decisions_made (fst (get_ai_move np_random self rq)) = decisions_made self + 1 /\
  (success (snd (get_ai_move np_random self rq)) = false ->
   confidence_total (fst (get_ai_move np_random self rq)) = confidence_total self) /\
  (success (snd (get_ai_move np_random self rq)) = true ->
   exists q,
     confidence (snd (get_ai_move np_random self rq)) = Some q /\
     confidence_total (fst (get_ai_move np_random self rq)) = fadd (confidence_total self) q).
Proof.
  destruct (get_ai_move_cases self rq)
    as [Hd [[(msg & Hr) Hc] | (c & ctx & Hdec & _ & Hq & _ & Hc)]].
  - split; [ assumption |]. split; [ auto |].
    rewrite Hr. discriminate.
  - split; [ assumption |]. split.
    + destruct Hdec as [Hs _]. rewrite Hs. discriminate.
    + intros _. exists (fallback_confidence ctx). auto.
Qed.

(** C10.  Every response with [success = False] that [get_ai_move] returns
    (a missing required field, an empty legal list, a caught exception)
    carries [best_card = 0] and [confidence = 0.0] and has no
    [decision_type] and no [strategic_context] key.  Card 0 need not be in
    the hand or among the legal cards: some request is answered that way
    while holding neither. *)
Theorem C10_error_response_shape (self : engine) (rq : request) :
  (success (snd (get_ai_move np_random self rq)) = false ->
   best_card (snd (get_ai_move np_random self rq)) = Some 0 /\
   confidence (snd (get_ai_move np_random self rq)) = Some 0%Q /\
   decision_type (snd (get_ai_move np_random self rq)) = None /\
   strategic_context (snd (get_ai_move np_random self rq)) = None) /\
  (exists rq0,
      success (snd (get_ai_move np_random self rq0)) = false /\
      best_card (snd (get_ai_move np_random self rq0)) = Some 0 /\
      ~ In 0 (hand_cards rq0) /\ ~ In 0 (legal_cards rq0)).
Proof.
  split.
  - intro Hs.
    destruct (get_ai_move_cases self rq)
      as [_ [[(msg & Hr) _] | (c & ctx & Hdec & _)]].
    + rewrite Hr. repeat split.
    + destruct Hdec as [Hok _]. congruence.
  - exists {| rq_player_cards := Some (Val [5]); rq_valid_cards := Some (Val [5]);
              rq_game_mode := Some (Val "hearts"); rq_played_cards := None;
              rq_current_player := None; rq_tricks_won := None;
              rq_player_position := None; rq_trick_number := None;
              rq_cards_played_history := None |}.
    cbn. repeat split; intros [H | H]; try discriminate; contradiction.
Qed.

End Decisions.


(** ** C5: the balanced policy on a penalty mode with safe cards *)

(** C5.  In Hearts mode with legal cards [5; 13] (seven of clubs, two of
    diamonds; both safe) and two cards already played, the balanced policy
    returns [safe_cards[1] = 13], the element in the middle of the safe
    cards in the order of the legal list.  The middle element by ascending
    rank, which the comment at that line and the specification call for, is
    card 5; the path for modes without safe cards sorts by rank first. *)
Theorem C5_balanced_picks_from_unsorted_safe_cards :
  _select_balanced_card (Val [5; 13]) (state_of "hearts" [5; 13] [1; 2]) = Ok 13 /\
  balanced_by_rank "hearts" [5; 13] = Ok 5 /\
  sorted [5; 13] rank = [13; 5] /\
  best_card (snd (get_ai_move uniform_inference fresh_engine
                    (make_request [5; 13] [5; 13] "hearts" [1; 2]))) = Some 13.
Proof. repeat split. Qed.

(** ** Counterexamples to the claims as first stated *)

(** C3 as stated fails: the request below passes validation with an empty
    legal list; the response has no [decision_type] key, so it is not
    "error", and the learned-policy attempt was not bypassed: its failure is
    on the standard output. *)
Lemma C3_counterexample :
  let rq := make_request [5; 30] [] "hearts" [1; 2] in
  let out := get_ai_move uniform_inference loaded_engine rq in
  (exists gs, _process_enhanced_game_state rq = Ok (Processed gs) /\
              gs_valid_cards gs = Val []) /\
  success (snd out) = false /\
  decision_type (snd out) <> Some "error" /\
  stdout (fst out)
  = ["❌ Elite AI decision failed: attempt to get an argmax of an empty sequence"].
Proof.
  cbv zeta. split; [ eexists; split; reflexivity |].
  split; [ reflexivity |]. split; [ discriminate | reflexivity ].
Qed.

(** C4 as stated fails: in Kingdom mode with legal cards [13; 0] the two of
    diamonds and the two of clubs tie on rank 0; the policy returns 13, the
    first in the list, not the lower card index 0. *)
Lemma C4_counterexample :
  exists c d,
    _select_conservative_card (Val [13; 0]) (state_of "kingdom" [13; 0] []) = Ok c /\
    In d (candidates "kingdom" [13; 0]) /\ rank d = rank c /\ d < c.
Proof.
  exists 13, 0. repeat split. right. now left.
Qed.

(** C6 as stated fails: with an empty legal list in Hearts mode no legal
    card is a heart (the count the claim maps to Low is zero), yet the tier
    is High, because [0 >= 0 * 0.7] holds. *)
Lemma C6_counterexample :
  let rq := make_request [5; 30] [] "hearts" [] in
  exists gs ctx,
    _process_enhanced_game_state rq = Ok (Processed gs) /\
    _analyze_strategic_context gs = Ok ctx /\
    filter _is_heart_card (legal_cards rq) = [] /\
    tier_of_fraction (7 # 10) 0 0 = low /\
    penalty_risk ctx = high.
Proof.
  cbv zeta. do 2 eexists.
  split; [ reflexivity |]. split; [ reflexivity |]. repeat split.
Qed.

(** C7 as stated fails: in Hearts mode with the legal cards [26; 27; 28],
    all hearts, and two cards in the trick, the per-mode risk tier of the
    derived context is High, which the claim maps to 1.0, yet the risk
    entry of the feature vector (index 9) is 0.5. *)
Lemma C7_counterexample :
  let rq := make_request [26; 27; 28] [26; 27; 28] "Hearts" [1; 2] in
  exists gs ctx v,
    _process_enhanced_game_state rq = Ok (Processed gs) /\
    _analyze_strategic_context gs = Ok ctx /\
    penalty_risk ctx = high /\
    risk_levels (penalty_risk ctx) = 1%Q /\
    _prepare_neural_network_input gs ctx = Ok v /\
    nth_error v 9 = Some (1 # 2)%Q.
Proof.
  cbv zeta. do 3 eexists.
  split; [ reflexivity |]. split; [ reflexivity |].
  split; [ reflexivity |]. split; [ reflexivity |].
  split; reflexivity.
Qed.

(** C8 as stated fails: the two requests below miss different required
    fields, and the validator's records name them, yet [get_ai_move]
    answers both with the same dictionary, whose message and reasoning name
    neither field. *)
Lemma C8_counterexample :
  let rq1 := with_player_cards test_state None in
  let rq2 := with_valid_cards test_state None in
  let r1 := snd (get_ai_move uniform_inference loaded_engine rq1) in
  let r2 := snd (get_ai_move uniform_inference loaded_engine rq2) in
  _process_enhanced_game_state rq1
  = Ok (Invalid "Missing required field: player_cards") /\
  _process_enhanced_game_state rq2
  = Ok (Invalid "Missing required field: valid_cards") /\
  r1 = r2 /\
  success r1 = false /\
  error r1 = Some "Invalid game state" /\
  reasoning r1 = Some "Error: Invalid game state" /\
  contains "player_cards" "Error: Invalid game state" = false /\
  contains "valid_cards" "Error: Invalid game state" = false.
Proof. cbv zeta. repeat split. Qed.

(** C9 as stated fails: a request without any field ends in an error
    response, and [decisions_made] has gone from 0 to 1. *)
Lemma C9_counterexample :
  let out := get_ai_move uniform_inference fresh_engine empty_request in
  success (snd out) = false /\
  decisions_made fresh_engine = 0 /\
  decisions_made (fst out) = 1.
Proof. repeat split. Qed.

(** ** The theorems at concrete inputs *)

Lemma C1_witness :
  well_formed test_state = true /\
  legal_cards test_state <> [] /\
  exists c,
    success (snd (get_ai_move uniform_inference loaded_engine test_state)) = true /\
    best_card (snd (get_ai_move uniform_inference loaded_engine test_state)) = Some c /\
    In c (legal_cards test_state).
Proof.
  split; [ reflexivity |]. split; [ discriminate |].
  apply (C1_best_card_is_legal uniform_inference loaded_engine test_state);
    [ reflexivity | discriminate ].
Defined.

Lemma C3_witness :
  let rq := make_request [5; 30] [] "hearts" [1; 2] in
  exists gs,
    _process_enhanced_game_state rq = Ok (Processed gs) /\
    gs_valid_cards gs = Val [] /\
    snd (get_ai_move uniform_inference loaded_engine rq)
    = _create_error_response "No valid cards".
Proof.
  cbv zeta. eexists. split; [ reflexivity |]. split; [ reflexivity |].
  refine (proj1 (proj2 (proj2 (proj2 (proj2
            (C3_empty_legal_set_error_response uniform_inference loaded_engine
               (make_request [5; 30] [] "hearts" [1; 2]) _ eq_refl eq_refl))))
            "hearts" eq_refl)).
Defined.

Lemma C4_witness :
  gs_game_mode (state_of "hearts" [26; 5; 13; 0] []) = Val "hearts" /\
  [26; 5; 13; 0] <> [] /\
  exists c before after,
    _select_conservative_card (Val [26; 5; 13; 0]) (state_of "hearts" [26; 5; 13; 0] [])
    = Ok c /\
    candidates (lower_string "hearts") [26; 5; 13; 0] = (before ++ c :: after)%list /\
    (forall d, In d before -> rank c < rank d) /\
    (forall d, In d after -> rank c <= rank d).
Proof.
  split; [ reflexivity |]. split; [ discriminate |].
  apply (C4_conservative_first_minimum
           (state_of "hearts" [26; 5; 13; 0] []) "hearts" [26; 5; 13; 0]);
    [ reflexivity | discriminate ].
Defined.

Lemma C6_witness :
  let gs := state_of "Hearts" [26; 27; 28; 5] [] in
  gs_valid_cards gs = Val [26; 27; 28; 5] /\
  gs_game_mode gs = Val "Hearts" /\
  exists ctx, _analyze_strategic_context gs = Ok ctx /\ penalty_risk ctx = high.
Proof.
  cbv zeta. split; [ reflexivity |]. split; [ reflexivity |].
  destruct (C6_penalty_risk_tiers (state_of "Hearts" [26; 27; 28; 5] [])
              [26; 27; 28; 5] [26; 27; 28; 5] "Hearts" [] []
              eq_refl eq_refl eq_refl eq_refl eq_refl)
    as (ctx & Hctx & Hhearts & _).
  exists ctx. split; [ exact Hctx |].
  rewrite (Hhearts eq_refl). reflexivity.
Defined.

Lemma C7_witness :
  let gs := state_of "Hearts" [26; 27; 28] [1; 2] in
  gs_valid_cards gs = Val [26; 27; 28] /\
  gs_played_cards gs = Val [1; 2] /\
  exists ctx v,
    _analyze_strategic_context gs = Ok ctx /\
    penalty_risk ctx = high /\
    risk_level ctx = medium /\
    _prepare_neural_network_input gs ctx = Ok v /\
    List.length v = 128%nat /\
    firstn 12 v = [3 # 13; 0; 1 # 13; 1 # 2; 0; 1; 0; 0; 0; 1 # 2; 0; 0]%Q.
Proof.
  cbv zeta. split; [ reflexivity |]. split; [ reflexivity |].
  destruct (C7_feature_vector (state_of "Hearts" [26; 27; 28] [1; 2])
              [26; 27; 28] [26; 27; 28] [1; 2] [] 0 1 "Hearts"
              eq_refl eq_refl eq_refl eq_refl eq_refl eq_refl eq_refl)
    as (_ & Hlen & ctx & Hctx & Hlevel & Hv).
  exists ctx. eexists.
  split; [ exact Hctx |].
  split; [ vm_compute in Hctx; injection Hctx as <-; reflexivity |].
  split; [ exact Hlevel |].
  split; [ exact Hv |]. split; [ apply Hlen | reflexivity ].
Defined.

Lemma C8_witness :
  let rq := {| rq_player_cards := Some (Val [5; 30]); rq_valid_cards := None;
               rq_game_mode := Some (Val "hearts"); rq_played_cards := None;
               rq_current_player := None; rq_tricks_won := None;
               rq_player_position := None; rq_trick_number := None;
               rq_cards_played_history := None |} in
  _process_enhanced_game_state rq = Ok (Invalid "Missing required field: valid_cards") /\
  success (snd (get_ai_move uniform_inference loaded_engine rq)) = false /\
  error (snd (get_ai_move uniform_inference loaded_engine rq))
  = Some "Invalid game state".
Proof.
  cbv zeta.
  destruct (C8_first_missing_field uniform_inference loaded_engine
              {| rq_player_cards := Some (Val [5; 30]); rq_valid_cards := None;
                 rq_game_mode := Some (Val "hearts"); rq_played_cards := None;
                 rq_current_player := None; rq_tricks_won := None;
                 rq_player_position := None; rq_trick_number := None;
                 rq_cards_played_history := None |})
    as (field & before & after & _ & _ & _ & Hp & _ & Hs & He & _).
  { exists "current_player". split; [ simpl; tauto | reflexivity ]. }
  split; [ reflexivity |]. split; [ exact Hs | exact He ].
Defined.

Lemma C9_witness :
  let out := get_ai_move uniform_inference loaded_engine test_state in
  decisions_made (fst out) = 1 /\
  confidence (snd out) = Some (13 # 20)%Q /\
  confidence_total (fst out) = (13 # 20)%Q.
Proof.
  cbv zeta.
  pose proof (C9_counters uniform_inference loaded_engine test_state) as [Hd _].
  split; [ exact Hd |]. split; reflexivity.
Defined.

Lemma C10_witness :
  let out := get_ai_move uniform_inference loaded_engine empty_request in
  success (snd out) = false /\
  best_card (snd out) = Some 0 /\ confidence (snd out) = Some 0%Q /\
  decision_type (snd out) = None /\ strategic_context (snd out) = None.
Proof.
  cbv zeta. split; [ reflexivity |].
  apply (proj1 (C10_error_response_shape uniform_inference loaded_engine empty_request)).
  reflexivity.
Defined.

(** ** The three sources of an error response, and a recovered failure *)

Example missing_field_is_reported :
  snd (get_ai_move uniform_inference loaded_engine empty_request)
  = _create_error_response "Invalid game state".
Proof. reflexivity. Qed.

Example internal_exception_is_caught :
  let rq :=
    {| rq_player_cards := Some Null; rq_valid_cards := Some (Val [5]);
       rq_game_mode := Some (Val "hearts"); rq_played_cards := None;
       rq_current_player := Some (Val 0); rq_tricks_won := None;
       rq_player_position := None; rq_trick_number := None;
       rq_cards_played_history := None |} in
  get_ai_move uniform_inference fresh_engine rq
  = (print (count_decision fresh_engine)
       "❌ Enhanced AI error: object of type 'NoneType' has no len()",
     _create_error_response "object of type 'NoneType' has no len()").
Proof. reflexivity. Qed.

Example policy_failure_is_recovered :
  let out := get_ai_move uniform_inference loaded_engine test_state in
  stdout (fst out) = ["❌ Elite AI decision failed: 'position_type'"] /\
  success (snd out) = true /\
  best_card (snd out) = Some 0 /\
  decision_type (snd out) = Some "strategic_fallback".
Proof. repeat split. Qed.

Example late_context_is_derived :
  _analyze_strategic_context (state_of "Hearts" [26; 27; 1] [1; 2; 3]) = Ok late_context.
Proof. reflexivity. Qed.

(** The examples of the specification. *)
Example hearts_all_hearts_is_high :
  _assess_hearts_risk (state_of "hearts" [26; 27; 28] []) = Ok high.
Proof. reflexivity. Qed.

Example queens_risk_examples :
  _assess_queens_risk (state_of "queens" [0; 13; 26] []) = Ok low /\
  _assess_queens_risk (state_of "queens" [10; 23] []) = Ok high.
Proof. split; reflexivity. Qed.

Example conservative_kingdom_example :
  _select_conservative_card (Val [5; 0; 20]) (state_of "kingdom" [5; 0; 20] []) = Ok 0.
Proof. reflexivity. Qed.

(** * Further properties of the pipeline *)

(** ** The response as a function of the request *)

Lemma _process_well_formed_entries (rq : request) :
  well_formed rq = true ->
  exists gs,
    _process_enhanced_game_state rq = Ok (Processed gs) /\
    gs_player_cards gs = Val (hand_cards rq) /\
    gs_valid_cards gs = Val (legal_cards rq) /\
    gs_game_mode gs = Val (mode_of rq) /\
    gs_played_cards gs = Val (played_of rq) /\
    gs_cards_played_history gs = Val (history_of rq).
Proof.
  destruct rq as [pc vc gm pl cp tw pp tn h].
  unfold well_formed, legal_cards, hand_cards, mode_of, played_of, history_of.
  simpl. intro H.
  repeat (apply andb_prop in H; destruct H as [H ?]).
  destruct pc as [[| pc] |]; try discriminate.
  destruct vc as [[| vc] |]; try discriminate.
  destruct gm as [[| gm] |]; try discriminate.
  destruct cp as [[| cp] |]; try discriminate.
  assert (Hph : exists ph, _classify_game_phase (dict_get tn (Val 1)) = Ok ph).
  { destruct tn as [[| tn] |]; try discriminate; apply _classify_game_phase_Val. }
  destruct Hph as (ph & Hph).
  unfold _process_enhanced_game_state. simpl. rewrite Hph.
  destruct pl as [[| pl] |]; try discriminate;
    destruct h as [[| h] |]; try discriminate;
    simpl; eexists; repeat split.
Qed.

(** The response never depends on the engine the fallback is given. *)
Lemma fallback_result_frame (s1 s2 : engine) (gs : processed) (ctx : context) :
  snd (_get_enhanced_fallback_decision s1 gs ctx)
  = snd (_get_enhanced_fallback_decision s2 gs ctx).
Proof.
  unfold _get_enhanced_fallback_decision.
  destruct (truthy (gs_valid_cards gs)); cbn [negb]; [| reflexivity ].
  match goal with
  | |- context [match ?body with Ok _ => _ | Raise _ => _ end] =>
      destruct body as [[pt c] | e]
  end; reflexivity.
Qed.

(** The response of [get_ai_move] is the one of validation, analysis and
    fallback run in a row: the learned-policy attempt leaves no trace in it. *)
Lemma get_ai_move_response
    (np_random : list Z -> result (list Q)) (self : engine) (rq : request) :
  snd (get_ai_move np_random self rq)
  = match _process_enhanced_game_state rq with
    | Raise e => _create_error_response (str e)
    | Ok (Invalid _) => _create_error_response "Invalid game state"
    | Ok (Processed gs) =>
        match _analyze_strategic_context gs with
        | Raise e => _create_error_response (str e)
        | Ok ctx =>
            match snd (_get_enhanced_fallback_decision fresh_engine gs ctx) with
            | Ok r => r
            | Raise e => _create_error_response (str e)
            end
        end
    end.
Proof.
  unfold get_ai_move, decide.
  destruct (_process_enhanced_game_state rq) as [[err | gs] | e]; try reflexivity.
  destruct (_analyze_strategic_context gs) as [ctx | e]; [| reflexivity ].
  assert (Hfb : forall s,
             snd (match _get_enhanced_fallback_decision s gs ctx with
                  | (s', Ok resp) => (s', resp)
                  | (s', Raise e) =>
                      (print s' ("❌ Enhanced AI error: " ++ str e),
                       _create_error_response (str e))
                  end)
             = match snd (_get_enhanced_fallback_decision fresh_engine gs ctx) with
               | Ok r => r
               | Raise e => _create_error_response (str e)
               end).
  { intro s. rewrite (fallback_result_frame fresh_engine s gs ctx).
    destruct (_get_enhanced_fallback_decision s gs ctx) as [s' [r | e]]; reflexivity. }
  destruct (model_loaded (count_decision self)).
  - pose proof (_get_elite_ai_decision_fails np_random (count_decision self) gs ctx) as He.
    destruct (_get_elite_ai_decision np_random (count_decision self) gs ctx) as [s1 r1].
    destruct He as [Hs _]. rewrite Hs. apply Hfb.
  - apply Hfb.
Qed.

(** X1.  The response of [get_ai_move] depends on the request alone: not on
    the outcome of the random inference, not on whether a model is loaded,
    not on the counters or on anything else in the engine. *)
Theorem response_depends_on_request_only
    (np1 np2 : list Z -> result (list Q)) (self1 self2 : engine) (rq : request) :
  snd (get_ai_move np1 self1 rq) = snd (get_ai_move np2 self2 rq).
Proof.
  rewrite (get_ai_move_response np1 self1 rq).
  rewrite (get_ai_move_response np2 self2 rq).
  reflexivity.
Qed.

Lemma fallback_labels (s : engine) (gs : processed) (ctx : context) (r : response) :
  snd (_get_enhanced_fallback_decision s gs ctx) = Ok r ->
  (r = _create_error_response "No valid cards")
  \/ (success r = true /\
      model_used r = Some "Enhanced Strategic Rules" /\
      performance_level r = Some "70% human" /\
      decision_type r = Some "strategic_fallback" /\
      confidence r = Some (fallback_confidence ctx)).
Proof.
  unfold _get_enhanced_fallback_decision.
  destruct (truthy (gs_valid_cards gs)); cbn [negb].
  - match goal with
    | |- context [match ?body with Ok _ => _ | Raise _ => _ end] =>
        destruct body as [[pt c] | e]
    end; cbn; intro H; [| discriminate ].
    injection H as <-. right. cbn. repeat split.
  - cbn. intro H. injection H as <-. now left.
Qed.

(** Every response is the error dictionary or a decision labelled as the
    fallback's. *)
Lemma response_shapes
    (np_random : list Z -> result (list Q)) (self : engine) (rq : request) :
  (exists msg, snd (get_ai_move np_random self rq) = _create_error_response msg)
  \/ (success (snd (get_ai_move np_random self rq)) = true /\
      model_used (snd (get_ai_move np_random self rq)) = Some "Enhanced Strategic Rules" /\
      performance_level (snd (get_ai_move np_random self rq)) = Some "70% human" /\
      decision_type (snd (get_ai_move np_random self rq)) = Some "strategic_fallback" /\
      exists ctx,
        confidence (snd (get_ai_move np_random self rq)) = Some (fallback_confidence ctx)).
Proof.
  rewrite get_ai_move_response.
  destruct (_process_enhanced_game_state rq) as [[err | gs] | e]; eauto.
  destruct (_analyze_strategic_context gs) as [ctx | e]; eauto.
  destruct (snd (_get_enhanced_fallback_decision fresh_engine gs ctx)) as [r | e] eqn:E;
    eauto.
  destruct (fallback_labels fresh_engine gs ctx r E) as [-> | (H1 & H2 & H3 & H4 & H5)];
    [ eauto |].
  right. repeat split; eauto.
Qed.

(** X2.  No response of [get_ai_move] comes from the neural network: none
    carries [decision_type = "neural_network"], the model label "Enhanced
    Neural Network (Generation 100)" or the level "90% human", while the
    statistics of an engine with a loaded model do report "90% human". *)
Theorem no_neural_network_response
    (np_random : list Z -> result (list Q)) (self : engine) (rq : request) :
  decision_type (snd (get_ai_move np_random self rq)) <> Some "neural_network" /\
  model_used (snd (get_ai_move np_random self rq))
    <> Some "Enhanced Neural Network (Generation 100)" /\
  performance_level (snd (get_ai_move np_random self rq)) <> Some "90% human" /\
  stats_performance_level (get_performance_stats (fst (get_ai_move np_random self rq)))
  = (if model_loaded self then "90% human" else "70% human").
Proof.
  assert (Hl : model_loaded (fst (get_ai_move np_random self rq)) = model_loaded self).
  { unfold get_ai_move, decide.
    destruct (_process_enhanced_game_state rq) as [[err | gs] | e]; try reflexivity.
    destruct (_analyze_strategic_context gs) as [ctx | e]; [| reflexivity ].
    assert (Hfb : forall s,
               model_loaded s = model_loaded self ->
               model_loaded
                 (fst (match _get_enhanced_fallback_decision s gs ctx with
                       | (s', Ok resp) => (s', resp)
                       | (s', Raise e) =>
                           (print s' ("❌ Enhanced AI error: " ++ str e),
                            _create_error_response (str e))
                       end)) = model_loaded self).
    { intros s Hs.
      destruct (fallback_cases s gs ctx) as [-> | [(e & ->) | (r & c & -> & _)]];
        cbn; assumption. }
    destruct (model_loaded (count_decision self)) eqn:El.
    - pose proof (_get_elite_ai_decision_fails np_random (count_decision self) gs ctx)
        as He.
      destruct (_get_elite_ai_decision np_random (count_decision self) gs ctx)
        as [s1 r1].
      destruct He as [Hs Hself]. rewrite Hs. apply Hfb.
      destruct Hself as [-> | (e & ->)]; reflexivity.
    - apply Hfb. reflexivity. }
  unfold get_performance_stats. cbn [stats_performance_level]. rewrite Hl.
  destruct (response_shapes np_random self rq)
    as [(msg & ->) | (_ & H2 & H3 & H4 & _)].
  - repeat split; discriminate.
  - rewrite H2, H3, H4. repeat split; discriminate.
Qed.

(** X3.  The confidence of every response is 0 (exactly on an error
    response), 0.65 or 0.85; it always lies in [0, 1]. *)
Theorem confidence_values
    (np_random : list Z -> result (list Q)) (self : engine) (rq : request) :
  exists q,
    confidence (snd (get_ai_move np_random self rq)) = Some q /\
    (0 <= q <= 1)%Q /\
    ((success (snd (get_ai_move np_random self rq)) = false /\ q = 0%Q)
     \/ (success (snd (get_ai_move np_random self rq)) = true /\
         (q = (13 # 20)%Q \/ q = (17 # 20)%Q))).
Proof.
  destruct (response_shapes np_random self rq)
    as [(msg & ->) | (Hs & _ & _ & _ & ctx & Hq)].
  - exists 0%Q. cbn. split; [ reflexivity |].
    split; [ split; discriminate | left; split; reflexivity ].
  - exists (fallback_confidence ctx). split; [ assumption |].
    rewrite fallback_confidence_values.
    destruct (position_advantage ctx);
      (split; [ split; discriminate | right; split; [ assumption | auto ] ]).
Qed.

(** ** The rule-based choice *)

Lemma selection_rule_choice
    (gs : processed) (ctx : context) (m : string) (vc pl : list Z) :
  gs_game_mode gs = Val m -> gs_played_cards gs = Val pl ->
  match strategy_at (_classify_position Null (size pl)) with
  | conservative => _select_conservative_card (Val vc) gs
  | informed => _select_informed_card (Val vc) gs ctx
  | balanced => _select_balanced_card (Val vc) gs
  end = rule_choice (lower_string m) vc (size pl).
Proof.
  intros Hm Hpl. unfold rule_choice, _classify_position.
  destruct (size pl <=? 1) eqn:E1; cbn [strategy_at].
  - apply (_select_conservative_card_Val gs m vc Hm).
  - destruct (3 <=? size pl) eqn:E3; cbn [strategy_at].
    + rewrite (_select_informed_card_Val gs ctx m vc pl Hm Hpl).
      apply Z.leb_le in E3.
      replace (2 <=? size pl) with true by (symmetry; apply Z.leb_le; lia).
      reflexivity.
    + apply (_select_balanced_card_Val gs m vc Hm).
Qed.

Lemma rule_choice_In (mode : string) (vc : list Z) (n : Z) :
  vc <> [] -> exists c, rule_choice mode vc n = Ok c /\ In c vc.
Proof.
  intro Hne. unfold rule_choice.
  destruct (_classify_position Null n).
  - destruct (py_min_first _ (candidates_nonempty mode vc Hne))
      as (c & b & a & Hc & Heq & _).
    exists c. split; [ assumption |]. apply (candidates_incl mode).
    rewrite Heq. apply in_or_app. right. now left.
  - destruct (safe_cards_of mode vc) as [| s l] eqn:E.
    + destruct vc as [| x vc]; [ congruence |].
      exists (min_from rank x vc). split; [ reflexivity | apply min_from_In ].
    + exists (max_from rank s l). split; [ reflexivity |].
      apply (safe_cards_incl mode). rewrite E. apply max_from_In.
  - set (safe := if existsb _ _ then _ else _).
    assert (Hsafe : forall c, In c safe -> In c vc).
    { subst safe. destruct (existsb _ _); [ apply safe_cards_incl | contradiction ]. }
    destruct safe as [| s l].
    + assert (Hs : sorted vc rank <> []).
      { intro E. apply Hne. apply Permutation_nil. rewrite <- E. apply sorted_perm. }
      destruct (middle_In _ Hs) as (c & Hc & _ & Hin).
      exists c. split; [ assumption |].
      eapply Permutation_in; [ apply sorted_perm | exact Hin ].
    + destruct (middle_In (s :: l)) as (c & Hc & _ & Hin); [ discriminate |].
      exists c. split; [ assumption | now apply Hsafe ].
Qed.

(** The whole response to a well-formed request with legal cards. *)
Lemma well_formed_response
    (np_random : list Z -> result (list Q)) (self : engine) (rq : request) :
  well_formed rq = true ->
  legal_cards rq <> [] ->
  exists c ctx,
    rule_choice (lower_string (mode_of rq)) (legal_cards rq) (size (played_of rq))
      = Ok c /\
    In c (legal_cards rq) /\
    snd (get_ai_move np_random self rq)
    = {| success := true;
         error := None;
         best_card := Some c;
         confidence :=
           Some (confidence_at (_classify_position Null (size (played_of rq))));
         reasoning :=
           Some (reasoning_at (_classify_position Null (size (played_of rq))));
         model_used := Some "Enhanced Strategic Rules";
         strategic_context := Some ctx;
         performance_level := Some "70% human";
         decision_type := Some "strategic_fallback" |}.
Proof.
  intros Hwf Hne.
  destruct (_process_well_formed_entries rq Hwf)
    as (gs & Hp & Hpc & Hvc & Hm & Hpl & Hh).
  destruct (_analyze_typed gs _ _ _ _ _ Hpc Hvc Hm Hpl Hh)
    as (ctx & Hctx & Hstrat & _ & Hadv & _).
  destruct (rule_choice_In (lower_string (mode_of rq)) (legal_cards rq)
              (size (played_of rq)) Hne) as (c & Hc & Hin).
  exists c, ctx. split; [ assumption |]. split; [ assumption |].
  rewrite get_ai_move_response, Hp, Hctx.
  unfold _get_enhanced_fallback_decision. rewrite Hvc, Hpl.
  destruct (legal_cards rq) as [| x vc] eqn:Evc; [ congruence |].
  cbn [truthy negb len bind]. fold (size (played_of rq)).
  change (_classify_position (gs_player_position gs) (size (played_of rq)))
    with (_classify_position Null (size (played_of rq))) in *.
  rewrite Hstrat.
  rewrite (selection_rule_choice gs ctx (mode_of rq) (x :: vc) (played_of rq) Hm Hpl).
  rewrite Hc. cbn [bind snd].
  rewrite fallback_confidence_values, Hadv.
  unfold reasoning_at, confidence_at.
  destruct (_classify_position Null (size (played_of rq))); reflexivity.
Qed.

(** X4.  For a well-formed request with legal cards the decision is the
    rule-based one, fixed by the number of cards already in the trick: with
    0 or 1 the conservative policy (the first minimum-rank candidate,
    confidence 0.65), with 2 the balanced policy (the middle safe card, or
    the middle card by rank; 0.65), with 3 or more the informed policy (the
    first maximum-rank safe card, or the first minimum-rank card; 0.85).  The
    reasoning names the strategy and the position, in that order. *)
Theorem rule_based_decision
    (np_random : list Z -> result (list Q)) (self : engine) (rq : request) :
  well_formed rq = true ->
  legal_cards rq <> [] ->
  exists c,
    rule_choice (lower_string (mode_of rq)) (legal_cards rq) (size (played_of rq))
      = Ok c /\
    best_card (snd (get_ai_move np_random self rq)) = Some c /\
    confidence (snd (get_ai_move np_random self rq))
      = Some (if 3 <=? size (played_of rq) then 17 # 20 else 13 # 20)%Q /\
    reasoning (snd (get_ai_move np_random self rq))
      = Some (if size (played_of rq) <=? 1
              then "Strategic conservative play based on early_position position"
              else if 3 <=? size (played_of rq)
              then "Strategic informed play based on late_position position"
              else "Strategic balanced play based on middle_position position").
Proof.
  intros Hwf Hne.
  destruct (well_formed_response np_random self rq Hwf Hne) as (c & ctx & Hc & _ & ->).
  exists c. split; [ assumption |]. cbn.
  unfold _classify_position.
  destruct (size (played_of rq) <=? 1) eqn:E1.
  - apply Z.leb_le in E1.
    replace (3 <=? size (played_of rq)) with false by (symmetry; apply Z.leb_gt; lia).
    repeat split.
  - destruct (3 <=? size (played_of rq)); repeat split.
Qed.

(** X5.  Two well-formed requests with the same legal cards, the same game
    mode up to letter case and the same number of cards in the trick get the
    same card, confidence, reasoning and labels: the hand, the history, the
    seat, the trick number and the tricks won never influence them. *)
Theorem decision_frame
    (np1 np2 : list Z -> result (list Q)) (self1 self2 : engine) (rq1 rq2 : request) :
  well_formed rq1 = true -> well_formed rq2 = true ->
  legal_cards rq1 = legal_cards rq2 ->
  lower_string (mode_of rq1) = lower_string (mode_of rq2) ->
  size (played_of rq1) = size (played_of rq2) ->
  let r1 := snd (get_ai_move np1 self1 rq1) in
  let r2 := snd (get_ai_move np2 self2 rq2) in
  success r1 = success r2 /\ best_card r1 = best_card r2 /\
  confidence r1 = confidence r2 /\ reasoning r1 = reasoning r2 /\
  decision_type r1 = decision_type r2.
Proof.
  intros Hwf1 Hwf2 Hvc Hm Hn r1 r2. subst r1 r2.
  destruct (legal_cards rq1) as [| x vc] eqn:E1.
  - (* no legal card: both end in "No valid cards" *)
    assert (Herr : forall np self rq,
               well_formed rq = true -> legal_cards rq = [] ->
               snd (get_ai_move np self rq) = _create_error_response "No valid cards").
    { intros np self rq Hwf He.
      destruct (_process_well_formed_entries rq Hwf)
        as (gs & Hp & Hpc & Hv & Hmm & Hpl & Hh).
      destruct (_analyze_typed gs _ _ _ _ _ Hpc Hv Hmm Hpl Hh) as (ctx & Hctx & _).
      rewrite get_ai_move_response, Hp, Hctx.
      unfold _get_enhanced_fallback_decision. rewrite Hv, He. reflexivity. }
    rewrite (Herr np1 self1 rq1 Hwf1 E1), (Herr np2 self2 rq2 Hwf2 (eq_sym Hvc)).
    repeat split.
  - assert (Hne1 : legal_cards rq1 <> []) by (rewrite E1; discriminate).
    assert (Hne2 : legal_cards rq2 <> []) by (rewrite <- Hvc; discriminate).
    destruct (well_formed_response np1 self1 rq1 Hwf1 Hne1) as (c1 & ctx1 & Hc1 & _ & ->).
    destruct (well_formed_response np2 self2 rq2 Hwf2 Hne2) as (c2 & ctx2 & Hc2 & _ & ->).
    rewrite E1, Hm, Hn in Hc1. rewrite <- Hvc, Hc1 in Hc2. injection Hc2 as <-.
    cbn. rewrite Hn. repeat split.
Qed.

Lemma penalty_in_unknown (mode : string) :
  existsb (String.eqb mode) penalty_modes = false ->
  forall c, penalty_in mode c = false.
Proof.
  unfold penalty_modes. cbn [existsb]. intros H c.
  repeat (apply orb_false_iff in H; destruct H as [? H]).
  unfold penalty_in.
  repeat match goal with
         | E : String.eqb mode _ = false |- _ => rewrite E; clear E
         end.
  reflexivity.
Qed.

Lemma safe_cards_unknown (mode : string) (vc : list Z) :
  existsb (String.eqb mode) penalty_modes = false -> safe_cards_of mode vc = vc.
Proof.
  intro H. unfold safe_cards_of.
  induction vc as [| c vc IH]; simpl; [ reflexivity |].
  now rewrite (penalty_in_unknown mode H c), IH.
Qed.

Lemma rule_choice_unknown (mode : string) (vc : list Z) (n : Z) :
  existsb (String.eqb mode) penalty_modes = false ->
  rule_choice mode vc n = rule_choice "kingdom" vc n.
Proof.
  intro H. unfold rule_choice, candidates.
  rewrite (safe_cards_unknown mode vc H), (safe_cards_unknown "kingdom" vc eq_refl), H.
  reflexivity.
Qed.

(** X6.  A game mode that is none of hearts, queens, king_of_hearts and
    diamonds (in any letter case) is not rejected: it is handled exactly as
    kingdom.  No legal card counts as a penalty card, the penalty risk is
    low, and the decision is the one a kingdom request with the same legal
    cards and the same number of cards in the trick gets. *)
Theorem unknown_mode_is_kingdom
    (np1 np2 : list Z -> result (list Q)) (self1 self2 : engine) (rq1 rq2 : request) :
  well_formed rq1 = true -> well_formed rq2 = true ->
  existsb (String.eqb (lower_string (mode_of rq1))) penalty_modes = false ->
  lower_string (mode_of rq2) = "kingdom" ->
  legal_cards rq1 = legal_cards rq2 ->
  size (played_of rq1) = size (played_of rq2) ->
  legal_cards rq1 <> [] ->
  (exists gs ctx,
      _process_enhanced_game_state rq1 = Ok (Processed gs) /\
      _analyze_strategic_context gs = Ok ctx /\ penalty_risk ctx = low) /\
  success (snd (get_ai_move np1 self1 rq1)) = true /\
  best_card (snd (get_ai_move np1 self1 rq1)) = best_card (snd (get_ai_move np2 self2 rq2)) /\
  confidence (snd (get_ai_move np1 self1 rq1))
    = confidence (snd (get_ai_move np2 self2 rq2)) /\
  reasoning (snd (get_ai_move np1 self1 rq1))
    = reasoning (snd (get_ai_move np2 self2 rq2)).
Proof.
  intros Hwf1 Hwf2 Hunk Hk Hvc Hn Hne. split.
  - destruct (_process_well_formed_entries rq1 Hwf1)
      as (gs & Hp & Hpc & Hv & Hm & Hpl & Hh).
    destruct (_analyze_typed gs _ _ _ _ _ Hpc Hv Hm Hpl Hh)
      as (ctx & Hctx & _ & _ & _ & Htier).
    exists gs, ctx. split; [ assumption |]. split; [ assumption |].
    unfold penalty_modes in Hunk. cbn [existsb] in Hunk.
    repeat (apply orb_false_iff in Hunk; destruct Hunk as [? Hunk]).
    repeat match goal with
           | E : String.eqb _ _ = false |- _ => rewrite E in Htier; clear E
           end.
    now injection Htier.
  - assert (Hne2 : legal_cards rq2 <> []) by (now rewrite <- Hvc).
    destruct (well_formed_response np1 self1 rq1 Hwf1 Hne) as (c1 & ctx1 & Hc1 & _ & ->).
    destruct (well_formed_response np2 self2 rq2 Hwf2 Hne2) as (c2 & ctx2 & Hc2 & _ & ->).
    rewrite (rule_choice_unknown _ _ _ Hunk), Hvc, Hn in Hc1.
    rewrite Hk, Hc1 in Hc2. injection Hc2 as <-.
    cbn. rewrite Hn. repeat split.
Qed.

Lemma rule_choice_safe (mode : string) (vc : list Z) (n c : Z) :
  safe_cards_of mode vc <> [] ->
  rule_choice mode vc n = Ok c ->
  penalty_in mode c = false.
Proof.
  intros Hsafe Hc.
  assert (Hin : forall d, In d (safe_cards_of mode vc) -> penalty_in mode d = false).
  { intros d Hd. unfold safe_cards_of in Hd. apply filter_In in Hd.
    destruct Hd as [_ Hd]. now apply negb_true_iff in Hd. }
  unfold rule_choice in Hc. destruct (_classify_position Null n).
  - unfold candidates in Hc.
    destruct (safe_cards_of mode vc) as [| s l] eqn:E; [ congruence |].
    cbn in Hc. injection Hc as <-. apply Hin. apply min_from_In.
  - destruct (safe_cards_of mode vc) as [| s l] eqn:E; [ congruence |].
    cbn in Hc. injection Hc as <-. apply Hin. apply max_from_In.
  - destruct (existsb (String.eqb mode) penalty_modes) eqn:Ep.
    + destruct (safe_cards_of mode vc) as [| s l] eqn:E; [ congruence |].
      destruct (middle_In (s :: l)) as (c' & Hc' & _ & Hin'); [ discriminate |].
      rewrite Hc' in Hc. injection Hc as <-. now apply Hin.
    + now apply penalty_in_unknown.
Qed.

(** X7.  Whenever some legal card is not a penalty card under the game
    mode, the card [get_ai_move] recommends for a well-formed request is a
    legal card that is not a penalty card, whatever the position. *)
Theorem no_penalty_card_when_a_safe_card_is_legal
    (np_random : list Z -> result (list Q)) (self : engine) (rq : request) :
  well_formed rq = true ->
  safe_cards_of (lower_string (mode_of rq)) (legal_cards rq) <> [] ->
  exists c,
    best_card (snd (get_ai_move np_random self rq)) = Some c /\
    In c (legal_cards rq) /\
    penalty_in (lower_string (mode_of rq)) c = false.
Proof.
  intros Hwf Hsafe.
  assert (Hne : legal_cards rq <> []).
  { intro E. rewrite E in Hsafe. now apply Hsafe. }
  destruct (well_formed_response np_random self rq Hwf Hne) as (c & ctx & Hc & Hin & ->).
  exists c. split; [ reflexivity |]. split; [ assumption |].
  eapply rule_choice_safe; eauto.
Qed.

Lemma max_from_first (key : Z -> Z) (l : list Z) :
  forall x, exists before after,
    x :: l = (before ++ max_from key x l :: after)%list /\
    (forall d, In d before -> key d < key (max_from key x l)) /\
    (forall d, In d after -> key d <= key (max_from key x l)).
Proof.
  induction l as [| c l IH]; intro x; simpl.
  - exists [], []. repeat split; simpl; intros; contradiction.
  - destruct (key x <? key c) eqn:E.
    + apply Z.ltb_lt in E.
      destruct (IH c) as (b & a & Heq & Hb & Ha).
      exists (x :: b), a. split; [ simpl; now rewrite Heq |].
      assert (Hc : key c <= key (max_from key c l)).
      { destruct b as [| b0 b'].
        - simpl in Heq. injection Heq as H0 _. rewrite <- H0. lia.
        - simpl in Heq. injection Heq as H0 _. subst b0.
          specialize (Hb c (or_introl eq_refl)). lia. }
      split; [| exact Ha].
      intros d [<- | Hd]; [ lia | now apply Hb ].
    + apply Z.ltb_ge in E.
      destruct (IH x) as (b & a & Heq & Hb & Ha).
      destruct b as [| b0 b'].
      * simpl in Heq. injection Heq as H0 H1.
        rewrite <- H0 in Ha |- *. subst a.
        exists [], (c :: l). simpl.
        split; [ reflexivity |].
        split; [ intros; contradiction |].
        intros d [<- | Hd]; [ lia | now apply Ha ].
      * simpl in Heq. injection Heq as H0 H1. subst b0.
        exists (x :: c :: b'), a. simpl. rewrite <- H1.
        split; [ reflexivity |].
        pose proof (Hb x (or_introl eq_refl)) as Hx.
        split; [| exact Ha].
        intros d [<- | [<- | Hd]]; [ lia | lia | apply Hb; now right ].
Qed.

(** X8.  With at least two cards in the trick and some safe legal card, the
    informed policy returns a safe card of maximum rank, and among the safe
    cards of that rank the one that comes first in the legal list. *)
Theorem informed_first_maximum
    (gs : processed) (ctx : context) (m : string) (vc pl : list Z) :
  gs_game_mode gs = Val m -> gs_played_cards gs = Val pl ->
  2 <= size pl ->
  safe_cards_of (lower_string m) vc <> [] ->
  exists c before after,
    _select_informed_card (Val vc) gs ctx = Ok c /\
    safe_cards_of (lower_string m) vc = (before ++ c :: after)%list /\
    (forall d, In d before -> rank d < rank c) /\
    (forall d, In d after -> rank d <= rank c).
Proof.
  intros Hm Hpl Hn Hsafe.
  rewrite (_select_informed_card_Val gs ctx m vc pl Hm Hpl).
  replace (2 <=? size pl) with true by (symmetry; now apply Z.leb_le).
  destruct (safe_cards_of (lower_string m) vc) as [| s l]; [ congruence |].
  destruct (max_from_first rank l s) as (b & a & Heq & Hb & Ha).
  exists (max_from rank s l), b, a. auto.
Qed.

(** X9.  With at least two cards in the trick and no safe legal card, the
    informed policy makes the conservative choice: the first legal card of
    minimum rank. *)
Theorem informed_without_safe_card_is_conservative
    (gs : processed) (ctx : context) (m : string) (vc pl : list Z) :
  gs_game_mode gs = Val m -> gs_played_cards gs = Val pl ->
  2 <= size pl ->
  safe_cards_of (lower_string m) vc = [] ->
  _select_informed_card (Val vc) gs ctx = _select_conservative_card (Val vc) gs /\
  _select_informed_card (Val vc) gs ctx = py_min vc rank.
Proof.
  intros Hm Hpl Hn Hsafe.
  rewrite (_select_informed_card_Val gs ctx m vc pl Hm Hpl),
    (_select_conservative_card_Val gs m vc Hm).
  replace (2 <=? size pl) with true by (symmetry; now apply Z.leb_le).
  unfold candidates. rewrite Hsafe. split; reflexivity.
Qed.

(** X10.  The analysis chooses the informed strategy exactly when three or
    more cards are in the trick, so in the pipeline the branch of
    [_select_informed_card] that hands over to the balanced policy (fewer
    than two cards played) is never taken. *)
Theorem informed_never_defers_to_balanced
    (gs : processed) (ctx : context) (pc vc : list Z) (m : string) (pl h : list Z) :
  gs_player_cards gs = Val pc -> gs_valid_cards gs = Val vc ->
  gs_game_mode gs = Val m -> gs_played_cards gs = Val pl ->
  gs_cards_played_history gs = Val h ->
  _analyze_strategic_context gs = Ok ctx ->
  (strategy ctx = informed <-> 3 <= size pl) /\
  (strategy ctx = informed ->
   _select_informed_card (Val vc) gs ctx
   = match safe_cards_of (lower_string m) vc with
     | [] => py_min vc rank
     | safe => py_max safe rank
     end).
Proof.
  intros Hpc Hvc Hm Hpl Hh Hctx.
  destruct (_analyze_typed gs pc vc m pl h Hpc Hvc Hm Hpl Hh)
    as (ctx' & Hctx' & Hs & _).
  rewrite Hctx in Hctx'. injection Hctx' as <-.
  assert (Hiff : strategy ctx = informed <-> 3 <= size pl).
  { rewrite Hs. unfold _classify_position.
    destruct (size pl <=? 1) eqn:E1; cbn [strategy_at].
    - apply Z.leb_le in E1. split; [ discriminate | lia ].
    - destruct (3 <=? size pl) eqn:E3; cbn [strategy_at].
      + apply Z.leb_le in E3. tauto.
      + apply Z.leb_gt in E3. split; [ discriminate | lia ]. }
  split; [ exact Hiff |].
  intro Hi. apply Hiff in Hi.
  rewrite (_select_informed_card_Val gs ctx m vc pl Hm Hpl).
  replace (2 <=? size pl) with true by (symmetry; apply Z.leb_le; lia).
  reflexivity.
Qed.

(** ** Card names and card predicates *)

Lemma in_range (n : nat) (c : Z) : 0 <= c < Z.of_nat n -> In c (range n).
Proof.
  intro H. unfold range. apply in_map_iff. exists (Z.to_nat c).
  split; [ lia | apply in_seq; lia ].
Qed.

Lemma range_forall (n : nat) (p : Z -> bool) :
  forallb p (range n) = true -> forall c, 0 <= c < Z.of_nat n -> p c = true.
Proof.
  intros H c Hc. rewrite forallb_forall in H. apply H. now apply in_range.
Qed.

(** X11.  [_card_index_to_name] names card [13 * s + r], for a suit [s] in
    0..3 and a rank [r] in 0..12, by entry [r] of the rank table followed by
    entry [s] of the suit table, and no two of the 52 cards of the deck get
    the same name. *)
Theorem card_names_of_the_deck :
  (forall s r, 0 <= s < 4 -> 0 <= r < 13 ->
     exists rank_name suit_name,
       nth_error ranks (Z.to_nat r) = Some rank_name /\
       nth_error suits (Z.to_nat s) = Some suit_name /\
       _card_index_to_name (13 * s + r) = Ok (rank_name ++ suit_name)) /\
  (forall c1 c2, 0 <= c1 < 52 -> 0 <= c2 < 52 ->
     _card_index_to_name c1 = _card_index_to_name c2 -> c1 = c2).
Proof.
  split.
  - intros s r Hs Hr.
    apply (in_range 4) in Hs. apply (in_range 13) in Hr.
    cbn in Hs, Hr.
    repeat (destruct Hs as [<- | Hs]); try contradiction;
      repeat (destruct Hr as [<- | Hr]); try contradiction;
      do 2 eexists; repeat split.
  - intros c1 c2 H1 H2 Heq.
    pose (same := fun a b =>
            match _card_index_to_name a, _card_index_to_name b with
            | Ok x, Ok y => implb (String.eqb x y) (a =? b)
            | _, _ => false
            end).
    assert (Hall : forallb (fun a => forallb (same a) (range 52)) (range 52) = true)
      by (vm_compute; reflexivity).
    pose proof (range_forall 52 _ Hall c1 H1) as Hrow. cbv beta in Hrow.
    pose proof (range_forall 52 _ Hrow c2 H2) as Hcell.
    unfold same in Hcell. rewrite <- Heq in Hcell.
    destruct (_card_index_to_name c1) as [x |]; [| discriminate ].
    rewrite String.eqb_refl in Hcell. cbn in Hcell. now apply Z.eqb_eq.
Qed.

Lemma list_index_ranks (i : Z) :
  0 <= i < 13 -> exists name, list_index ranks i = Ok name.
Proof.
  intro H. apply (in_range 13) in H. cbn in H.
  repeat (destruct H as [<- | H]); try contradiction; eexists; reflexivity.
Qed.

(** X12.  Outside the deck [_card_index_to_name] follows Python's list
    indexing: an index of 52 or more, or below -52, raises IndexError ("list
    index out of range"); an index from -52 to -1 raises nothing and is given
    the name of the card 52 places higher. *)
Theorem card_name_outside_the_deck (c : Z) :
  ((52 <= c \/ c < -52) ->
   _card_index_to_name c = Raise (Exn IndexError "list index out of range")) /\
  (-52 <= c < 0 ->
   _card_index_to_name c = _card_index_to_name (c + 52) /\
   exists name, _card_index_to_name c = Ok name).
Proof.
  split.
  - intro H. unfold _card_index_to_name.
    destruct (list_index_ranks (c mod 13)) as (name & ->);
      [ Z.div_mod_to_equations; lia |].
    cbn [bind]. unfold list_index. cbn [suits List.length Z.of_nat Pos.of_succ_nat Pos.succ].
    destruct H as [H | H].
    + replace (c / 13 <? 0) with false
        by (symmetry; apply Z.ltb_ge; Z.div_mod_to_equations; lia).
      replace (c / 13 <? 4) with false
        by (symmetry; apply Z.ltb_ge; Z.div_mod_to_equations; lia).
      rewrite andb_false_r. reflexivity.
    + replace (c / 13 <? 0) with true
        by (symmetry; apply Z.ltb_lt; Z.div_mod_to_equations; lia).
      replace (0 <=? c / 13 + 4) with false
        by (symmetry; apply Z.leb_gt; Z.div_mod_to_equations; lia).
      reflexivity.
  - intro H.
    pose (wraps := fun d =>
            match _card_index_to_name (d - 52), _card_index_to_name d with
            | Ok x, Ok y => String.eqb x y
            | _, _ => false
            end).
    assert (Hall : forallb wraps (range 52) = true) by (vm_compute; reflexivity).
    assert (Hd : wraps (c + 52) = true) by (apply (range_forall 52 _ Hall); lia).
    unfold wraps in Hd. replace (c + 52 - 52) with c in Hd by lia.
    destruct (_card_index_to_name c) as [x |]; [| discriminate ].
    destruct (_card_index_to_name (c + 52)) as [y |]; [| discriminate ].
    apply String.eqb_eq in Hd. subst y. split; [ reflexivity | eauto ].
Qed.

(** X13.  The card predicates agree with the tables behind the names: for
    every suit number [s] and every rank [r] in 0..12, card [13 * s + r] is a
    heart exactly when [s = 2] (the suit named by the heart symbol), a
    diamond exactly when [s = 1], a queen exactly when [r = 10] (the rank
    named Q), and the king of hearts exactly when [s = 2] and [r = 11] (the
    rank named K).  The queen test looks at the rank alone, so it also holds
    of indices outside the deck such as 62 and -3. *)
Theorem card_predicates_by_suit_and_rank (s r : Z) :
  0 <= r < 13 ->
  _is_heart_card (13 * s + r) = (s =? 2) /\
  _is_diamond_card (13 * s + r) = (s =? 1) /\
  _is_queen_card (13 * s + r) = (r =? 10) /\
  _is_king_of_hearts (13 * s + r) = ((s =? 2) && (r =? 11))%bool /\
  nth_error suits 2 = Some "♥" /\ nth_error suits 1 = Some "♦" /\
  nth_error ranks 10 = Some "Q" /\ nth_error ranks 11 = Some "K" /\
  _is_queen_card 62 = true /\ _is_queen_card (-3) = true.
Proof.
  intro Hr.
  unfold _is_heart_card, _is_diamond_card, _is_queen_card, _is_king_of_hearts.
  assert (Hmod : (13 * s + r) mod 13 = r) by (Z.div_mod_to_equations; lia).
  rewrite Hmod.
  repeat split; try reflexivity.
  - destruct (s =? 2) eqn:E.
    + apply Z.eqb_eq in E. apply andb_true_iff. split; apply Z.leb_le; lia.
    + apply Z.eqb_neq in E. apply andb_false_iff.
      destruct (Z_lt_le_dec s 2); [ left | right ]; apply Z.leb_gt; lia.
  - destruct (s =? 1) eqn:E.
    + apply Z.eqb_eq in E. apply andb_true_iff. split; apply Z.leb_le; lia.
    + apply Z.eqb_neq in E. apply andb_false_iff.
      destruct (Z_lt_le_dec s 1); [ left | right ]; apply Z.leb_gt; lia.
  - destruct (13 * s + r =? 37) eqn:E.
    + apply Z.eqb_eq in E. symmetry. apply andb_true_iff.
      split; apply Z.eqb_eq; lia.
    + apply Z.eqb_neq in E. symmetry. apply andb_false_iff.
      destruct (Z.eq_dec s 2); [ right | left ]; apply Z.eqb_neq; lia.
Qed.

(** ** Card counting *)

Lemma filter_length_le' {A : Type} (f : A -> bool) (l : list A) :
  (List.length (filter f l) <= List.length l)%nat.
Proof.
  induction l as [| a l IH]; simpl; [ lia |].
  destruct (f a); simpl; lia.
Qed.

Lemma filter_split_length {A : Type} (f : A -> bool) (l : list A) :
  (List.length (filter f l) + List.length (filter (fun x => negb (f x)) l)
   = List.length l)%nat.
Proof.
  induction l as [| a l IH]; simpl; [ reflexivity |].
  destruct (f a); simpl; lia.
Qed.

Lemma filter_filter_length_le {A : Type} (f g : A -> bool) (l : list A) :
  (List.length (filter f (filter g l)) <= List.length (filter f l))%nat.
Proof.
  induction l as [| a l IH]; simpl; [ lia |].
  destruct (g a), (f a) eqn:E; simpl; rewrite ?E; simpl; lia.
Qed.

Lemma range_NoDup (n : nat) : NoDup (range n).
Proof.
  unfold range. generalize (seq_NoDup n 0).
  induction (seq 0 n) as [| a l IH]; simpl; intro H; [ constructor |].
  inversion H as [| ? ? Hnot Hl]; subst. constructor; [| now apply IH ].
  intro Hin. apply in_map_iff in Hin. destruct Hin as (b & Hb & Hin).
  apply Nat2Z.inj in Hb. now subst b.
Qed.

Lemma range_In (n : nat) (c : Z) : In c (range n) -> 0 <= c < Z.of_nat n.
Proof.
  unfold range. intro H. apply in_map_iff in H. destruct H as (k & <- & Hk).
  apply in_seq in Hk. lia.
Qed.

Lemma _process_cards_remaining (rq : request) (gs : processed) :
  _process_enhanced_game_state rq = Ok (Processed gs) ->
  exists h,
    gs_cards_played_history gs = Val h /\ gs_cards_remaining gs = 52 - size h.
Proof.
  unfold _process_enhanced_game_state.
  destruct (find _ required_fields); [ discriminate |].
  intro H.
  apply bind_Ok in H. destruct H as (pc & _ & H).
  apply bind_Ok in H. destruct H as (vc & _ & H).
  apply bind_Ok in H. destruct H as (n1 & H1 & H).
  apply bind_Ok in H. destruct H as (n2 & H2 & H).
  apply bind_Ok in H. destruct H as (n3 & H3 & H).
  apply bind_Ok in H. destruct H as (ph & _ & H).
  injection H as <-. cbn.
  destruct (dict_get (rq_cards_played_history rq) (Val [])) as [| h]; [ discriminate |].
  cbn in H2. injection H2 as <-. exists h. split; reflexivity.
Qed.

(** X14.  For every validated request the card counts of the context are
    taken over the cards of the deck that do not occur in the history: the
    total lies between [cards_remaining] of the processed state (52 minus
    the length of the history) and 52, hearts, queens and high cards number
    at most 13, 4 and 16 and at most the total.  The total equals
    [cards_remaining] when the history lists cards of the deck without
    repetition; a repeated or foreign entry makes [cards_remaining] too
    small. *)
Theorem remaining_card_counts (rq : request) (gs : processed) :
  _process_enhanced_game_state rq = Ok (Processed gs) ->
  exists h cc,
    gs_cards_played_history gs = Val h /\
    _analyze_remaining_cards gs = Ok cc /\
    gs_cards_remaining gs = 52 - size h /\
    gs_cards_remaining gs <= total_remaining cc <= 52 /\
    0 <= hearts_remaining cc <= 13 /\
    0 <= queens_remaining cc <= 4 /\
    0 <= high_cards_remaining cc <= 16 /\
    hearts_remaining cc <= total_remaining cc /\
    queens_remaining cc <= total_remaining cc /\
    high_cards_remaining cc <= total_remaining cc /\
    (NoDup h -> (forall c, In c h -> 0 <= c < 52) ->
     total_remaining cc = gs_cards_remaining gs).
Proof.
  intro Hp. destruct (_process_cards_remaining rq gs Hp) as (h & Hh & Hrem).
  exists h. unfold _analyze_remaining_cards. rewrite Hh. cbn [iter bind].
  eexists. split; [ reflexivity |]. split; [ reflexivity |].
  split; [ assumption |]. cbn [total_remaining hearts_remaining queens_remaining
                               high_cards_remaining].
  rewrite Hrem. unfold size.
  set (unseen := fun c => negb (existsb (Z.eqb c) h)).
  set (seen := fun c => existsb (Z.eqb c) h).
  assert (Hall : List.length (range 52) = 52%nat) by reflexivity.
  assert (Hsplit : (List.length (filter seen (range 52))
                    + List.length (filter unseen (range 52)) = 52)%nat).
  { rewrite <- Hall at 3. apply (filter_split_length seen). }
  assert (Hseen : (List.length (filter seen (range 52)) <= List.length h)%nat).
  { apply NoDup_incl_length; [ apply NoDup_filter, range_NoDup |].
    intros x Hx. apply filter_In in Hx. destruct Hx as [_ Hx].
    unfold seen in Hx. apply existsb_exists in Hx. destruct Hx as (y & Hy & Hxy).
    apply Z.eqb_eq in Hxy. now subst y. }
  pose proof (filter_length_le' _is_heart_card (filter unseen (range 52))) as Hh1.
  pose proof (filter_length_le' _is_queen_card (filter unseen (range 52))) as Hq1.
  pose proof (filter_length_le' (fun c => 9 <=? c mod 13) (filter unseen (range 52)))
    as Hc1.
  pose proof (filter_filter_length_le _is_heart_card unseen (range 52)) as Hh2.
  pose proof (filter_filter_length_le _is_queen_card unseen (range 52)) as Hq2.
  pose proof (filter_filter_length_le (fun c => 9 <=? c mod 13) unseen (range 52))
    as Hc2.
  assert (H13 : List.length (filter _is_heart_card (range 52)) = 13%nat) by reflexivity.
  assert (H4 : List.length (filter _is_queen_card (range 52)) = 4%nat) by reflexivity.
  assert (H16 : List.length (filter (fun c => 9 <=? c mod 13) (range 52)) = 16%nat)
    by reflexivity.
  repeat split; try lia.
  intros Hnd Hdeck.
  assert (Hperm : Permutation (filter seen (range 52)) h).
  { apply NoDup_Permutation; [ apply NoDup_filter, range_NoDup | assumption |].
    intro x. rewrite filter_In. unfold seen. split.
    - intros [_ Hx]. apply existsb_exists in Hx. destruct Hx as (y & Hy & Hxy).
      apply Z.eqb_eq in Hxy. now subst y.
    - intro Hx. split; [ apply in_range; now apply Hdeck |].
      apply existsb_exists. exists x. split; [ assumption | apply Z.eqb_refl ]. }
  apply Permutation_length in Hperm. lia.
Qed.

(** ** Validation: absent and null entries *)

(** X15.  Validation tests the presence of the four required keys and
    nothing else: it returns the invalid record exactly when one of
    player_cards, valid_cards, game_mode, current_player is absent.  With
    all four present it yields a processed state, or raises a TypeError when
    a list whose length it takes, or the trick number, is null. *)
Theorem invalid_exactly_when_a_required_key_is_absent (rq : request) :
  ((exists err, _process_enhanced_game_state rq = Ok (Invalid err))
   <-> (exists f, In f required_fields /\ has_key rq f = false)) /\
  ((forall f, In f required_fields -> has_key rq f = true) ->
   (exists gs, _process_enhanced_game_state rq = Ok (Processed gs))
   \/ (exists e, _process_enhanced_game_state rq = Raise e /\
                 exn_kind_of e = TypeError)).
Proof.
  assert (Hmiss : (exists f, In f required_fields /\ has_key rq f = false) ->
                  exists x, _process_enhanced_game_state rq
                            = Ok (Invalid ("Missing required field: " ++ x))).
  { intros (f & Hin & Hf).
    destruct (find_first (fun field => negb (has_key rq field)) required_fields)
      as (x & b & a & Hfind & _).
    { exists f. split; [ assumption | now rewrite Hf ]. }
    exists x. unfold _process_enhanced_game_state. now rewrite Hfind. }
  assert (Hpres : (forall f, In f required_fields -> has_key rq f = true) ->
                  (exists gs, _process_enhanced_game_state rq = Ok (Processed gs))
                  \/ (exists e, _process_enhanced_game_state rq = Raise e /\
                                exn_kind_of e = TypeError)).
  { intro Hall. unfold _process_enhanced_game_state.
    destruct (find _ required_fields) as [x |] eqn:E.
    { apply find_some in E. destruct E as [Hin Hx].
      rewrite (Hall x Hin) in Hx. discriminate. }
    assert (H1 := Hall "player_cards" (or_introl eq_refl)).
    assert (H2 := Hall "valid_cards" (or_intror (or_introl eq_refl))).
    cbn in H1, H2.
    destruct (rq_player_cards rq) as [pc |]; [| discriminate ].
    destruct (rq_valid_cards rq) as [vc |]; [| discriminate ].
    cbn [getitem bind].
    destruct pc as [| pc]; [ right; eexists; split; reflexivity |].
    cbn [len bind].
    destruct (dict_get (rq_cards_played_history rq) (Val [])) as [| h];
      [ right; eexists; split; reflexivity |].
    cbn [len bind].
    destruct (dict_get (rq_played_cards rq) (Val [])) as [| pl];
      [ right; eexists; split; reflexivity |].
    cbn [len bind].
    destruct (dict_get (rq_trick_number rq) (Val 1)) as [| tn];
      [ right; eexists; split; reflexivity |].
    destruct (_classify_game_phase_Val tn) as (ph & ->). cbn [bind].
    left. eauto. }
  assert (Hdec : (exists f, In f required_fields /\ has_key rq f = false)
                 \/ (forall f, In f required_fields -> has_key rq f = true)).
  { destruct (find (fun f => negb (has_key rq f)) required_fields) as [x |] eqn:F.
    - apply find_some in F. destruct F as [Hin Hx].
      left. exists x. split; [ assumption | now apply negb_true_iff ].
    - right. intros x Hx.
      apply (find_none _ _ F) in Hx. now apply negb_false_iff. }
  split; [ split |].
  - intros (err & Herr).
    destruct Hdec as [H | H]; [ assumption |].
    destruct (Hpres H) as [(gs & Hgs) | (e & He & _)]; congruence.
  - intro H. destruct (Hmiss H) as (x & Hx). eauto.
  - exact Hpres.
Qed.

Lemma _process_null_valid_cards (rq : request) :
  well_formed rq = true ->
  exists gs,
    _process_enhanced_game_state (with_valid_cards rq (Some Null)) = Ok (Processed gs) /\
    gs_player_cards gs = Val (hand_cards rq) /\
    gs_valid_cards gs = Null /\
    gs_game_mode gs = Val (mode_of rq) /\
    gs_played_cards gs = Val (played_of rq) /\
    gs_cards_played_history gs = Val (history_of rq).
Proof.
  destruct rq as [pc vc gm pl cp tw pp tn h].
  unfold well_formed, with_valid_cards, hand_cards, mode_of, played_of, history_of.
  simpl. intro H.
  repeat (apply andb_prop in H; destruct H as [H ?]).
  destruct pc as [[| pc] |]; try discriminate.
  destruct vc as [[| vc] |]; try discriminate.
  destruct gm as [[| gm] |]; try discriminate.
  destruct cp as [[| cp] |]; try discriminate.
  assert (Hph : exists ph, _classify_game_phase (dict_get tn (Val 1)) = Ok ph).
  { destruct tn as [[| tn] |]; try discriminate; apply _classify_game_phase_Val. }
  destruct Hph as (ph & Hph).
  unfold _process_enhanced_game_state. simpl. rewrite Hph.
  destruct pl as [[| pl] |]; try discriminate;
    destruct h as [[| h] |]; try discriminate;
    simpl; eexists; repeat split.
Qed.

(** X16.  A null under [valid_cards] is not caught by validation.  In a
    penalty mode (hearts, queens, king_of_hearts, diamonds) the risk
    assessment iterates over it and the caller gets the error response with
    Python's message "'NoneType' object is not iterable"; in any other mode
    nothing touches it before the fallback, whose emptiness test takes it
    for an empty list: the response is "No valid cards". *)
Theorem null_valid_cards
    (np_random : list Z -> result (list Q)) (self : engine) (rq : request) :
  well_formed rq = true ->
  snd (get_ai_move np_random self (with_valid_cards rq (Some Null)))
  = if existsb (String.eqb (lower_string (mode_of rq))) penalty_modes
    then _create_error_response "'NoneType' object is not iterable"
    else _create_error_response "No valid cards".
Proof.
  intro Hwf.
  destruct (_process_null_valid_cards rq Hwf) as (gs & Hp & Hpc & Hv & Hm & Hpl & Hh).
  rewrite get_ai_move_response, Hp.
  unfold _analyze_strategic_context. rewrite Hpl, Hm. cbn [len lower bind].
  unfold _assess_hearts_risk, _assess_queens_risk, _assess_king_hearts_risk,
    _assess_diamonds_risk.
  rewrite Hv. cbn [iter bind].
  unfold penalty_modes. cbn [existsb].
  destruct (String.eqb (lower_string (mode_of rq)) "hearts"); [ reflexivity |].
  destruct (String.eqb (lower_string (mode_of rq)) "queens"); [ reflexivity |].
  destruct (String.eqb (lower_string (mode_of rq)) "king_of_hearts"); [ reflexivity |].
  destruct (String.eqb (lower_string (mode_of rq)) "diamonds"); [ reflexivity |].
  cbn [orb bind].
  unfold _analyze_remaining_cards, _plan_future_tricks. rewrite Hh, Hpc.
  cbn [iter len bind].
  destruct (8 <? Z.of_nat (List.length (hand_cards rq)));
    [| destruct (4 <? Z.of_nat (List.length (hand_cards rq))) ];
    cbn [bind]; unfold _get_enhanced_fallback_decision; rewrite Hv; reflexivity.
Qed.

(** ** The engine: construction, what a call keeps, and the statistics *)

Lemma constructor_facts (env : environment) (self : engine) :
  __init__ env = Ok self ->
  torch_imported env = true /\
  model_loaded self
    = (sb3_imported env
       && path_exists env "assets/ai_models/claude_sonnet_ai/policy.pth")%bool /\
  has_primary self = model_loaded self /\
  map fst (models self)
    = (if sb3_imported env
       then ((if path_exists env "assets/ai_models/claude_sonnet_ai/policy.pth"
              then ["Claude Sonnet (Gen 100)"] else [])
             ++ (if path_exists env "assets/ai_models/chatgpt_ai/policy.pth"
                 then ["ChatGPT (Gen 99)"] else []))%list
       else []) /\
  decisions_made self = 0 /\ confidence_total self = 0%Q.
Proof.
  destruct env as [t s pe]. unfold __init__, _load_elite_models, PYTORCH_AVAILABLE.
  cbn [torch_imported sb3_imported path_exists].
  destruct t; cbn [negb andb]; [| discriminate ].
  destruct s; cbn [negb].
  - unfold elite_models, load_model.
    cbn [fold_left info_path info_name info_primary info_generation].
    change (path_join "assets/ai_models/claude_sonnet_ai" "policy.pth")
      with "assets/ai_models/claude_sonnet_ai/policy.pth".
    change (path_join "assets/ai_models/chatgpt_ai" "policy.pth")
      with "assets/ai_models/chatgpt_ai/policy.pth".
    destruct (pe "assets/ai_models/claude_sonnet_ai/policy.pth") eqn:E1;
      destruct (pe "assets/ai_models/chatgpt_ai/policy.pth") eqn:E2;
      cbn; rewrite ?E1, ?E2; cbn;
      intro H; injection H as <-; repeat split.
  - cbn. intro H. injection H as <-. repeat split.
Qed.

(** X17.  The constructor raises when [import torch] failed (the name
    [torch] is unbound at [torch.device]), and builds an engine otherwise.
    The engine has [model_loaded] exactly when both imports succeeded and the
    file of the primary model exists; then and only then a primary model is
    among [models].  The backup model is stored when its file exists, but
    alone it never sets [model_loaded].  Both counters start at zero. *)
Theorem constructed_engine (env : environment) :
  (torch_imported env = false ->
   __init__ env = Raise (Exn OtherError "name 'torch' is not defined")) /\
  (torch_imported env = true ->
   exists self,
     __init__ env = Ok self /\
     model_loaded self
       = (sb3_imported env
          && path_exists env "assets/ai_models/claude_sonnet_ai/policy.pth")%bool /\
     has_primary self = model_loaded self /\
     stats_models_available (get_performance_stats self)
       = (if sb3_imported env
          then ((if path_exists env "assets/ai_models/claude_sonnet_ai/policy.pth"
                 then ["Claude Sonnet (Gen 100)"] else [])
                ++ (if path_exists env "assets/ai_models/chatgpt_ai/policy.pth"
                    then ["ChatGPT (Gen 99)"] else []))%list
          else []) /\
     decisions_made self = 0 /\ confidence_total self = 0%Q).
Proof.
  split; intro Ht.
  - unfold __init__. now rewrite Ht.
  - destruct (__init__ env) as [self | e] eqn:E.
    + exists self. split; [ reflexivity |].
      destruct (constructor_facts env self E) as (_ & H1 & H2 & H3 & H4 & H5).
      auto.
    + unfold __init__ in E. rewrite Ht in E. discriminate.
Qed.

Lemma get_ai_move_keeps_models
    (np_random : list Z -> result (list Q)) (self : engine) (rq : request) :
  models (fst (get_ai_move np_random self rq)) = models self /\
  model_loaded (fst (get_ai_move np_random self rq)) = model_loaded self.
Proof.
  unfold get_ai_move, decide.
  destruct (_process_enhanced_game_state rq) as [[err | gs] | e];
    try (split; reflexivity).
  destruct (_analyze_strategic_context gs) as [ctx | e]; [| split; reflexivity ].
  assert (Hfb : forall s,
             models s = models self -> model_loaded s = model_loaded self ->
             let out :=
               match _get_enhanced_fallback_decision s gs ctx with
               | (s', Ok resp) => (s', resp)
               | (s', Raise e) =>
                   (print s' ("❌ Enhanced AI error: " ++ str e),
                    _create_error_response (str e))
               end in
             models (fst out) = models self /\
             model_loaded (fst out) = model_loaded self).
  { intros s Hm Hl.
    destruct (fallback_cases s gs ctx) as [-> | [(e & ->) | (r & c & -> & _)]];
      cbn; split; assumption. }
  destruct (model_loaded (count_decision self)) eqn:El.
  - pose proof (_get_elite_ai_decision_fails np_random (count_decision self) gs ctx)
      as He.
    destruct (_get_elite_ai_decision np_random (count_decision self) gs ctx)
      as [s1 r1].
    destruct He as [Hs Hself]. rewrite Hs.
    apply Hfb; destruct Hself as [-> | (e & ->)]; reflexivity.
  - apply Hfb; reflexivity.
Qed.

Lemma counters_step
    (np_random : list Z -> result (list Q)) (self : engine) (rq : request) :
  0 <= decisions_made self ->
  (0 <= confidence_total self <= inject_Z (decisions_made self))%Q ->
  0 <= decisions_made (fst (get_ai_move np_random self rq)) /\
  (0 <= confidence_total (fst (get_ai_move np_random self rq))
   <= inject_Z (decisions_made (fst (get_ai_move np_random self rq))))%Q.
Proof.
  intros Hd [H0 H1].
  destruct (get_ai_move_cases np_random self rq)
    as [Hd' [[_ Hc] | (c & ctx & _ & _ & _ & _ & Hc)]]; rewrite Hd', Hc.
  - split; [ lia |]. rewrite inject_Z_plus. change (inject_Z 1) with 1%Q.
    split; [ assumption | lra ].
  - split; [ lia |]. unfold fadd.
    rewrite Qred_correct, fallback_confidence_values, inject_Z_plus.
    change (inject_Z 1) with 1%Q.
    destruct (position_advantage ctx); split; lra.
Qed.

Lemma average_bounds (self : engine) :
  0 <= decisions_made self ->
  (0 <= confidence_total self <= inject_Z (decisions_made self))%Q ->
  (0 <= stats_average_confidence (get_performance_stats self) <= 1)%Q.
Proof.
  intros Hd [H0 H1].
  unfold get_performance_stats, fdiv, of_int. cbn [stats_average_confidence].
  rewrite Qred_correct.
  set (m := Z.max 1 (decisions_made self)).
  assert (Hm : (0 < inject_Z m)%Q).
  { change 0%Q with (inject_Z 0). rewrite <- Zlt_Qlt. subst m. lia. }
  assert (Hle : (inject_Z (decisions_made self) <= inject_Z m)%Q).
  { rewrite <- Zle_Qle. subst m. lia. }
  split.
  - apply Qle_shift_div_l; [ assumption | lra ].
  - apply Qle_shift_div_r; [ assumption | lra ].
Qed.

(** X18.  On every engine a program can hold (constructed, then used for
    any calls of [get_ai_move]): [model_loaded] implies a primary model among
    [models]; [decisions_made] is not negative; [confidence_total] is not
    negative and never exceeds [decisions_made]; and the average confidence
    that [get_performance_stats] reports, which divides by [max(1,
    decisions_made)], is a confidence: it lies in [0, 1].  The bounds are by
    whole numbers, so they hold for the rounded binary64 sum as they do for
    the exact one: every confidence added is below 1, the whole numbers up
    to 2^53 are binary64 values and rounding is monotone, so a rounded sum
    that is at most [n] stays at most [n + 1] after one more addition (and
    at 2^53 it no longer grows).  The sharper bound 0.85 * decisions_made
    holds for the exact sum only. *)
Theorem reachable_engine_invariants (env : environment) (self : engine) :
  reachable env self ->
  (model_loaded self = true -> has_primary self = true) /\
  0 <= decisions_made self /\
  (0 <= confidence_total self <= inject_Z (decisions_made self))%Q /\
  (0 <= stats_average_confidence (get_performance_stats self) <= 1)%Q.
Proof.
  intro Hr.
  assert (Hinv : (model_loaded self = true -> has_primary self = true) /\
                 0 <= decisions_made self /\
                 (0 <= confidence_total self <= inject_Z (decisions_made self))%Q).
  { induction Hr as [self Hinit | self np_random rq Hr IH].
    - destruct (constructor_facts env self Hinit) as (_ & _ & Hp & _ & Hd & Hc).
      rewrite Hd, Hc, Hp. split; [ auto |]. split; [ lia |].
      split; [ apply Qle_refl | discriminate ].
    - destruct IH as (Hp & Hd & Hc).
      destruct (get_ai_move_keeps_models np_random self rq) as [Hm Hl].
      split.
      + unfold has_primary. rewrite Hm, Hl. exact Hp.
      + now apply counters_step. }
  destruct Hinv as (Hp & Hd & Hc).
  split; [ assumption |]. split; [ assumption |]. split; [ assumption |].
  now apply average_bounds.
Qed.

(** ** Why the learned-policy attempt fails *)

Lemma _generate_strategic_reasoning_KeyError
    (card : Z) (gs : processed) (ctx : context) (m : string) :
  gs_game_mode gs = Val m -> -52 <= card < 52 ->
  _generate_strategic_reasoning card gs ctx = Raise (Exn KeyError "'position_type'").
Proof.
  intros Hm Hc. unfold _generate_strategic_reasoning. rewrite Hm.
  assert (Hname : exists name, _card_index_to_name card = Ok name).
  { destruct (Z_lt_le_dec card 0) as [Hneg | Hpos].
    - pose (named := fun d =>
              match _card_index_to_name (d - 52) with Ok _ => true | _ => false end).
      assert (Hall : forallb named (range 52) = true) by (vm_compute; reflexivity).
      assert (Hd : named (card + 52) = true) by (apply (range_forall 52 _ Hall); lia).
      unfold named in Hd. replace (card + 52 - 52) with card in Hd by lia.
      destruct (_card_index_to_name card); [ eauto | discriminate ].
    - pose (named := fun d =>
              match _card_index_to_name d with Ok _ => true | _ => false end).
      assert (Hall : forallb named (range 52) = true) by (vm_compute; reflexivity).
      assert (Hd : named card = true) by (apply (range_forall 52 _ Hall); lia).
      unfold named in Hd.
      destruct (_card_index_to_name card); [ eauto | discriminate ]. }
  destruct Hname as (name & ->). reflexivity.
Qed.

(** X19.  [_generate_strategic_reasoning] never returns a text.  For a card
    index from -52 to 51 and a game mode that is a string, the exception is
    the KeyError of [strategic_context['position_type']]: the context that
    the analysis builds has no such entry. *)
Theorem strategic_reasoning_always_raises
    (card : Z) (gs : processed) (ctx : context) :
  (forall text, _generate_strategic_reasoning card gs ctx <> Ok text) /\
  (forall m, gs_game_mode gs = Val m -> -52 <= card < 52 ->
     _generate_strategic_reasoning card gs ctx
     = Raise (Exn KeyError "'position_type'")).
Proof.
  split.
  - intros text H. unfold _generate_strategic_reasoning in H.
    destruct (_card_index_to_name card) as [name | e]; [| discriminate ].
    cbn [bind] in H.
    destruct (lower (gs_game_mode gs)) as [m | e]; discriminate.
  - intros m. apply _generate_strategic_reasoning_KeyError.
Qed.

Lemma argmax_from_bound (l : list Q) :
  forall best_i best i,
    (best_i < i)%nat ->
    (argmax_from best_i best i l < i + List.length l)%nat.
Proof.
  induction l as [| p l IH]; intros best_i best i H; simpl.
  - lia.
  - destruct (Qle_bool p best).
    + specialize (IH best_i best (S i)). lia.
    + specialize (IH i p (S i)). lia.
Qed.

Lemma np_argmax_bound (l : list Q) (i : nat) :
  np_argmax l = Ok i -> (i < List.length l)%nat.
Proof.
  destruct l as [| p l]; [ discriminate |].
  simpl. intro H. injection H as <-.
  pose proof (argmax_from_bound l 0%nat p 1%nat). lia.
Qed.

Lemma list_index_Ok {A : Type} (l : list A) (i : nat) :
  (i < List.length l)%nat -> exists a, list_index l (Z.of_nat i) = Ok a /\ In a l.
Proof.
  intro H. unfold list_index.
  replace (Z.of_nat i <? 0) with false by (symmetry; apply Z.ltb_ge; lia).
  replace (0 <=? Z.of_nat i) with true by (symmetry; apply Z.leb_le; lia).
  replace (Z.of_nat i <? Z.of_nat (List.length l)) with true
    by (symmetry; apply Z.ltb_lt; lia).
  cbn [andb]. rewrite Nat2Z.id.
  destruct (nth_error l i) as [a |] eqn:E.
  - exists a. split; [ reflexivity | eapply nth_error_In; eauto ].
  - apply nth_error_None in E. lia.
Qed.

(** X20.  Even in the best case the learned-policy attempt yields no
    decision.  With a model loaded and a primary model stored, on a typed
    state whose legal cards are cards of the deck, and for every inference
    outcome that gives one probability per legal card,
    [_get_elite_ai_decision] selects a card, then fails on the missing
    context entry: it returns its failure dictionary, prints the KeyError,
    and leaves the counters as they were. *)
Theorem elite_attempt_fails_on_position_type
    (np_random : list Z -> result (list Q)) (self : engine) (gs : processed)
    (ctx : context) (pc vc pl : list Z) (tw tn : Z) (m : string) (ps : list Q) :
  model_loaded self = true -> has_primary self = true ->
  gs_player_cards gs = Val pc -> gs_valid_cards gs = Val vc ->
  gs_tricks_won gs = Val tw -> gs_trick_number gs = Val tn ->
  gs_played_cards gs = Val pl -> gs_game_mode gs = Val m ->
  vc <> [] -> (forall c, In c vc -> 0 <= c < 52) ->
  np_random vc = Ok ps -> List.length ps = List.length vc ->
  _get_elite_ai_decision np_random self gs ctx
  = (print self "❌ Elite AI decision failed: 'position_type'",
     elite_failure "Elite AI decision failed").
Proof.
  intros Hl Hprim Hpc Hvc Htw Htn Hpl Hm Hne Hdeck Hps Hlen.
  unfold _get_elite_ai_decision. rewrite Hl. cbn [negb].
  assert (Hatt : elite_attempt np_random self gs ctx
                 = Raise (Exn KeyError "'position_type'")).
  { unfold elite_attempt.
    assert (Hin : exists v, _prepare_neural_network_input gs ctx = Ok v).
    { unfold _prepare_neural_network_input. rewrite Hpc, Htw, Htn, Hpl, Hm.
      eexists. reflexivity. }
    destruct Hin as (v & ->). cbn [bind].
    unfold has_primary in Hprim.
    destruct (find (fun m0 => model_primary (snd m0)) (models self)) as [pm |] eqn:E.
    2:{ apply existsb_exists in Hprim. destruct Hprim as (x & Hx & Hxp).
        apply (find_none _ _ E) in Hx. congruence. }
    unfold _simulate_neural_network_inference. rewrite Hvc. cbn [len iter bind].
    rewrite Hps. cbn [bind].
    destruct (np_argmax ps) as [i | e] eqn:Ei.
    2:{ destruct ps; [| discriminate ].
        destruct vc; [ congruence | discriminate ]. }
    cbn [bind]. apply np_argmax_bound in Ei.
    unfold subscript.
    destruct (list_index_Ok vc i) as (c & -> & Hc); [ lia |].
    cbn [bind].
    destruct (list_index_Ok ps i Ei) as (q & -> & _). cbn [bind].
    rewrite (_generate_strategic_reasoning_KeyError c gs ctx m Hm);
      [ reflexivity | apply Hdeck in Hc; lia ]. }
  rewrite Hatt. reflexivity.
Qed.

(** ** The balanced policy without safe cards: a median by rank *)

Lemma insert_by_sorted (c : Z) (l : list Z) :
  StronglySorted (fun a b => rank a <= rank b) l ->
  StronglySorted (fun a b => rank a <= rank b) (insert_by rank c l).
Proof.
  induction 1 as [| d l Hs IH Hall]; simpl.
  - constructor; constructor.
  - destruct (rank c <=? rank d) eqn:E.
    + apply Z.leb_le in E. constructor; [ now constructor |].
      constructor; [ assumption |].
      rewrite Forall_forall in *. intros x Hx. specialize (Hall x Hx). lia.
    + apply Z.leb_gt in E. constructor; [ assumption |].
      rewrite Forall_forall in *. intros x Hx.
      eapply Permutation_in in Hx; [| apply insert_by_perm ].
      destruct Hx as [<- | Hx]; [ lia | now apply Hall ].
Qed.

Lemma sorted_by_rank (l : list Z) :
  StronglySorted (fun a b => rank a <= rank b) (sorted l rank).
Proof.
  induction l as [| c l IH]; simpl; [ constructor | now apply insert_by_sorted ].
Qed.

Lemma sorted_around (l1 l2 : list Z) (c : Z) :
  StronglySorted (fun a b => rank a <= rank b) (l1 ++ c :: l2) ->
  (forall d, In d l1 -> rank d <= rank c) /\ (forall d, In d l2 -> rank c <= rank d).
Proof.
  induction l1 as [| a l1 IH]; simpl; intro Hs.
  - apply StronglySorted_inv in Hs. destruct Hs as [_ Hall].
    rewrite Forall_forall in Hall. split; [ intros; contradiction | assumption ].
  - apply StronglySorted_inv in Hs. destruct Hs as [Hs Hall].
    destruct (IH Hs) as [H1 H2]. split; [| assumption ].
    rewrite Forall_forall in Hall.
    intros d [<- | Hd]; [| now apply H1 ].
    apply Hall. apply in_or_app. right. now left.
Qed.

Lemma filter_none {A : Type} (f : A -> bool) (l : list A) :
  (forall x, In x l -> f x = false) -> filter f l = [].
Proof.
  induction l as [| a l IH]; simpl; intro H; [ reflexivity |].
  rewrite (H a (or_introl eq_refl)). apply IH. intros x Hx. apply H. now right.
Qed.

Lemma Permutation_filter_length {A : Type} (f : A -> bool) (l l' : list A) :
  Permutation l l' -> List.length (filter f l) = List.length (filter f l').
Proof.
  induction 1 as [| x l l' Hp IH | x y l | l l' l'' H1 IH1 H2 IH2]; simpl.
  - reflexivity.
  - destruct (f x); simpl; now rewrite IH.
  - destruct (f x), (f y); reflexivity.
  - now rewrite IH1.
Qed.

(** X21.  Where the balanced policy has no safe card to pick from (a mode
    without penalty cards, or every legal card a penalty card), the card it
    returns is a median of the legal cards by rank: at most half of them
    have a strictly lower rank, and fewer than half a strictly higher
    one. *)
Theorem balanced_median_by_rank (gs : processed) (m : string) (vc : list Z) :
  gs_game_mode gs = Val m ->
  vc <> [] ->
  (if existsb (String.eqb (lower_string m)) penalty_modes
   then safe_cards_of (lower_string m) vc else []) = [] ->
  exists c,
    _select_balanced_card (Val vc) gs = Ok c /\ In c vc /\
    size (filter (fun d => rank d <? rank c) vc) <= size vc / 2 /\
    size (filter (fun d => rank c <? rank d) vc) <= (size vc - 1) / 2.
Proof.
  intros Hm Hne Hsafe.
  rewrite (_select_balanced_card_Val gs m vc Hm), Hsafe.
  pose proof (sorted_perm rank vc) as Hperm.
  assert (Hs : sorted vc rank <> []).
  { intro E. apply Hne. apply Permutation_nil. rewrite <- E. exact Hperm. }
  destruct (middle_In _ Hs) as (c & Hc & Hnth & Hin).
  exists c. split; [ assumption |].
  split; [ eapply Permutation_in; eauto |].
  destruct (nth_error_split _ _ Hnth) as (l1 & l2 & Heq & Hl1).
  pose proof (sorted_by_rank vc) as Hsorted. rewrite Heq in Hsorted.
  destruct (sorted_around l1 l2 c Hsorted) as [Hlow Hhigh].
  assert (Hlen : List.length (sorted vc rank) = List.length vc)
    by now apply Permutation_length.
  assert (Htotal : (List.length l1 + S (List.length l2) = List.length vc)%nat).
  { rewrite <- Hlen, Heq, length_app. reflexivity. }
  unfold size.
  rewrite <- (Permutation_filter_length (fun d => rank d <? rank c) _ _ Hperm).
  rewrite <- (Permutation_filter_length (fun d => rank c <? rank d) _ _ Hperm).
  rewrite Heq, !filter_app. cbn [filter].
  rewrite Z.ltb_irrefl.
  rewrite (filter_none (fun d => rank d <? rank c) l2)
    by (intros x Hx; apply Z.ltb_ge; now apply Hhigh).
  rewrite (filter_none (fun d => rank c <? rank d) l1)
    by (intros x Hx; apply Z.ltb_ge; now apply Hlow).
  rewrite app_nil_r. cbn [app].
  pose proof (filter_length_le' (fun d => rank d <? rank c) l1) as H1.
  pose proof (filter_length_le' (fun d => rank c <? rank d) l2) as H2.
  rewrite Hlen in Hl1.
  assert (Hhalf : Z.of_nat (List.length vc / 2) = Z.of_nat (List.length vc) / 2)
    by now rewrite Nat2Z.inj_div.
  split; Z.div_mod_to_equations; lia.
Qed.

(** ** The feature vector of the derived context, and the engine frame *)

(** X22.  In the feature vector built from the context that the analysis
    derives, the risk entry (index 9) is 0.0 with at most one card in the
    trick and 0.5 otherwise, never 1.0, and does not depend on the legal
    cards or on the per-mode penalty risk; the five mode entries (indices 4
    to 8) are all zero for a mode that is none of the five known ones. *)
Theorem derived_feature_vector
    (gs : processed) (ctx : context) (pc vc pl h : list Z) (tw tn : Z) (m : string) :
  gs_player_cards gs = Val pc -> gs_valid_cards gs = Val vc ->
  gs_tricks_won gs = Val tw -> gs_trick_number gs = Val tn ->
  gs_played_cards gs = Val pl -> gs_game_mode gs = Val m ->
  gs_cards_played_history gs = Val h ->
  _analyze_strategic_context gs = Ok ctx ->
  exists v,
    _prepare_neural_network_input gs ctx = Ok v /\
    nth_error v 9 = Some (if size pl <=? 1 then 0 else 1 # 2)%Q /\
    (existsb (String.eqb (lower_string m)) game_modes = false ->
     firstn 5 (skipn 4 v) = [0; 0; 0; 0; 0]%Q).
Proof.
  intros Hpc Hvc Htw Htn Hpl Hm Hh Hctx.
  pose proof (derived_risk_level gs pc vc m pl h ctx Hpc Hvc Hm Hpl Hh Hctx) as Hrisk.
  unfold _prepare_neural_network_input.
  rewrite Hpc, Htw, Htn, Hpl, Hm.
  eexists. split; [ reflexivity |].
  split.
  - cbn -[risk_levels]. now rewrite Hrisk.
  - intro Hunk. unfold game_modes in Hunk. cbn [existsb] in Hunk.
    repeat (apply orb_false_iff in Hunk; destruct Hunk as [? Hunk]).
    cbn [firstn skipn app mapM game_modes bind lower].
    repeat match goal with
           | E : String.eqb _ _ = false |- _ => rewrite E; clear E
           end.
    reflexivity.
Qed.

(** X23.  A call of [get_ai_move] never touches [models] or [model_loaded],
    and it only appends to the standard output: at most two lines, the
    failure of the learned-policy attempt and the caught exception. *)
Theorem get_ai_move_engine_frame
    (np_random : list Z -> result (list Q)) (self : engine) (rq : request) :
  models (fst (get_ai_move np_random self rq)) = models self /\
  model_loaded (fst (get_ai_move np_random self rq)) = model_loaded self /\
  exists lines,
    stdout (fst (get_ai_move np_random self rq)) = (stdout self ++ lines)%list /\
    (List.length lines <= 2)%nat /\
    (model_loaded self = false -> success (snd (get_ai_move np_random self rq)) = true ->
     lines = []).
Proof.
  destruct (get_ai_move_keeps_models np_random self rq) as [Hm Hl].
  split; [ assumption |]. split; [ assumption |].
  unfold get_ai_move, decide.
  assert (Hfb : forall gs ctx s pre,
             stdout s = (stdout self ++ pre)%list ->
             let out :=
               match _get_enhanced_fallback_decision s gs ctx with
               | (s', Ok resp) => (s', resp)
               | (s', Raise e) =>
                   (print s' ("❌ Enhanced AI error: " ++ str e),
                    _create_error_response (str e))
               end in
             exists post,
               stdout (fst out) = (stdout self ++ pre ++ post)%list /\
               (List.length post <= 1)%nat /\
               (success (snd out) = true -> post = [])).
  { intros gs ctx s pre Hs.
    destruct (fallback_cases s gs ctx) as [-> | [(e & ->) | (r & c & -> & _)]]; cbn.
    - exists []. rewrite app_nil_r.
      split; [ assumption |]. split; [ cbn; lia | reflexivity ].
    - exists [("❌ Enhanced AI error: " ++ str e)%string].
      rewrite Hs, <- app_assoc.
      split; [ reflexivity |]. split; [ cbn; lia | discriminate ].
    - exists []. rewrite app_nil_r.
      split; [ assumption |]. split; [ cbn; lia | reflexivity ]. }
  assert (Hexn : forall e,
             exists lines,
               stdout (print (count_decision self) ("❌ Enhanced AI error: " ++ str e))
               = (stdout self ++ lines)%list /\
               (List.length lines <= 2)%nat /\
               (model_loaded self = false ->
                success (_create_error_response (str e)) = true -> lines = [])).
  { intro e. exists [("❌ Enhanced AI error: " ++ str e)%string].
    split; [ reflexivity |]. split; [ cbn; lia |]. intros _ H. discriminate H. }
  destruct (_process_enhanced_game_state rq) as [[err | gs] | e].
  - exists []. cbn. rewrite app_nil_r.
    split; [ reflexivity |]. split; [ lia | reflexivity ].
  - destruct (_analyze_strategic_context gs) as [ctx | e]; [| apply Hexn ].
    destruct (model_loaded (count_decision self)) eqn:El.
    + pose proof (_get_elite_ai_decision_fails np_random (count_decision self) gs ctx)
        as He.
      destruct (_get_elite_ai_decision np_random (count_decision self) gs ctx)
        as [s1 r1].
      destruct He as [Hs Hself]. rewrite Hs.
      destruct Hself as [-> | (e & ->)].
      * destruct (Hfb gs ctx (count_decision self) []) as (post & H1 & H2 & H3);
          [ cbn; now rewrite app_nil_r |].
        exists post. cbn [app] in H1.
        split; [ assumption |]. split; [ lia |].
        cbn in El. intro Hf. congruence.
      * destruct (Hfb gs ctx
                    (print (count_decision self)
                       ("❌ Elite AI decision failed: " ++ str e))
                    [("❌ Elite AI decision failed: " ++ str e)%string])
          as (post & H1 & H2 & H3); [ reflexivity |].
        exists ([("❌ Elite AI decision failed: " ++ str e)%string] ++ post)%list.
        split; [ assumption |]. split; [ rewrite length_app; cbn; lia |].
        cbn in El. intro Hf. congruence.
    + destruct (Hfb gs ctx (count_decision self) []) as (post & H1 & H2 & H3);
        [ cbn; now rewrite app_nil_r |].
      exists post. cbn [app] in H1.
      split; [ assumption |]. split; [ lia |].
      intros _. exact H3.
  - apply Hexn.
Qed.

(** ** The further properties at concrete inputs *)

Lemma rule_based_decision_witness :
  well_formed test_state = true /\
  legal_cards test_state <> [] /\
  best_card (snd (get_ai_move uniform_inference loaded_engine test_state)) = Some 0 /\
  confidence (snd (get_ai_move uniform_inference loaded_engine test_state))
  = Some (13 # 20)%Q.
Proof.
  split; [ reflexivity |]. split; [ discriminate |].
  destruct (rule_based_decision uniform_inference loaded_engine test_state)
    as (c & Hc & Hb & Hq & _); [ reflexivity | discriminate |].
  split; [| exact Hq ].
  rewrite Hb. vm_compute in Hc. injection Hc as <-. reflexivity.
Defined.

Lemma decision_frame_witness :
  let rq1 := test_state in
  let rq2 := make_request [5] [0; 13; 26] "KINGDOM" [40] in
  well_formed rq1 = true /\ well_formed rq2 = true /\
  best_card (snd (get_ai_move uniform_inference loaded_engine rq1))
  = best_card (snd (get_ai_move uniform_inference fresh_engine rq2)).
Proof.
  cbv zeta. split; [ reflexivity |]. split; [ reflexivity |].
  apply (decision_frame uniform_inference uniform_inference loaded_engine fresh_engine
           test_state (make_request [5] [0; 13; 26] "KINGDOM" [40]));
    reflexivity.
Defined.

Lemma unknown_mode_is_kingdom_witness :
  let rq1 := make_request [0; 13; 26; 39; 51] [0; 13; 26] "Tarneeb" [37] in
  well_formed rq1 = true /\
  existsb (String.eqb (lower_string (mode_of rq1))) penalty_modes = false /\
  best_card (snd (get_ai_move uniform_inference loaded_engine rq1))
  = best_card (snd (get_ai_move uniform_inference loaded_engine test_state)).
Proof.
  cbv zeta. split; [ reflexivity |]. split; [ reflexivity |].
  apply (unknown_mode_is_kingdom uniform_inference uniform_inference
           loaded_engine loaded_engine
           (make_request [0; 13; 26; 39; 51] [0; 13; 26] "Tarneeb" [37]) test_state);
    try reflexivity.
  discriminate.
Defined.

Lemma no_penalty_card_witness :
  let rq := make_request [26; 30; 5] [26; 30; 5] "hearts" [1; 2; 3] in
  well_formed rq = true /\
  safe_cards_of (lower_string (mode_of rq)) (legal_cards rq) <> [] /\
  exists c,
    best_card (snd (get_ai_move uniform_inference loaded_engine rq)) = Some c /\
    In c (legal_cards rq) /\
    penalty_in (lower_string (mode_of rq)) c = false.
Proof.
  cbv zeta. split; [ reflexivity |]. split; [ discriminate |].
  apply (no_penalty_card_when_a_safe_card_is_legal uniform_inference loaded_engine
           (make_request [26; 30; 5] [26; 30; 5] "hearts" [1; 2; 3]));
    [ reflexivity | discriminate ].
Defined.

Lemma informed_first_maximum_witness :
  let gs := state_of "hearts" [26; 5; 18; 30] [1; 2] in
  2 <= size [1; 2] /\
  safe_cards_of (lower_string "hearts") [26; 5; 18; 30] <> [] /\
  exists c before after,
    _select_informed_card (Val [26; 5; 18; 30]) gs late_context = Ok c /\
    safe_cards_of (lower_string "hearts") [26; 5; 18; 30] = (before ++ c :: after)%list /\
    (forall d, In d before -> rank d < rank c) /\
    (forall d, In d after -> rank d <= rank c).
Proof.
  cbv zeta. split; [ discriminate |]. split; [ discriminate |].
  apply (informed_first_maximum (state_of "hearts" [26; 5; 18; 30] [1; 2]) late_context
           "hearts" [26; 5; 18; 30] [1; 2]);
    [ reflexivity | reflexivity | discriminate | discriminate ].
Defined.

Lemma informed_without_safe_card_witness :
  let gs := state_of "hearts" [27; 26] [1; 2] in
  safe_cards_of (lower_string "hearts") [27; 26] = [] /\
  _select_informed_card (Val [27; 26]) gs late_context
  = _select_conservative_card (Val [27; 26]) gs.
Proof.
  cbv zeta. split; [ reflexivity |].
  apply (informed_without_safe_card_is_conservative
           (state_of "hearts" [27; 26] [1; 2]) late_context "hearts" [27; 26] [1; 2]);
    [ reflexivity | reflexivity | discriminate | reflexivity ].
Defined.

Lemma informed_never_defers_witness :
  let gs := state_of "Hearts" [26; 27; 1] [1; 2; 3] in
  _analyze_strategic_context gs = Ok late_context /\
  (strategy late_context = informed <-> 3 <= size [1; 2; 3]).
Proof.
  cbv zeta. split; [ reflexivity |].
  apply (informed_never_defers_to_balanced
           (state_of "Hearts" [26; 27; 1] [1; 2; 3]) late_context
           [26; 27; 1] [26; 27; 1] "Hearts" [1; 2; 3] []);
    reflexivity.
Defined.

Lemma card_predicates_witness :
  0 <= 11 < 13 /\ _is_king_of_hearts 37 = true /\ _is_heart_card 37 = true.
Proof.
  assert (H : 0 <= 11 < 13) by lia.
  split; [ exact H |].
  destruct (card_predicates_by_suit_and_rank 2 11 H) as (Hh & _ & _ & Hk & _).
  split; [ exact Hk | exact Hh ].
Defined.

Lemma remaining_card_counts_witness :
  exists gs cc,
    _process_enhanced_game_state test_state = Ok (Processed gs) /\
    _analyze_remaining_cards gs = Ok cc /\
    gs_cards_remaining gs <= total_remaining cc <= 52.
Proof.
  assert (H : {gs | _process_enhanced_game_state test_state = Ok (Processed gs)})
    by (eexists; reflexivity).
  destruct H as [gs Hgs].
  destruct (remaining_card_counts test_state gs Hgs)
    as (h & cc & _ & Hcc & _ & Hb & _).
  exists gs, cc. auto.
Defined.

Lemma null_valid_cards_witness :
  well_formed test_state = true /\
  snd (get_ai_move uniform_inference loaded_engine
         (with_valid_cards test_state (Some Null)))
  = _create_error_response "No valid cards".
Proof.
  split; [ reflexivity |].
  apply (null_valid_cards uniform_inference loaded_engine test_state). reflexivity.
Defined.

Lemma reachable_engine_witness :
  exists self,
    reachable (env_with ["assets/ai_models/claude_sonnet_ai/policy.pth"]) self /\
    decisions_made self = 1 /\
    (0 <= stats_average_confidence (get_performance_stats self) <= 1)%Q.
Proof.
  assert (R : {self |
                reachable (env_with ["assets/ai_models/claude_sonnet_ai/policy.pth"]) self
                /\ decisions_made self = 1}).
  { eexists. split.
    - eapply (reachable_move _ _ uniform_inference test_state), reachable_init.
      reflexivity.
    - reflexivity. }
  destruct R as (self & Hr & Hd).
  exists self. split; [ exact Hr |]. split; [ exact Hd |].
  exact (proj2 (proj2 (proj2 (reachable_engine_invariants _ self Hr)))).
Defined.

Lemma elite_attempt_witness :
  model_loaded loaded_engine = true /\ has_primary loaded_engine = true /\
  uniform_inference [0; 13; 26] = Ok [1 # 3; 1 # 3; 1 # 3]%Q /\
  _get_elite_ai_decision uniform_inference loaded_engine
    (state_of "hearts" [0; 13; 26] [37]) late_context
  = (print loaded_engine "❌ Elite AI decision failed: 'position_type'",
     elite_failure "Elite AI decision failed").
Proof.
  split; [ reflexivity |]. split; [ reflexivity |]. split; [ reflexivity |].
  apply (elite_attempt_fails_on_position_type uniform_inference loaded_engine
           (state_of "hearts" [0; 13; 26] [37]) late_context
           [0; 13; 26] [0; 13; 26] [37] 0 1 "hearts" [1 # 3; 1 # 3; 1 # 3]%Q);
    try reflexivity.
  - discriminate.
  - intros c [<- | [<- | [<- | []]]]; lia.
Defined.

Lemma balanced_median_witness :
  let gs := state_of "kingdom" [5; 0; 20; 33] [1; 2] in
  gs_game_mode gs = Val "kingdom" /\
  exists c,
    _select_balanced_card (Val [5; 0; 20; 33]) gs = Ok c /\ In c [5; 0; 20; 33] /\
    size (filter (fun d => rank d <? rank c) [5; 0; 20; 33]) <= size [5; 0; 20; 33] / 2 /\
    size (filter (fun d => rank c <? rank d) [5; 0; 20; 33])
      <= (size [5; 0; 20; 33] - 1) / 2.
Proof.
  cbv zeta. split; [ reflexivity |].
  apply (balanced_median_by_rank (state_of "kingdom" [5; 0; 20; 33] [1; 2])
           "kingdom" [5; 0; 20; 33]);
    [ reflexivity | discriminate | reflexivity ].
Defined.

Lemma derived_feature_vector_witness :
  let gs := state_of "Hearts" [26; 27; 1] [1; 2; 3] in
  _analyze_strategic_context gs = Ok late_context /\
  exists v,
    _prepare_neural_network_input gs late_context = Ok v /\
    nth_error v 9 = Some (1 # 2)%Q.
Proof.
  cbv zeta. split; [ reflexivity |].
  destruct (derived_feature_vector (state_of "Hearts" [26; 27; 1] [1; 2; 3])
              late_context [26; 27; 1] [26; 27; 1] [1; 2; 3] [] 0 1 "Hearts"
              eq_refl eq_refl eq_refl eq_refl eq_refl eq_refl eq_refl eq_refl)
    as (v & Hv & H9 & _).
  exists v. split; [ exact Hv | exact H9 ].
Defined.
